(** * release_builder.py: a shallow embedding of the Universe release pipeline

    The tool promotes a stub-universe package into the Universe repository:
    it rewrites the package metadata, mirrors the artifacts to S3, creates a
    new revision directory in a clone of the repository and opens a pull
    request.  Python values are modelled as follows:

    - [str] is [string]; the text of a file is the [string] that [read()]
      returns for it;
    - [int] is [Z], [str(n)] is stdpp's [pretty];
    - a directory is an association list from entry names to nodes, in the
      order [os.listdir] reports them;
    - [os.environ] is a [gmap string string];
    - a [dict] read from JSON is an association list in insertion order;
    - exceptions are values of [error], carried by the left summand of
      [result]; effects on the outside world are recorded as a trace of
      [event]s, and what the outside world answers is read from a [World].

    Calls to [logger] only produce diagnostics and are left out. *)

From Stdlib Require Import ZArith Ascii String List Lia.
From stdpp Require Import base tactics option list sorting strings pretty gmap.

Open Scope string_scope.
Set Warnings "-clear-no-such-hyp".

(* Let [simpl] compute [+:+] on texts. *)
#[local] Arguments String.append : simpl nomatch.

(** ** Python [str] helpers *)

Module Str.

Definition nl : ascii := "010"%char.
Definition dquote : ascii := "034"%char.
Definition slash : ascii := "/"%char.

Definition is_nl (c : ascii) : bool := Ascii.eqb c nl.

(** [str.isspace] on an ASCII character: tab, LF, VT, FF, CR, the file,
    group, record and unit separators, and space. *)
Definition is_space (c : ascii) : bool :=
  let n := nat_of_ascii c in
  ((9 <=? n) && (n <=? 13) || (28 <=? n) && (n <=? 32))%nat.

Fixpoint starts_with (p s : string) : bool :=
  match p, s with
  | EmptyString, _ => true
  | String a p', String b s' => Ascii.eqb a b && starts_with p' s'
  | String _ _, EmptyString => false
  end.

Fixpoint drop (n : nat) (s : string) : string :=
  match n, s with
  | O, _ => s
  | S n', String _ s' => drop n' s'
  | S _, EmptyString => EmptyString
  end.

Fixpoint take (n : nat) (s : string) : string :=
  match n, s with
  | O, _ => EmptyString
  | S n', String c s' => String c (take n' s')
  | S _, EmptyString => EmptyString
  end.

(** [s.split(sep)] for a one-character separator: never the empty list. *)
Fixpoint split (sep : ascii) (s : string) : list string :=
  match s with
  | EmptyString => [EmptyString]
  | String c s' =>
      if Ascii.eqb c sep then EmptyString :: split sep s'
      else match split sep s' with
           | w :: ws => String c w :: ws
           | [] => [String c EmptyString]
           end
  end.

(** [sep.join(l)] *)
Fixpoint join (sep : string) (l : list string) : string :=
  match l with
  | [] => EmptyString
  | [w] => w
  | w :: ws => w +:+ sep +:+ join sep ws
  end.

(** [''.join(l)] *)
Fixpoint concat (l : list string) : string :=
  match l with
  | [] => EmptyString
  | w :: ws => w +:+ concat ws
  end.

(** [l[:-1]] and [l[-1]] on a list of strings. *)
Definition but_last (l : list string) : list string := removelast l.
Definition last_of (l : list string) : string := List.last l EmptyString.

(** [s.rstrip(c)] for one character, and [s.rstrip()] for whitespace. *)
Fixpoint rstrip_by (f : ascii -> bool) (s : string) : string :=
  match s with
  | EmptyString => EmptyString
  | String c s' =>
      match rstrip_by f s' with
      | EmptyString => if f c then EmptyString else String c EmptyString
      | t => String c t
      end
  end.

Fixpoint last_char (s : string) : option ascii :=
  match s with
  | EmptyString => None
  | String c EmptyString => Some c
  | String _ s' => last_char s'
  end.

Definition rstrip_char (c : ascii) : string -> string := rstrip_by (Ascii.eqb c).
Definition rstrip : string -> string := rstrip_by is_space.

(** [s.replace(old, new)]: occurrences are found left to right and do not
    overlap.  [go] skips the [skip] characters that remain of an
    occurrence already replaced.  With an empty [old] Python puts [new]
    before every character and at the end. *)
Fixpoint replace_go (old new s : string) (skip : nat) : string :=
  match s with
  | EmptyString => EmptyString
  | String c s' =>
      match skip with
      | S k => replace_go old new s' k
      | O =>
          if starts_with old s
          then new +:+ replace_go old new s' (String.length old - 1)
          else String c (replace_go old new s' 0)
      end
  end.

Fixpoint interleave (new s : string) : string :=
  match s with
  | EmptyString => new
  | String c s' => new +:+ String c (interleave new s')
  end.

Definition replace (old new s : string) : string :=
  match old with
  | EmptyString => interleave new s
  | _ => replace_go old new s 0
  end.

(** [old in s] *)
Fixpoint occurs (old s : string) : bool :=
  starts_with old s ||
  match s with
  | EmptyString => false
  | String _ s' => occurs old s'
  end.

(** [f.readlines()]: the lines of a text, each with its line end. *)
Fixpoint readlines_go (cur : string) (s : string) : list string :=
  match s with
  | EmptyString => match cur with EmptyString => [] | _ => [String.rev cur] end
  | String c s' =>
      if is_nl c then String.rev (String c cur) :: readlines_go EmptyString s'
      else readlines_go (String c cur) s'
  end.

Definition readlines (s : string) : list string := readlines_go EmptyString s.

End Str.

(** ** The fragment of Python's [re] that the tool uses

    Both patterns of the tool are built from literal characters, [.], a
    greedy [.+], one capturing group and [$].  [rmatch] is a backtracking
    matcher in continuation-passing style: [k] is what remains of the pattern.
    [.] does not match a line feed; a greedy [.+] first tries to take one more
    character and gives characters back one at a time; [$] holds at the end of
    the text and before a line feed that ends it. *)

Module Re.

Inductive regex :=
| RChar (c : ascii)
| RAny
| RPlusAny
| RSeq (r1 r2 : regex)
| RGroup (r : regex)
| REnd.

(** The outcome of a match: the groups captured and the text left. *)
Definition outcome : Type := list string * string.
Definition cont : Type := string -> list string -> option outcome.

Fixpoint dotplus (k : string -> option outcome) (s : string) : option outcome :=
  match s with
  | EmptyString => None
  | String c s' =>
      if Str.is_nl c then None
      else match dotplus k s' with
           | Some r => Some r
           | None => k s'
           end
  end.

Fixpoint rmatch (r : regex) (s : string) (caps : list string) (k : cont)
  : option outcome :=
  match r with
  | RChar c =>
      match s with
      | String d s' => if Ascii.eqb c d then k s' caps else None
      | EmptyString => None
      end
  | RAny =>
      match s with
      | String d s' => if Str.is_nl d then None else k s' caps
      | EmptyString => None
      end
  | RPlusAny => dotplus (fun s' => k s' caps) s
  | RSeq r1 r2 => rmatch r1 s caps (fun s' caps' => rmatch r2 s' caps' k)
  | RGroup r1 =>
      rmatch r1 s caps (fun s' caps' =>
        k s' (caps' ++ [Str.take (String.length s - String.length s') s])%list)
  | REnd =>
      match s with
      | EmptyString => k s caps
      | String c EmptyString => if Str.is_nl c then k s caps else None
      | _ => None
      end
  end.

(** [re.match(r, s)]: anchored at the start, the pattern need not use up
    the text. *)
Definition re_match (r : regex) (s : string) : option outcome :=
  rmatch r s [] (fun s' caps => Some (caps, s')).

(** The characters of a literal text, one [RChar] each, then [r]. *)
Fixpoint lit (t : string) (r : regex) : regex :=
  match t with
  | EmptyString => r
  | String c t' => RSeq (RChar c) (lit t' r)
  end.

(** A text used as a pattern: [.] is the wildcard, every other character
    stands for itself.  This is what Python does with a text whose only
    special character is the dot, see [plain]. *)
Fixpoint of_text (t : string) (r : regex) : regex :=
  match t with
  | EmptyString => r
  | String c t' =>
      RSeq (if Ascii.eqb c "."%char then RAny else RChar c) (of_text t' r)
  end.

Definition is_meta (c : ascii) : bool :=
  existsb (Ascii.eqb c)
    ["\"; "^"; "$"; "*"; "+"; "?"; "{"; "}"; "["; "]"; "("; ")"; "|"]%char.

Fixpoint plain (t : string) : bool :=
  match t with
  | EmptyString => true
  | String c t' => negb (is_meta c) && plain t'
  end.

(** [re.findall(r, s)] for a pattern with one group whose matches are
    never empty: the group of each match, scanning left to right; the scan
    resumes where a match ended.  [skip] counts the characters of the last
    match still to be passed. *)
Fixpoint findall_go (r : regex) (s : string) (skip : nat) : list string :=
  match s with
  | EmptyString => []
  | String _ s' =>
      match skip with
      | S k => findall_go r s' k
      | O =>
          match re_match r s with
          | Some (g :: _, rest) =>
              g :: findall_go r s' (String.length s - String.length rest - 1)
          | _ => findall_go r s' 0
          end
      end
  end.

Definition findall (r : regex) (s : string) : list string := findall_go r s 0.

End Re.

(** ** Exceptions, library functions and the outside world *)

(** The tool raises plain [Exception]s told apart by their message; one
    constructor stands for each [raise] of the source, named after the error
    it reports.  [OSError] stands for what [os] and [open] raise
    ([FileNotFoundError], [FileExistsError], [NotADirectoryError],
    [IsADirectoryError]), [ValueError] for a text that is not JSON,
    [TypeError] and [KeyError] for a JSON value of the wrong shape. *)
Inductive os_failure := ENOENT | EEXIST | ENOTDIR | EISDIR.

Inductive error :=
| ConfigurationError (msg : string)
| CorruptArchive (badfile : string)
| UnexpectedLayout
| DestinationCollision
| PreflightFailure (code : Z)
| PartialUploadFailure (local_path dest_s3_url : string)
| GitOperationFailure (branch : string)
| DownloadFailure (url : string)
| ConnectionError
| OSError (what : os_failure) (path : string)
| ValueError
| TypeError
| KeyError (key : string).

Inductive result (A : Type) :=
| Ok (a : A)
| Raise (e : error).
Arguments Ok {A} a.
Arguments Raise {A} e.

(** JSON values as [json.loads] builds them.  A [float] is kept as the text
    [repr] gives for it. *)
#[warnings="-register-all"]
Inductive json :=
| JNull
| JBool (b : bool)
| JInt (n : Z)
| JFloat (repr : string)
| JStr (s : string)
| JList (l : list json)
| JDict (d : list (string * json)).

(** The functions of Python's library that the tool calls and that are
    taken as given: [json.loads] ([None] for a text it rejects),
    [json.dumps(_, indent=2, sort_keys=True)], [json.dumps] with its
    defaults, and [difflib.unified_diff] with its [fromfile] and [tofile]. *)
Record Lib := {
  json_loads : string -> option json;
  json_dumps : json -> string;
  json_dumps_compact : json -> string;
  unified_diff : list string -> list string -> string -> string -> list string;
}.

(** ** [base64] *)

Definition b64_alphabet : string :=
  "ABCDEFGHIJKLMNOPQRSTUVWXYZabcdefghijklmnopqrstuvwxyz0123456789+/".

Definition b64_char (n : N) : ascii :=
  default "="%char (String.get (N.to_nat (n mod 64)%N) b64_alphabet).

(** [base64.b64encode]: three bytes give four characters, the last group is
    padded with [=]. *)
Fixpoint base64_b64encode (s : string) : string :=
  match s with
  | EmptyString => EmptyString
  | String a EmptyString =>
      let n := (N_of_ascii a * 65536)%N in
      String (b64_char (n / 262144)) (String (b64_char (n / 4096)) "==")
  | String a (String b EmptyString) =>
      let n := (N_of_ascii a * 65536 + N_of_ascii b * 256)%N in
      String (b64_char (n / 262144)) (String (b64_char (n / 4096))
        (String (b64_char (n / 64)) "="))
  | String a (String b (String c rest)) =>
      let n := (N_of_ascii a * 65536 + N_of_ascii b * 256 + N_of_ascii c)%N in
      String (b64_char (n / 262144)) (String (b64_char (n / 4096))
        (String (b64_char (n / 64)) (String (b64_char n) (base64_b64encode rest))))
  end.

(** [base64.encodestring]: the input is encoded 57 bytes at a time, each
    piece followed by a line feed. *)
Fixpoint encode_pieces (fuel : nat) (s : string) : string :=
  match fuel, s with
  | _, EmptyString => EmptyString
  | O, _ => EmptyString
  | S fuel', _ =>
      base64_b64encode (Str.take 57 s) +:+ String Str.nl EmptyString +:+
      encode_pieces fuel' (Str.drop 57 s)
  end.

Definition base64_encodestring (s : string) : string :=
  encode_pieces (String.length s) s.

(** ** The builder *)

Record UniverseReleaseBuilder := {
  _dry_run : string;
  _pkg_name : string;
  _pkg_version : string;
  _commit_desc : string;
  _stub_universe_url : string;
  _min_dcos_release_version : string;
  _pr_title : string;
  _release_artifact_http_dir : string;
  _release_artifact_s3_dir : string;
  _github_token : string;
}.

(** [os.environ.get(k, d)] *)
Definition environ_get (environ : gmap string string) (k d : string) : string :=
  default d (environ !! k).

(** ['.+/stub-universe-(.+).zip$'] *)
Definition name_re : Re.regex :=
  Re.RSeq Re.RPlusAny
    (Re.lit "/stub-universe-"
       (Re.RSeq (Re.RGroup Re.RPlusAny)
          (Re.RSeq Re.RAny (Re.lit "zip" Re.REnd)))).

(** [name_match.group(1)], or [None] when [re.match] finds no match. *)
Definition name_match (stub_universe_url : string) : option string :=
  match Re.re_match name_re stub_universe_url with
  | Some (g :: _, _) => Some g
  | _ => None
  end.

Definition msg_name : string :=
  "Unable to extract package name from stub universe URL. " +:+
  "Expected filename of form 'stub-universe-[pkgname].zip'".
Definition msg_github : string :=
  "GITHUB_TOKEN is required: Credential to create a PR against Universe".
Definition msg_aws : string :=
  "AWS_ACCESS_KEY_ID and AWS_SECRET_ACCESS_KEY are required: " +:+
  "Credentials to prod AWS for uploading release artifacts".

(** [UniverseReleaseBuilder.__init__] with every argument given. *)
Definition __init__ (L : Lib) (environ : gmap string string)
    (package_version stub_universe_url commit_desc min_dcos_release_version
     http_release_server s3_release_bucket release_dir_path : string)
  : result UniverseReleaseBuilder :=
  let dry_run := environ_get environ "DRY_RUN" "" in
  match name_match stub_universe_url with
  | None => Raise (ConfigurationError msg_name)
  | Some pkg_name =>
      let release_dir_path :=
        match release_dir_path with
        | EmptyString => pkg_name +:+ "/assets"
        | _ => release_dir_path
        end in
      let pr_title :=
        "Release " +:+ pkg_name +:+ " " +:+ package_version +:+
        " (automated commit)" +:+ String Str.nl (String Str.nl "") in
      let http_dir :=
        http_release_server +:+ "/" +:+ release_dir_path +:+ "/" +:+ package_version in
      let s3_dir :=
        "s3://" +:+ s3_release_bucket +:+ "/" +:+ release_dir_path +:+ "/" +:+
        package_version in
      match environ !! "GITHUB_TOKEN" with
      | None => Raise (ConfigurationError msg_github)
      | Some tok =>
          let github_token := Str.rstrip_char Str.nl (base64_encodestring tok) in
          match environ !! "AWS_ACCESS_KEY_ID", environ !! "AWS_SECRET_ACCESS_KEY" with
          | Some _, Some _ =>
              Ok {| _dry_run := dry_run;
                    _pkg_name := pkg_name;
                    _pkg_version := package_version;
                    _commit_desc := commit_desc;
                    _stub_universe_url := stub_universe_url;
                    _min_dcos_release_version := min_dcos_release_version;
                    _pr_title := pr_title;
                    _release_artifact_http_dir := http_dir;
                    _release_artifact_s3_dir := s3_dir;
                    _github_token := github_token |}
          | _, _ => Raise (ConfigurationError msg_aws)
          end
      end
  end.

(** The constructor as [main] calls it: the four last arguments take their
    defaults from the environment. *)
Definition new_builder (L : Lib) (environ : gmap string string)
    (package_version stub_universe_url commit_desc : string)
  : result UniverseReleaseBuilder :=
  __init__ L environ package_version stub_universe_url commit_desc
    (environ_get environ "MIN_DCOS_RELEASE_VERSION" "1.7")
    (environ_get environ "HTTP_RELEASE_SERVER" "https://downloads.mesosphere.com")
    (environ_get environ "S3_RELEASE_BUCKET" "downloads.mesosphere.io")
    (environ_get environ "RELEASE_DIR_PATH" "").

(** ** What the name pattern accepts, said without the matcher *)

Fixpoint has_nl (s : string) : bool :=
  match s with
  | EmptyString => false
  | String c s' => Str.is_nl c || has_nl s'
  end.

(** [url] is [X/stub-universe-N?zip], where [?] is any one character, with
    at most a line feed after it; [X] and [N] are not empty and hold no line
    feed. *)
Definition stub_shape (url X N : string) (c : ascii) : Prop :=
  X <> EmptyString /\ N <> EmptyString /\
  has_nl X = false /\ has_nl N = false /\ Str.is_nl c = false /\
  exists tail, (tail = EmptyString \/ tail = String Str.nl EmptyString) /\
    url = X +:+ "/stub-universe-" +:+ N +:+ String c "zip" +:+ tail.

Definition has_credentials (environ : gmap string string) : Prop :=
  is_Some (environ !! "GITHUB_TOKEN") /\
  is_Some (environ !! "AWS_ACCESS_KEY_ID") /\
  is_Some (environ !! "AWS_SECRET_ACCESS_KEY").

(** ** Files, effects and the state of a run *)

(** A directory entry is a regular file with its text, or a directory with
    its entries in [os.listdir] order. *)
#[warnings="-register-all"]
Inductive node :=
| File (content : string)
| Dir (entries : list (string * node)).

Definition dir : Type := list (string * node).

(** Association lists keyed by text, for directories and for Python
    [dict]s: [d.get(k)], and [d[k] = v], which keeps the place of a key that
    exists and puts a new key last. *)
Fixpoint alist_get {V} (k : string) (d : list (string * V)) : option V :=
  match d with
  | [] => None
  | (n, x) :: d' => if decide (n = k) then Some x else alist_get k d'
  end.

Fixpoint alist_set {V} (k : string) (v : V) (d : list (string * V))
  : list (string * V) :=
  match d with
  | [] => [(k, v)]
  | (n, y) :: d' =>
      if decide (n = k) then (n, v) :: d' else (n, y) :: alist_set k v d'
  end.

Definition dir_lookup (name : string) (d : dir) : option node := alist_get name d.
Definition dir_set (name : string) (x : node) (d : dir) : dir := alist_set name x d.

Definition os_listdir (d : dir) : list string := map fst d.

Definition os_path_isdir (name : string) (d : dir) : bool :=
  match dir_lookup name d with Some (Dir _) => true | _ => false end.

Definition os_path_isfile (name : string) (d : dir) : bool :=
  match dir_lookup name d with Some (File _) => true | _ => false end.

(** [os.path.join(a, b)] *)
Definition os_path_join (a b : string) : string :=
  if Str.starts_with "/" b then b
  else match a with
       | EmptyString => b
       | _ => if decide (Str.last_char a = Some Str.slash)
              then a +:+ b else a +:+ "/" +:+ b
       end.

(** What the tool does to the world outside its own memory. *)
Inductive event :=
| Shell (cmd : string)
| Retrieve (url local_path : string)
| WriteFile (path content : string)
| Unlink (path : string)
| MakeDirs (path : string)
| CopyFile (src dst : string)
| Post (url body : string)
| Print (value : json).

(** The answer to the pull request call. *)
Record response := {
  status : Z;
  read : string;
}.

(** The archive behind the stub universe URL: the first bad member that
    [testzip] finds, if any, and, of what [extractall] puts in the scratch
    directory, the entries of the directory where the package is expected. *)
Record archive := {
  testzip : option string;
  extracted_pkgdir : option dir;
}.

(** What the outside world answers.  A shell command's exit status and the
    success of a download may depend on what happened before. *)
Record World := {
  environ : gmap string string;
  mkdtemp : string;
  urlopen_archive : string -> option archive;
  os_system : list event -> string -> Z;
  retrieve_ok : list event -> string -> bool;
  cloned_pkg_base : option dir;
  urandom4 : string;
  getresponse : list event -> string -> option response;
}.

(** The state of a run: the entries of the package directory, the entries
    of the package's directory in the clone of Universe ([None] while it
    does not exist), and the trace of effects, latest last. *)
Record state := {
  st_pkgdir : dir;
  st_repo : option dir;
  st_trace : list event;
}.

Definition M (A : Type) : Type := state -> state * result A.

Definition ret {A} (a : A) : M A := fun s => (s, Ok a).
Definition raise {A} (e : error) : M A := fun s => (s, Raise e).
Definition bind {A B} (m : M A) (f : A -> M B) : M B :=
  fun s => match m s with
           | (s', Ok a) => f a s'
           | (s', Raise e) => (s', Raise e)
           end.

Notation "'let*' x ':=' m 'in' k" := (bind m (fun x => k))
  (at level 10, x name, m at level 100, k at level 200).

Definition emit (e : event) : M unit :=
  fun s => ({| st_pkgdir := st_pkgdir s; st_repo := st_repo s;
               st_trace := st_trace s ++ [e] |}, Ok tt).

Definition get_trace : M (list event) := fun s => (s, Ok (st_trace s)).
Definition get_pkgdir : M dir := fun s => (s, Ok (st_pkgdir s)).
Definition set_pkgdir (d : dir) : M unit :=
  fun s => ({| st_pkgdir := d; st_repo := st_repo s; st_trace := st_trace s |}, Ok tt).
Definition get_repo : M (option dir) := fun s => (s, Ok (st_repo s)).
Definition set_repo (d : option dir) : M unit :=
  fun s => ({| st_pkgdir := st_pkgdir s; st_repo := d; st_trace := st_trace s |}, Ok tt).

(** [for x in l: body(x)] *)
Fixpoint for_each {A} (l : list A) (body : A -> M unit) : M unit :=
  match l with
  | [] => ret tt
  | x :: l' => let* _ := body x in for_each l' body
  end.

(** [os.system(cmd)] *)
Definition system (w : World) (cmd : string) : M Z :=
  let* t := get_trace in
  let* _ := emit (Shell cmd) in
  ret (os_system w t cmd).

(** [open(path, 'r').read()] for an entry of the package directory. *)
Definition read_pkg_file (pkgdir filename : string) : M string :=
  let* d := get_pkgdir in
  match dir_lookup filename d with
  | Some (File content) => ret content
  | Some (Dir _) => raise (OSError EISDIR (os_path_join pkgdir filename))
  | None => raise (OSError ENOENT (os_path_join pkgdir filename))
  end.

(** [open(path, 'w').write(content)] for an entry of the package directory. *)
Definition write_pkg_file (pkgdir filename content : string) : M unit :=
  let* d := get_pkgdir in
  match dir_lookup filename d with
  | Some (Dir _) => raise (OSError EISDIR (os_path_join pkgdir filename))
  | _ =>
      let* _ := set_pkgdir (dir_set filename (File content) d) in
      emit (WriteFile (os_path_join pkgdir filename) content)
  end.

(** [for x in l] with the local variables that the body updates in [acc]. *)
Fixpoint for_acc {A B} (l : list A) (acc : B) (body : A -> B -> M B) : M B :=
  match l with
  | [] => ret acc
  | x :: l' => let* acc' := body x acc in for_acc l' acc' body
  end.

(** A non-empty text is true, the empty text is false. *)
Definition truthy (s : string) : bool :=
  match s with EmptyString => false | _ => true end.

(** ** [_run_cmd] *)

Definition _run_cmd (w : World) (b : UniverseReleaseBuilder)
    (cmd : string) (dry_run_return : Z) : M Z :=
  if truthy (_dry_run b) then ret dry_run_return
  else system w cmd.

(** ** [_update_file_content] and [_update_package_get_artifact_source_urls] *)

Definition _update_file_content (pkgdir filename orig_content new_content : string)
  : M unit :=
  if decide (orig_content = new_content) then ret tt
  else write_pkg_file pkgdir filename new_content.

Definition packagingVersion : string := "3.0".

(** [None] for the value ['0'], the configured version otherwise. *)
Definition minDcosReleaseVersion (b : UniverseReleaseBuilder) : option string :=
  if decide (_min_dcos_release_version b = "0") then None
  else Some (_min_dcos_release_version b).

(** The three assignments to [content_json].  An assignment by key fails on
    anything but a [dict]. *)
Definition set_package_fields (b : UniverseReleaseBuilder) (content_json : json)
  : result json :=
  match content_json with
  | JDict d =>
      let d := alist_set "version" (JStr (_pkg_version b)) d in
      let d := alist_set "packagingVersion" (JStr packagingVersion) d in
      let d :=
        match minDcosReleaseVersion b with
        | Some v =>
            if truthy v then alist_set "minDcosReleaseVersion" (JStr v) d else d
        | None => d
        end in
      Ok (JDict d)
  | _ => Raise TypeError
  end.

(** The lines of the dumped text without their trailing blanks, with a line
    feed after the last. *)
Definition strip_lines (dumped : string) : string :=
  Str.join (String Str.nl EmptyString) (map Str.rstrip (Str.split Str.nl dumped))
  +:+ String Str.nl EmptyString.

(** Step 1 of 2: [version], [packagingVersion] and [minDcosReleaseVersion]
    in [package.json]. *)
Definition update_package_json (L : Lib) (b : UniverseReleaseBuilder)
    (pkgdir : string) : M unit :=
  let* orig_content := read_pkg_file pkgdir "package.json" in
  match json_loads L orig_content with
  | None => raise ValueError
  | Some content_json =>
      match set_package_fields b content_json with
      | Raise e => raise e
      | Ok content_json =>
          let new_content := strip_lines (json_dumps L content_json) in
          _update_file_content pkgdir "package.json" orig_content new_content
      end
  end.

Definition original_artifact_prefix (b : UniverseReleaseBuilder) : string :=
  Str.join "/" (Str.but_last (Str.split Str.slash (_stub_universe_url b))).

(** The pattern of the artifact URLs: a group holding the prefix, [/] and
    [.+], then a double quote. *)
Definition artifact_re (prefix : string) : Re.regex :=
  Re.RSeq (Re.RGroup (Re.of_text prefix (Re.RSeq (Re.RChar Str.slash) Re.RPlusAny)))
          (Re.RChar Str.dquote).

(** The body of the loop over [os.listdir(pkgdir)] of step 2. *)
Definition replace_step (b : UniverseReleaseBuilder) (pkgdir : string)
    (filename : string) (original_artifact_urls : list string) : M (list string) :=
  let original_artifact_prefix := original_artifact_prefix b in
  let* orig_content := read_pkg_file pkgdir filename in
  let found := Re.findall (artifact_re original_artifact_prefix) orig_content in
  let new_content :=
    Str.replace original_artifact_prefix (_release_artifact_http_dir b)
      orig_content in
  let* _ := _update_file_content pkgdir filename orig_content new_content in
  ret (original_artifact_urls ++ found)%list.

(** Step 2 of 2: collect the artifact URLs of every file and replace the
    prefix. *)
Definition replace_artifact_prefix (b : UniverseReleaseBuilder) (pkgdir : string)
  : M (list string) :=
  let* d := get_pkgdir in
  for_acc (os_listdir d) [] (replace_step b pkgdir).

Definition _update_package_get_artifact_source_urls (L : Lib)
    (b : UniverseReleaseBuilder) (pkgdir : string) : M (list string) :=
  let* _ := update_package_json L b pkgdir in
  replace_artifact_prefix b pkgdir.

(** ** [_copy_artifacts_s3] *)

Definition ls_cmd (b : UniverseReleaseBuilder) : string :=
  "aws s3 ls --recursive " +:+ _release_artifact_s3_dir b +:+ " 1>&2".

Definition cp_cmd (local_path dest_s3_url : string) : string :=
  "aws s3 cp --acl public-read " +:+ local_path +:+ " " +:+ dest_s3_url +:+ " 1>&2".

Definition cp_dryrun_cmd (local_path dest_s3_url : string) : string :=
  "aws s3 cp --dryrun --acl public-read " +:+ local_path +:+ " " +:+ dest_s3_url
  +:+ " 1>&2".

(** [URLopener().retrieve(src_url, local_path)] *)
Definition retrieve (w : World) (src_url local_path : string) : M unit :=
  let* t := get_trace in
  let* _ := emit (Retrieve src_url local_path) in
  if retrieve_ok w t src_url then ret tt else raise (DownloadFailure src_url).

(** The body of the loop over the artifact URLs. *)
Definition copy_artifact (w : World) (b : UniverseReleaseBuilder)
    (scratchdir src_url : string) : M unit :=
  let filename := Str.last_of (Str.split Str.slash src_url) in
  let local_path := os_path_join scratchdir filename in
  let dest_s3_url := _release_artifact_s3_dir b +:+ "/" +:+ filename in
  let* ret_ :=
    if truthy (_dry_run b) then
      let* _ := emit (WriteFile local_path "stub") in
      system w (cp_dryrun_cmd local_path dest_s3_url)
    else
      let* _ := retrieve w src_url local_path in
      system w (cp_cmd local_path dest_s3_url) in
  if decide (ret_ = 0%Z) then emit (Unlink local_path)
  else raise (PartialUploadFailure local_path dest_s3_url).

Definition _copy_artifacts_s3 (w : World) (b : UniverseReleaseBuilder)
    (scratchdir : string) (original_artifact_urls : list string) : M unit :=
  let* ret_ := _run_cmd w b (ls_cmd b) 1 in
  if decide (ret_ = 0%Z) then raise DestinationCollision
  else if decide (ret_ > 256)%Z then raise (PreflightFailure ret_)
  else for_each original_artifact_urls (copy_artifact w b scratchdir).

(** ** Python's [int(text)], [str.upper] and [sorted] *)

Definition is_digit (c : ascii) : bool :=
  let n := nat_of_ascii c in ((48 <=? n) && (n <=? 57))%nat.

Definition digit_val (c : ascii) : Z := Z.of_nat (nat_of_ascii c - 48).

Fixpoint lstrip (s : string) : string :=
  match s with
  | EmptyString => EmptyString
  | String c s' => if Str.is_space c then lstrip s' else s
  end.

(** Decimal digits, with single underscores allowed between two digits. *)
Fixpoint digits_go (acc : Z) (after_digit : bool) (s : string) : option Z :=
  match s with
  | EmptyString => if after_digit then Some acc else None
  | String c s' =>
      if is_digit c then digits_go (10 * acc + digit_val c) true s'
      else if Ascii.eqb c "_"%char && after_digit then digits_go acc false s'
      else None
  end.

(** [int(text)] on ASCII text: blanks around, a sign, then the digits;
    [None] where Python raises [ValueError]. *)
Definition py_int (text : string) : option Z :=
  match Str.rstrip (lstrip text) with
  | String "-" t => Z.opp <$> digits_go 0 false t
  | String "+" t => digits_go 0 false t
  | t => digits_go 0 false t
  end.

Definition upper_char (c : ascii) : ascii :=
  let n := nat_of_ascii c in
  if ((97 <=? n) && (n <=? 122))%nat then ascii_of_nat (n - 32) else c.

(** [name[0].upper()] *)
Definition first_upper (name : string) : string :=
  match name with
  | EmptyString => EmptyString
  | String c _ => String (upper_char c) EmptyString
  end.

Definition sorted (l : list string) : list string := merge_sort String.le l.

(** [l.remove(x)]: the first occurrence goes. *)
Fixpoint list_remove (x : string) (l : list string) : list string :=
  match l with
  | [] => []
  | y :: l' => if decide (y = x) then l' else y :: list_remove x l'
  end.

(** [x in l] *)
Definition list_in (x : string) (l : list string) : bool := bool_decide (x ∈ l).

(** ** [_create_universe_branch] *)

Definition branch_name (w : World) (b : UniverseReleaseBuilder) : string :=
  "automated/release_" +:+ _pkg_name b +:+ "_" +:+ _pkg_version b +:+ "_" +:+
  Str.rstrip_char "="%char (base64_b64encode (urandom4 w)).

Definition clone_cmd (scratchdir branch : string) : string :=
  Str.join " && "
    ["cd " +:+ scratchdir;
     "git clone --depth 1 --branch version-3.x git@github.com:mesosphere/universe";
     "cd universe";
     "git config --local user.email jenkins@mesosphere.com";
     "git config --local user.name release_builder.py";
     "git checkout -b " +:+ branch].

(** [os.path.join(universe_repo, 'repo', 'packages', name[0].upper(), name)] *)
Definition repo_pkg_base (b : UniverseReleaseBuilder) (scratchdir : string) : string :=
  fold_left os_path_join
    ["repo"; "packages"; first_upper (_pkg_name b); _pkg_name b]
    (os_path_join scratchdir "universe").

(** The entries of [repo_pkg_base], as [os.listdir] and the other calls on
    paths below it need them. *)
Definition get_base (base_path : string) : M dir :=
  let* r := get_repo in
  match r with
  | Some base => ret base
  | None => raise (OSError ENOENT base_path)
  end.

(** Find the prior release number: the loop over [os.listdir(repo_pkg_base)]. *)
Definition find_lastnum (base : dir) : Z :=
  fold_left (fun lastnum filename =>
    if negb (os_path_isdir filename base) then lastnum
    else match py_int filename with
         | None => lastnum
         | Some num => if decide (num > lastnum)%Z then num else lastnum
         end)
    (os_listdir base) (-1)%Z.

(** [os.makedirs(this_repo_pkg)] *)
Definition makedirs_revision (base_path rev : string) : M unit :=
  let* base := get_base base_path in
  match dir_lookup rev base with
  | Some _ => raise (OSError EEXIST (os_path_join base_path rev))
  | None =>
      let* _ := set_repo (Some (base ++ [(rev, Dir [])])%list) in
      emit (MakeDirs (os_path_join base_path rev))
  end.

(** The entries of a revision directory. *)
Definition revision_entries (base_path rev : string) : M dir :=
  let* base := get_base base_path in
  match dir_lookup rev base with
  | Some (Dir es) => ret es
  | Some (File _) => raise (OSError ENOTDIR (os_path_join base_path rev))
  | None => raise (OSError ENOENT (os_path_join base_path rev))
  end.

(** [open(os.path.join(rev, filename), 'r')] and its text. *)
Definition read_revision_file (base_path rev filename : string) : M string :=
  let* es := revision_entries base_path rev in
  let path := os_path_join (os_path_join base_path rev) filename in
  match dir_lookup filename es with
  | Some (File content) => ret content
  | Some (Dir _) => raise (OSError EISDIR path)
  | None => raise (OSError ENOENT path)
  end.

(** [shutil.copyfile(os.path.join(pkgdir, filename),
    os.path.join(this_repo_pkg, filename))] *)
Definition copyfile (pkgdir base_path rev filename : string) : M unit :=
  let* content := read_pkg_file pkgdir filename in
  let* base := get_base base_path in
  let* es := revision_entries base_path rev in
  let dst := os_path_join (os_path_join base_path rev) filename in
  match dir_lookup filename es with
  | Some (Dir _) => raise (OSError EISDIR dst)
  | _ =>
      let* _ := set_repo (Some (dir_set rev (Dir (dir_set filename (File content) es)) base)) in
      emit (CopyFile (os_path_join pkgdir filename) dst)
  end.

(** The local variables of the copy loop. *)
Record changes := {
  removedfiles : list string;
  addedfiles : list string;
  filediffs : list (string * string);
}.

(** The body of the loop over [os.listdir(pkgdir)]; [d] holds the entries
    of the package directory. *)
Definition collect_step (L : Lib) (pkgdir base_path : string) (lastnum : Z) (d : dir)
    (filename : string) (c : changes) : M changes :=
  let last_repo_pkg := pretty lastnum in
  let this_repo_pkg := pretty (lastnum + 1)%Z in
  if negb (os_path_isfile filename d) then ret c
  else
    let* _ := copyfile pkgdir base_path this_repo_pkg filename in
    if list_in filename (removedfiles c) then
      let* oldfile := read_revision_file base_path last_repo_pkg filename in
      let* newfile := read_revision_file base_path this_repo_pkg filename in
      let diff :=
        Str.concat
          (unified_diff L (Str.readlines oldfile) (Str.readlines newfile)
             (pretty lastnum +:+ "/" +:+ filename)
             (pretty (lastnum + 1)%Z +:+ "/" +:+ filename)) in
      ret {| removedfiles := list_remove filename (removedfiles c);
             addedfiles := addedfiles c;
             filediffs := alist_set filename diff (filediffs c) |}
    else
      ret {| removedfiles := removedfiles c;
             addedfiles := (addedfiles c ++ [filename])%list;
             filediffs := filediffs c |}.

(** Copy the stub universe contents into the new revision while collecting
    the changes. *)
Definition collect_changes (L : Lib) (pkgdir base_path : string) (lastnum : Z)
  : M changes :=
  let last_repo_pkg := pretty lastnum in
  let this_repo_pkg := pretty (lastnum + 1)%Z in
  let* _ := makedirs_revision base_path this_repo_pkg in
  let* old := revision_entries base_path last_repo_pkg in
  let* d := get_pkgdir in
  for_acc (os_listdir d)
    {| removedfiles := os_listdir old; addedfiles := []; filediffs := [] |}
    (collect_step L pkgdir base_path lastnum d).

Definition line (s : string) : string := s +:+ String Str.nl EmptyString.

(** The lines of the commit message after the title. *)
Definition resultlines (b : UniverseReleaseBuilder) (lastnum : Z) (c : changes)
  : list string :=
  let head :=
    [line ("Changes since revision " +:+ pretty lastnum +:+ ":");
     line (pretty (length (addedfiles c)) +:+ " files added: [" +:+
           Str.join ", " (addedfiles c) +:+ "]");
     line (pretty (length (removedfiles c)) +:+ " files removed: [" +:+
           Str.join ", " (removedfiles c) +:+ "]");
     line (line (pretty (length (filediffs c)) +:+ " files changed:"))] in
  let head :=
    if truthy (_commit_desc b)
    then line (line (line "Description:" +:+ _commit_desc b)) :: head
    else head in
  let fence := line "```" in
  (head ++ [fence]
   ++ omap (fun filename => alist_get filename (filediffs c))
        (sorted (map fst (filediffs c)))
   ++ [fence])%list.

Definition push_cmd (b : UniverseReleaseBuilder) (scratchdir commitmsg_path branch : string)
  : string :=
  Str.join " && "
    (["cd " +:+ os_path_join scratchdir "universe";
      "git add .";
      "git commit -q -F " +:+ commitmsg_path]
     ++ [if truthy (_dry_run b) then "git show -q HEAD 1>&2"
         else "git push origin " +:+ branch])%list.

Definition _create_universe_branch (L : Lib) (w : World) (b : UniverseReleaseBuilder)
    (scratchdir pkgdir : string) : M (string * string) :=
  let branch := branch_name w b in
  let* ret_ := system w (clone_cmd scratchdir branch) in
  if decide (ret_ <> 0%Z) then raise (GitOperationFailure branch)
  else
    let* _ := set_repo (cloned_pkg_base w) in
    let base_path := repo_pkg_base b scratchdir in
    let* base := get_base base_path in
    let lastnum := find_lastnum base in
    let* c := collect_changes L pkgdir base_path lastnum in
    let commitmsg_path := os_path_join scratchdir "commitmsg.txt" in
    let* _ := emit (WriteFile commitmsg_path
                      (_pr_title b +:+ Str.concat (resultlines b lastnum c))) in
    let* ret_ := system w (push_cmd b scratchdir commitmsg_path branch) in
    if decide (ret_ <> 0%Z) then raise (GitOperationFailure branch)
    else ret (branch, commitmsg_path).

(** ** [_download_unpack_stub_universe] *)

Definition pkgdir_path (b : UniverseReleaseBuilder) (scratchdir : string) : string :=
  fold_left os_path_join
    ["stub-universe-" +:+ _pkg_name b; "repo"; "packages";
     first_upper (_pkg_name b); _pkg_name b; "0"]
    scratchdir.

Definition _download_unpack_stub_universe (w : World) (b : UniverseReleaseBuilder)
    (scratchdir : string) : M string :=
  let url := _stub_universe_url b in
  let local_zip_path := os_path_join scratchdir (Str.last_of (Str.split Str.slash url)) in
  match urlopen_archive w url with
  | None => raise (DownloadFailure url)
  | Some a =>
      let* _ := emit (Retrieve url local_zip_path) in
      match testzip a with
      | Some badfile => raise (CorruptArchive badfile)
      | None =>
          match extracted_pkgdir a with
          | None => raise UnexpectedLayout
          | Some d =>
              let* _ := set_pkgdir d in
              let* _ := emit (Unlink local_zip_path) in
              ret (pkgdir_path b scratchdir)
          end
      end
  end.

(** ** [_create_universe_pr] *)

(** The text of a file that the run wrote itself. *)
Definition written (path : string) (t : list event) : option string :=
  fold_left (fun acc e =>
    match e with
    | WriteFile p content => if decide (p = path) then Some content else acc
    | Unlink p => if decide (p = path) then None else acc
    | _ => acc
    end) t None.

Definition pulls_url : string := "https://api.github.com/repos/mesosphere/universe/pulls".

Definition _create_universe_pr (L : Lib) (w : World) (b : UniverseReleaseBuilder)
    (branch commitmsg_path : string) : M (option response) :=
  if truthy (_dry_run b) then ret None
  else
    let* t := get_trace in
    match written commitmsg_path t with
    | None => raise (OSError ENOENT commitmsg_path)
    | Some body =>
        let payload :=
          JDict [("title", JStr (_pr_title b)); ("head", JStr branch);
                 ("base", JStr "version-3.x"); ("body", JStr body)] in
        let request := json_dumps_compact L payload in
        let* _ := emit (Post pulls_url request) in
        match getresponse w t request with
        | None => raise ConnectionError
        | Some r => ret (Some r)
        end
    end.

(** ** [release_zip] and [main] *)

Definition release_zip (L : Lib) (w : World) (b : UniverseReleaseBuilder)
  : M (option response) :=
  let scratchdir := mkdtemp w in
  let* pkgdir := _download_unpack_stub_universe w b scratchdir in
  let* original_artifact_urls := _update_package_get_artifact_source_urls L b pkgdir in
  let* _ := _copy_artifacts_s3 w b scratchdir original_artifact_urls in
  let* bc := _create_universe_branch L w b scratchdir pkgdir in
  _create_universe_pr L w b (fst bc) (snd bc).

Definition dry_run_notice : string := "[DRY RUN] The pull request URL would appear here.".

Definition main (L : Lib) (w : World) (argv : list string) : M Z :=
  match argv with
  | _ :: package_version :: url_arg :: rest =>
      let stub_universe_url := Str.rstrip_char Str.slash url_arg in
      let commit_desc := Str.join " " rest in
      match new_builder L (environ w) package_version stub_universe_url commit_desc with
      | Raise e => raise e
      | Ok builder =>
          let* response := release_zip L w builder in
          match response with
          | None =>
              let* _ := emit (Print (JStr dry_run_notice)) in
              ret 0%Z
          | Some r =>
              if decide (status r < 200 \/ status r >= 300)%Z then ret (-1)%Z
              else
                match json_loads L (read r) with
                | None => raise ValueError
                | Some (JDict d) =>
                    match alist_get "html_url" d with
                    | None => raise (KeyError "html_url")
                    | Some v => let* _ := emit (Print v) in ret 0%Z
                    end
                | Some _ => raise TypeError
                end
          end
      end
  | _ => ret 1%Z
  end.

Definition initial_state : state :=
  {| st_pkgdir := []; st_repo := None; st_trace := [] |}.

(** The value [main] returns, or the exception that leaves it. *)
Definition run_main (L : Lib) (w : World) (argv : list string) : result Z :=
  snd (main L w argv initial_state).

(** [sys.exit(main(sys.argv))]: the status the process ends with.  An
    exception that nothing catches ends the interpreter with status 1. *)
Definition exit_status (r : result Z) : Z :=
  match r with
  | Ok n => (n mod 256)%Z
  | Raise _ => 1%Z
  end.

(** ** A reference instance of the library functions

    Used to run the model on concrete packages.  The printers follow
    Python's layout for texts that need no escape other than the ones
    handled in [escape]; the reader covers objects whose values are texts
    without escapes, and answers [None] elsewhere; the diff replaces the
    whole file in one hunk, where [difflib] would keep common lines. *)

Module Ref.

Definition nls : string := String Str.nl EmptyString.

Fixpoint escape (s : string) : string :=
  match s with
  | EmptyString => EmptyString
  | String c s' =>
      (if Ascii.eqb c Str.dquote then String "\" (String Str.dquote EmptyString)
       else if Ascii.eqb c "\"%char then "\\"
       else if Ascii.eqb c Str.nl then "\n"
       else if Ascii.eqb c "009"%char then "\t"
       else if Ascii.eqb c "013"%char then "\r"
       else String c EmptyString) +:+ escape s'
  end.

Definition quote (s : string) : string :=
  String Str.dquote (escape s +:+ String Str.dquote EmptyString).

Fixpoint pad (n : nat) : string :=
  match n with O => EmptyString | S n' => "  " +:+ pad n' end.

Definition by_key (x y : string * string) : Prop := String.le (fst x) (fst y).

#[local] Instance by_key_dec : RelDecision by_key.
Proof. intros x y. unfold by_key. apply _. Defined.

(** [json.dumps(j, indent=2, sort_keys=True)] at nesting depth [lvl]. *)
Fixpoint dumps (lvl : nat) (j : json) {struct j} : string :=
  match j with
  | JNull => "null"
  | JBool true => "true"
  | JBool false => "false"
  | JInt n => pretty n
  | JFloat r => r
  | JStr s => quote s
  | JList [] => "[]"
  | JList l =>
      "[" +:+ nls +:+
      Str.join ("," +:+ nls) (map (fun x => pad (S lvl) +:+ dumps (S lvl) x) l)
      +:+ nls +:+ pad lvl +:+ "]"
  | JDict [] => "{}"
  | JDict d =>
      "{" +:+ nls +:+
      Str.join ("," +:+ nls)
        (map (fun kv => pad (S lvl) +:+ quote (fst kv) +:+ ": " +:+ snd kv)
           (merge_sort by_key (map (fun kv => (fst kv, dumps (S lvl) (snd kv))) d)))
      +:+ nls +:+ pad lvl +:+ "}"
  end.

(** [json.dumps(j)] *)
Fixpoint dumps_compact (j : json) : string :=
  match j with
  | JNull => "null"
  | JBool true => "true"
  | JBool false => "false"
  | JInt n => pretty n
  | JFloat r => r
  | JStr s => quote s
  | JList l => "[" +:+ Str.join ", " (map dumps_compact l) +:+ "]"
  | JDict d =>
      "{" +:+
      Str.join ", " (map (fun kv => quote (fst kv) +:+ ": " +:+ dumps_compact (snd kv)) d)
      +:+ "}"
  end.

Definition is_json_ws (c : ascii) : bool :=
  existsb (Ascii.eqb c) [" "; "009"; "010"; "013"]%char.

Fixpoint skip_ws (s : string) : string :=
  match s with
  | String c s' => if is_json_ws c then skip_ws s' else s
  | EmptyString => EmptyString
  end.

(** A text up to its closing quote, and what follows the quote. *)
Fixpoint plain_text (s : string) : option (string * string) :=
  match s with
  | EmptyString => None
  | String c s' =>
      if Ascii.eqb c Str.dquote then Some (EmptyString, s')
      else if Ascii.eqb c "\"%char || (nat_of_ascii c <? 32)%nat then None
      else '(t, rest) ← plain_text s'; Some (String c t, rest)
  end.

Definition quoted (s : string) : option (string * string) :=
  match skip_ws s with
  | String c s' => if Ascii.eqb c Str.dquote then plain_text s' else None
  | EmptyString => None
  end.

Definition expect (c : ascii) (s : string) : option string :=
  match skip_ws s with
  | String d s' => if Ascii.eqb c d then Some s' else None
  | EmptyString => None
  end.

Fixpoint members (fuel : nat) (s : string) (acc : list (string * json))
  : option (list (string * json)) :=
  match fuel with
  | O => None
  | S fuel' =>
      '(k, s) ← quoted s;
      s ← expect ":" s;
      '(v, s) ← quoted s;
      let acc := alist_set k (JStr v) acc in
      match expect "," s with
      | Some s => members fuel' s acc
      | None =>
          s ← expect "}" s;
          match skip_ws s with EmptyString => Some acc | _ => None end
      end
  end.

Definition loads (s : string) : option json :=
  s ← expect "{" s;
  match expect "}" s with
  | Some s => match skip_ws s with EmptyString => Some (JDict []) | _ => None end
  | None => JDict <$> members (String.length s) s []
  end.

Definition header (mark name : string) : string := mark +:+ " " +:+ name +:+ nls.

Definition whole_file_diff (a b : list string) (fromfile tofile : string)
  : list string :=
  if decide (a = b) then []
  else
    ([header "---" fromfile; header "+++" tofile;
      "@@ -1," +:+ pretty (length a) +:+ " +1," +:+ pretty (length b) +:+ " @@" +:+ nls]
     ++ map (String "-"%char) a ++ map (String "+"%char) b)%list.

Definition lib : Lib :=
  {| json_loads := loads;
     json_dumps := dumps 0;
     json_dumps_compact := dumps_compact;
     unified_diff := whole_file_diff |}.

End Ref.

(** ** Reading a trace *)

(** [aws s3 cp] commands of either kind, and the ones that move data. *)
Definition is_upload (e : event) : bool :=
  match e with
  | Shell cmd => Str.starts_with "aws s3 cp " cmd
  | _ => false
  end.

Definition is_real_upload (e : event) : bool :=
  match e with
  | Shell cmd => Str.starts_with "aws s3 cp --acl " cmd
  | _ => false
  end.

(** The events of one artifact in a dry run and in a real run. *)
Definition dry_event (e : event) : Prop :=
  (exists local_path, e = WriteFile local_path "stub") \/
  (exists local_path dest, e = Shell (cp_dryrun_cmd local_path dest)) \/
  (exists local_path, e = Unlink local_path).

Definition real_event (e : event) : Prop :=
  (exists url local_path, e = Retrieve url local_path) \/
  (exists local_path dest, e = Shell (cp_cmd local_path dest)) \/
  (exists local_path, e = Unlink local_path).

(** [s'] is [s] with more events, all of them in [P], and the same files. *)
Definition extends (P : event -> Prop) (s s' : state) : Prop :=
  st_pkgdir s' = st_pkgdir s /\ st_repo s' = st_repo s /\
  exists new, st_trace s' = (st_trace s ++ new)%list /\ Forall P new.

(** The status that [_copy_artifacts_s3] gets for the listing. *)
Definition listing_status (w : World) (b : UniverseReleaseBuilder) (s : state) : Z :=
  if truthy (_dry_run b) then 1%Z else os_system w (st_trace s) (ls_cmd b).

(** ** A concrete run, for the examples *)

Module Example.

(** The environment of a run; [dry] is the value of [DRY_RUN]. *)
Definition env (dry : string) : gmap string string :=
  <["DRY_RUN" := dry]>
    (<["GITHUB_TOKEN" := "token"]>
       (<["AWS_ACCESS_KEY_ID" := "id"]>
          (<["AWS_SECRET_ACCESS_KEY" := "key"]> ∅))).

Definition url : string := "https://host/path/stub-universe-kafka.zip".

Definition builder (dry : string) : UniverseReleaseBuilder :=
  {| _dry_run := dry;
     _pkg_name := "kafka";
     _pkg_version := "1.2.3";
     _commit_desc := "";
     _stub_universe_url := url;
     _min_dcos_release_version := "1.7";
     _pr_title := "Release kafka 1.2.3 (automated commit)" +:+ Ref.nls +:+ Ref.nls;
     _release_artifact_http_dir := "https://downloads.mesosphere.com/kafka/assets/1.2.3";
     _release_artifact_s3_dir := "s3://downloads.mesosphere.io/kafka/assets/1.2.3";
     _github_token := "dG9rZW4=" |}.

(** A world where the listing of the destination ends with [ls_status],
    every other command succeeds, and the pull request gets [pr_status]. *)
Definition world (dry : string) (ls_status pr_status : Z) (pkg : dir) (base : dir)
  : World :=
  {| environ := env dry;
     mkdtemp := "/tmp/stub-universe-tmp1";
     urlopen_archive := fun _ => Some {| testzip := None; extracted_pkgdir := Some pkg |};
     os_system := fun _ cmd =>
       if Str.starts_with "aws s3 ls " cmd then ls_status else 0%Z;
     retrieve_ok := fun _ _ => true;
     cloned_pkg_base := Some base;
     urandom4 := "abcd";
     getresponse := fun _ _ =>
       Some {| status := pr_status;
               read := "{" +:+ Ref.quote "html_url" +:+ ": " +:+
                       Ref.quote "https://github.com/mesosphere/universe/pull/1" +:+ "}" |} |}.

Definition scratchdir : string := "/tmp/stub-universe-tmp1".

Definition local_foo : string := "/tmp/stub-universe-tmp1/foo.json".
Definition dest_foo : string :=
  "s3://downloads.mesosphere.io/kafka/assets/1.2.3/foo.json".

End Example.

(** ** What the revision numbering reads from a directory *)

(** The integers that name subdirectories of [base], in listing order. *)
Definition revision_numbers (base : dir) : list Z :=
  omap (fun filename =>
          if os_path_isdir filename base then py_int filename else None)
       (os_listdir base).

(** A directory whose subdirectories are named by the given numbers, each
    holding one file, next to a regular file. *)
Definition revisions (nums : list Z) : dir :=
  (map (fun n => (pretty n, Dir [("package.json", File "{}")])) nums
   ++ [("README.md", File "notes"); ("x1", Dir [])])%list.

(** ** The report of the revision committer, said without the loop *)

(** The unified diff of [filename] between the previous revision [old] and
    the package directory [pkg]. *)
Definition diff_of (L : Lib) (lastnum : Z) (old pkg : dir) (filename : string)
  : string :=
  match dir_lookup filename old, dir_lookup filename pkg with
  | Some (File oldfile), Some (File newfile) =>
      Str.concat
        (unified_diff L (Str.readlines oldfile) (Str.readlines newfile)
           (pretty lastnum +:+ "/" +:+ filename)
           (pretty (lastnum + 1)%Z +:+ "/" +:+ filename))
  | _, _ => EmptyString
  end.

(** No two entries of a directory share a name. *)
Definition well_formed (d : dir) : Prop := NoDup (os_listdir d).

(** Every entry is a regular file. *)
Definition only_files (d : dir) : Prop :=
  forall filename, filename ∈ os_listdir d -> os_path_isfile filename d = true.

(** The property of [difflib.unified_diff] that the report relies on: two
    different lists of lines have a diff that is not empty. *)
Definition diff_tells_apart (L : Lib) : Prop :=
  forall a b fromfile tofile,
    a <> b -> Str.concat (unified_diff L a b fromfile tofile) <> EmptyString.

(** The state before the copy loop of the examples: the package directory
    and, in the clone, the package's directory with its revisions. *)
Definition committer_state (pkg base : dir) : state :=
  {| st_pkgdir := pkg; st_repo := Some base; st_trace := [] |}.

(** The directories of the examples of the revision committer. *)
Module ExampleDirs.

Definition old_rev : dir := [("a.txt", File "A"); ("b.txt", File "B1")].
Definition new_pkg : dir := [("b.txt", File "B2"); ("c.txt", File "C")].

(** A previous revision and a package directory that also hold
    subdirectories. *)
Definition old_with_dir : dir :=
  [("a.txt", File "A"); ("b.txt", File "B1"); ("docs", Dir [("x", File "X")])].
Definition pkg_with_dir : dir :=
  [("b.txt", File "B2"); ("c.txt", File "C"); ("sub", Dir [("y", File "Y")])].

End ExampleDirs.

(** No name occurs twice, as a test that computes. *)
Fixpoint distinct (l : list string) : bool :=
  match l with
  | [] => true
  | x :: l' => negb (list_in x l') && distinct l'
  end.

(** Packages for the examples of the metadata rewriter. *)
Module ExamplePkg.

(** [{"name": "kafka", "version": "stub", "minDcosReleaseVersion": "1.8"}] *)
Definition package_json : string :=
  "{" +:+ Ref.quote "name" +:+ ": " +:+ Ref.quote "kafka" +:+ ", " +:+
  Ref.quote "version" +:+ ": " +:+ Ref.quote "stub" +:+ ", " +:+
  Ref.quote "minDcosReleaseVersion" +:+ ": " +:+ Ref.quote "1.8" +:+ "}".

(** A resource file that names one artifact, as a quoted URL on a line. *)
Definition resource_json (url : string) : string :=
  "{" +:+ Ref.quote "uri" +:+ ": " +:+ Ref.quote url +:+ "}" +:+ Ref.nls.

Definition pkg (url : string) : dir :=
  [("package.json", File package_json); ("resource.json", File (resource_json url))].

Definition start (d : dir) : state :=
  {| st_pkgdir := d; st_repo := None; st_trace := [] |}.

(** The builder of [Example] with another minimum version. *)
Definition with_min_version (b : UniverseReleaseBuilder) (v : string)
  : UniverseReleaseBuilder :=
  {| _dry_run := _dry_run b;
     _pkg_name := _pkg_name b;
     _pkg_version := _pkg_version b;
     _commit_desc := _commit_desc b;
     _stub_universe_url := _stub_universe_url b;
     _min_dcos_release_version := v;
     _pr_title := _pr_title b;
     _release_artifact_http_dir := _release_artifact_http_dir b;
     _release_artifact_s3_dir := _release_artifact_s3_dir b;
     _github_token := _github_token b |}.

End ExamplePkg.

(** ** The metadata rewrite, said without the loop *)

(** The text of a regular file of a directory. *)
Definition file_text (d : dir) (filename : string) : string :=
  match dir_lookup filename d with
  | Some (File content) => content
  | _ => EmptyString
  end.

(** The text of a file after the prefix is replaced. *)
Definition rewritten (b : UniverseReleaseBuilder) (d : dir) (filename : string) : string :=
  Str.replace (original_artifact_prefix b) (_release_artifact_http_dir b)
    (file_text d filename).

(** The artifact URLs that step 2 finds in a file. *)
Definition urls_of (b : UniverseReleaseBuilder) (d : dir) (filename : string)
  : list string :=
  Re.findall (artifact_re (original_artifact_prefix b)) (file_text d filename).

(** The write that step 2 does for a file, if any. *)
Definition write_of (b : UniverseReleaseBuilder) (pkgdir : string) (d : dir)
    (filename : string) : option event :=
  if decide (file_text d filename = rewritten b d filename) then None
  else Some (WriteFile (os_path_join pkgdir filename) (rewritten b d filename)).

(** [p] is a text that the pattern text [t] matches: character by
    character, a dot of [t] stands for any character but the line feed. *)
Fixpoint text_matches (t p : string) : Prop :=
  match t, p with
  | EmptyString, EmptyString => True
  | String c t', String d p' =>
      (if Ascii.eqb c "."%char then Str.is_nl d = false else c = d) /\
      text_matches t' p'
  | _, _ => False
  end.

(** A text between double quotes. *)
Definition quoted (s : string) : string :=
  String Str.dquote (s +:+ String Str.dquote EmptyString).

(** Texts and a builder for the examples of the URL rewrite. *)
Module ExampleUrls.

Definition foo : string := "https://host/path/v1/foo.json".

(** Two lines that name the same artifact. *)
Definition twice : string :=
  ExamplePkg.resource_json foo +:+ ExamplePkg.resource_json foo.

(** One line with the artifact and another quoted text after it. *)
Definition with_checksum : string :=
  "{" +:+ Ref.quote "uri" +:+ ": " +:+ Ref.quote foo +:+ ", " +:+
  Ref.quote "sha" +:+ ": " +:+ Ref.quote "abc" +:+ "}".

(** What the pattern takes from that line: up to the last double quote. *)
Definition overlong : string :=
  foo +:+ String Str.dquote (", " +:+ Ref.quote "sha" +:+ ": " +:+
  String Str.dquote "abc").

(** A builder whose destination is [https://new/dest]. *)
Definition to_new_dest : UniverseReleaseBuilder :=
  {| _dry_run := "";
     _pkg_name := "kafka";
     _pkg_version := "dest";
     _commit_desc := "";
     _stub_universe_url := "https://host/path/stub-universe-kafka.zip";
     _min_dcos_release_version := "1.7";
     _pr_title := "Release kafka dest (automated commit)" +:+ Ref.nls +:+ Ref.nls;
     _release_artifact_http_dir := "https://new/dest";
     _release_artifact_s3_dir := "s3://bucket/new/dest";
     _github_token := "dG9rZW4=" |}.

(** The release server of the defaults, with the stub universe stored
    below the release directory itself. *)
Definition nested_url : string :=
  "https://downloads.mesosphere.com/kafka/assets/stub-universe-kafka.zip".
Definition nested_artifact : string :=
  "https://downloads.mesosphere.com/kafka/assets/foo.jar".

Definition nested_builder : UniverseReleaseBuilder :=
  {| _dry_run := "";
     _pkg_name := "kafka";
     _pkg_version := "1.2.3";
     _commit_desc := "";
     _stub_universe_url := nested_url;
     _min_dcos_release_version := "1.7";
     _pr_title := "Release kafka 1.2.3 (automated commit)" +:+ Ref.nls +:+ Ref.nls;
     _release_artifact_http_dir := "https://downloads.mesosphere.com/kafka/assets/1.2.3";
     _release_artifact_s3_dir := "s3://downloads.mesosphere.io/kafka/assets/1.2.3";
     _github_token := "dG9rZW4=" |}.

End ExampleUrls.


(** The local file and the destination of an artifact, and the events of
    an artifact that goes through in a real run. *)
Definition artifact_local (scratchdir src_url : string) : string :=
  os_path_join scratchdir (Str.last_of (Str.split Str.slash src_url)).

Definition artifact_dest (b : UniverseReleaseBuilder) (src_url : string) : string :=
  _release_artifact_s3_dir b +:+ "/" +:+ Str.last_of (Str.split Str.slash src_url).

Definition artifact_events (b : UniverseReleaseBuilder) (scratchdir src_url : string)
  : list event :=
  [Retrieve src_url (artifact_local scratchdir src_url);
   Shell (cp_cmd (artifact_local scratchdir src_url) (artifact_dest b src_url));
   Unlink (artifact_local scratchdir src_url)].

(** ** What a dry run may do *)

(** Every event that the computation adds to the trace is in [P]. *)
Definition quiet {A} (P : event -> Prop) (m : M A) : Prop :=
  forall s, exists new,
    st_trace (fst (m s)) = (st_trace s ++ new)%list /\ Forall P new.

(** The commit command of a dry run: it shows the commit and pushes
    nothing. *)
Definition show_cmd (scratchdir commitmsg_path : string) : string :=
  Str.join " && "
    ["cd " +:+ os_path_join scratchdir "universe";
     "git add .";
     "git commit -q -F " +:+ commitmsg_path;
     "git show -q HEAD 1>&2"].

(** The events of a dry run of the pipeline: no call to the pull request
    API, no download but the one of the stub universe archive, and no shell
    command but the simulated upload, the clone and the local commit. *)
Definition dry_pipeline_event (w : World) (b : UniverseReleaseBuilder) (e : event)
  : Prop :=
  match e with
  | Post _ _ => False
  | Retrieve url _ => url = _stub_universe_url b
  | Shell cmd =>
      (exists local_path dest, cmd = cp_dryrun_cmd local_path dest) \/
      cmd = clone_cmd (mkdtemp w) (branch_name w b) \/
      cmd = show_cmd (mkdtemp w) (os_path_join (mkdtemp w) "commitmsg.txt")
  | _ => True
  end.

(** The request that the proposer sends for a branch and a message. *)
Definition pr_payload (b : UniverseReleaseBuilder) (branch body : string) : json :=
  JDict [("title", JStr (_pr_title b)); ("head", JStr branch);
         ("base", JStr "version-3.x"); ("body", JStr body)].

(** [c in s] for a character. *)
Fixpoint has_char (c : ascii) (s : string) : bool :=
  match s with
  | EmptyString => false
  | String d s' => Ascii.eqb d c || has_char c s'
  end.

(** Every character is a decimal digit. *)
Fixpoint digits_only (s : string) : bool :=
  match s with
  | EmptyString => true
  | String c s' => is_digit c && digits_only s'
  end.

(** An event that is not a request to the pull request API. *)
Definition no_post (e : event) : Prop :=
  match e with Post _ _ => False | _ => True end.

(** * Properties *)

(** ** Sanity checks of the helpers *)

Example split_url :
  Str.split Str.slash "https://h/p/stub-universe-kafka.zip"
  = ["https:"; ""; "h"; "p"; "stub-universe-kafka.zip"].
Proof. reflexivity. Qed.

Example replace_twice :
  Str.replace "ab" "x" "ababcab" = "xxcx" /\ Str.replace "aa" "b" "aaa" = "ba".
Proof. split; reflexivity. Qed.

Example rstrip_slashes :
  Str.rstrip_char Str.slash "http://h/a.zip//" = "http://h/a.zip".
Proof. reflexivity. Qed.

Example readlines_ex :
  Str.readlines (String "a" (String Str.nl (String "b" EmptyString)))
  = [String "a" (String Str.nl EmptyString); "b"].
Proof. reflexivity. Qed.

Example name_match_kafka :
  name_match "https://example.com/path/to/stub-universe-kafka.zip" = Some "kafka".
Proof. reflexivity. Qed.

Example name_match_greedy :
  name_match "a/stub-universe-b/stub-universe-c.zip" = Some "c"
  /\ name_match "a/stub-universe-b/c.zip" = Some "b/c"
  /\ name_match "a/stub-universe-kafka_zip" = Some "kafka"
  /\ name_match "/stub-universe-kafka.zip" = None
  /\ name_match "a/stub-universe-.zip" = None
  /\ name_match "a/stub-universe-kafka.zip.sig" = None.
Proof. repeat split; reflexivity. Qed.

(** ** Facts about texts *)

Module StrFacts.

Lemma app_nil_r (s : string) : s +:+ EmptyString = s.
Proof. induction s; simpl; congruence. Qed.

Lemma app_assoc (a b c : string) : (a +:+ b) +:+ c = a +:+ (b +:+ c).
Proof. induction a; simpl; congruence. Qed.

Lemma length_app (a b : string) :
  String.length (a +:+ b) = (String.length a + String.length b)%nat.
Proof. induction a; simpl; lia. Qed.

Lemma take_app (a b : string) : Str.take (String.length a) (a +:+ b) = a.
Proof. induction a as [|c a IH]; simpl; [done|]. by rewrite IH. Qed.

Lemma take_app_minus (a b : string) :
  Str.take (String.length (a +:+ b) - String.length b) (a +:+ b) = a.
Proof.
  rewrite length_app.
  replace (String.length a + String.length b - String.length b)%nat
    with (String.length a) by lia.
  apply take_app.
Qed.

Lemma starts_with_app (p s : string) : Str.starts_with p (p +:+ s) = true.
Proof. induction p; simpl; [done|]. by rewrite Ascii.eqb_refl. Qed.

Lemma starts_with_inv (p s : string) :
  Str.starts_with p s = true -> exists t, s = p +:+ t.
Proof.
  revert s. induction p as [|a p IH]; intros s H; simpl in *.
  - by exists s.
  - destruct s as [|b s]; [done|].
    apply andb_prop in H as [Hab Hps].
    apply Ascii.eqb_eq in Hab as ->.
    destruct (IH _ Hps) as [t ->]. by exists t.
Qed.

End StrFacts.

(** ** Facts about the matcher *)

Module ReFacts.
Import Re.

Lemma dotplus_sound k s r :
  dotplus k s = Some r ->
  exists m rest, s = m +:+ rest /\ m <> EmptyString /\ has_nl m = false /\
                 k rest = Some r.
Proof.
  revert r. induction s as [|c s IH]; intros r H; simpl in H; [done|].
  destruct (Str.is_nl c) eqn:Hc; [done|].
  destruct (dotplus k s) as [r'|] eqn:Hd.
  - destruct (IH _ eq_refl) as (m & rest & -> & _ & Hm & Hk).
    exists (String c m), rest. simpl. rewrite Hc, Hm.
    repeat split; [done|congruence].
  - exists (String c EmptyString), s. simpl. rewrite Hc. by repeat split.
Qed.

Lemma dotplus_complete k m rest :
  m <> EmptyString -> has_nl m = false -> is_Some (k rest) ->
  is_Some (dotplus k (m +:+ rest)).
Proof.
  induction m as [|c m IH]; intros Hne Hnl Hk; [done|].
  simpl in *. apply orb_false_iff in Hnl as [Hc Hm]. rewrite Hc.
  destruct m as [|c' m].
  - simpl. destruct (dotplus k rest); [done|]. by destruct Hk as [? ->].
  - destruct (IH ltac:(done) Hm Hk) as [r' ->]. done.
Qed.

Lemma rmatch_seq r1 r2 s caps k :
  rmatch (RSeq r1 r2) s caps k
  = rmatch r1 s caps (fun s' caps' => rmatch r2 s' caps' k).
Proof. reflexivity. Qed.

Lemma rmatch_plus s caps k :
  rmatch RPlusAny s caps k = dotplus (fun s' => k s' caps) s.
Proof. reflexivity. Qed.

Lemma rmatch_group r s caps k :
  rmatch (RGroup r) s caps k
  = rmatch r s caps (fun s' caps' =>
      k s' (caps' ++ [Str.take (String.length s - String.length s') s])%list).
Proof. reflexivity. Qed.

Lemma rmatch_any s caps k res :
  rmatch RAny s caps k = Some res ->
  exists c s', s = String c s' /\ Str.is_nl c = false /\ k s' caps = Some res.
Proof.
  destruct s as [|c s']; simpl; [done|].
  destruct (Str.is_nl c) eqn:Hc; [done|]. intros H. by exists c, s'.
Qed.

Lemma rmatch_any_cons c s caps k :
  rmatch RAny (String c s) caps k = if Str.is_nl c then None else k s caps.
Proof. reflexivity. Qed.

Lemma rmatch_end s caps k res :
  rmatch REnd s caps k = Some res ->
  (s = EmptyString \/ s = String Str.nl EmptyString) /\ k s caps = Some res.
Proof.
  destruct s as [|c [|]]; simpl; [by auto| |done].
  destruct (Str.is_nl c) eqn:Hc; [|done].
  apply Ascii.eqb_eq in Hc as ->. by auto.
Qed.

Lemma lit_sound t r0 s caps k res :
  rmatch (lit t r0) s caps k = Some res ->
  exists rest, s = t +:+ rest /\ rmatch r0 rest caps k = Some res.
Proof.
  revert s. induction t as [|c t IH]; intros s H; simpl in H.
  - by exists s.
  - destruct s as [|d s]; [done|].
    destruct (Ascii.eqb_spec c d) as [->|]; [|done].
    destruct (IH _ H) as (rest & -> & Hr). by exists rest.
Qed.

Lemma lit_complete t r0 rest caps k :
  rmatch (lit t r0) (t +:+ rest) caps k = rmatch r0 rest caps k.
Proof. induction t as [|c t IH]; simpl; [done|]. by rewrite Ascii.eqb_refl. Qed.

End ReFacts.

(** ** The package name taken from the archive URL *)

(** Every match of the name pattern cuts the text as [stub_shape] says and
    captures the name. *)
Lemma name_re_sound url caps rest :
  Re.re_match name_re url = Some (caps, rest) ->
  exists X N c, caps = [N] /\ stub_shape url X N c.
Proof.
  unfold Re.re_match, name_re. intros Hm.
  rewrite ReFacts.rmatch_seq, ReFacts.rmatch_plus in Hm.
  apply ReFacts.dotplus_sound in Hm as (X & r1 & -> & HX & HXnl & Hm).
  apply ReFacts.lit_sound in Hm as (r2 & -> & Hm).
  rewrite ReFacts.rmatch_seq, ReFacts.rmatch_group, ReFacts.rmatch_plus in Hm.
  apply ReFacts.dotplus_sound in Hm as (N & r3 & -> & HN & HNnl & Hm).
  rewrite StrFacts.take_app_minus in Hm.
  rewrite ReFacts.rmatch_seq in Hm.
  apply ReFacts.rmatch_any in Hm as (c & r4 & -> & Hc & Hm).
  apply ReFacts.lit_sound in Hm as (r5 & -> & Hm).
  apply ReFacts.rmatch_end in Hm as [Hr5 Hm].
  simplify_eq/=. exists X, N, c. split; [done|].
  repeat split; try done. by exists rest.
Qed.

Lemma name_match_sound url g :
  name_match url = Some g -> exists X c, stub_shape url X g c.
Proof.
  unfold name_match. intros H.
  destruct (Re.re_match name_re url) as [[caps rest]|] eqn:Hm; [|done].
  apply name_re_sound in Hm as (X & N & c & -> & Hs).
  simplify_eq/=. by exists X, c.
Qed.

Lemma name_match_complete url X N c :
  stub_shape url X N c -> is_Some (name_match url).
Proof.
  intros (HX & HN & HXnl & HNnl & Hc & tail & Htail & ->).
  unfold name_match.
  destruct (Re.re_match name_re _) as [[caps rest]|] eqn:Hm.
  - apply name_re_sound in Hm as (? & ? & ? & -> & _). done.
  - exfalso. revert Hm. unfold Re.re_match, name_re.
    rewrite ReFacts.rmatch_seq, ReFacts.rmatch_plus.
    match goal with |- Re.dotplus ?k ?s = None -> _ =>
      cut (is_Some (Re.dotplus k s)); [by intros [? ->]|] end.
    apply ReFacts.dotplus_complete; [done..|].
    rewrite ReFacts.lit_complete.
    rewrite ReFacts.rmatch_seq, ReFacts.rmatch_group, ReFacts.rmatch_plus.
    apply ReFacts.dotplus_complete; [done..|].
    rewrite ReFacts.rmatch_seq.
    change (String c "zip" +:+ tail) with (String c ("zip" +:+ tail)).
    rewrite ReFacts.rmatch_any_cons, Hc, ReFacts.lit_complete.
    destruct Htail as [-> | ->]; simpl; done.
Qed.

(** C6.  The constructor takes the package name from the archive URL with
    the pattern [.+/stub-universe-(.+).zip$].  When the pattern matches, the
    URL is cut as the pattern says ([stub_shape], with the group as the name),
    any builder constructed has that group as its package name, and with the
    credentials in the environment a builder is constructed.  Every URL of
    that shape matches.  A URL that does not match makes the constructor
    raise the configuration error of the name, whatever the environment, so
    no builder exists. *)
Theorem init_extracts_package_name
    (L : Lib) (environ : gmap string string)
    (package_version url commit_desc min_ver http_server bucket rel_dir : string) :
  let construct :=
    __init__ L environ package_version url commit_desc min_ver http_server
      bucket rel_dir in
  (forall g, name_match url = Some g ->
     (exists X c, stub_shape url X g c) /\
     (forall b, construct = Ok b -> _pkg_name b = g) /\
     (has_credentials environ -> exists b, construct = Ok b /\ _pkg_name b = g)) /\
  ((exists X N c, stub_shape url X N c) -> is_Some (name_match url)) /\
  (name_match url = None -> construct = Raise (ConfigurationError msg_name)) /\
  ((~ exists X N c, stub_shape url X N c) ->
     construct = Raise (ConfigurationError msg_name)).
Proof.
  intros construct. subst construct. unfold __init__.
  split; [|split; [|split]].
  - intros g Hg. rewrite Hg. split; [by apply name_match_sound|]. split.
    + intros b Hb. repeat case_match; by simplify_eq/=.
    + intros ([tok ->] & [k1 ->] & [k2 ->]). eexists. split; [done|]. done.
  - intros (X & N & c & Hs). by eapply name_match_complete.
  - by intros ->.
  - intros Hno. destruct (name_match url) as [g|] eqn:Hg; [|done].
    exfalso. apply Hno. apply name_match_sound in Hg as (X & c & Hs).
    by exists X, g, c.
Qed.

(** ** The artifact mirror *)

Lemma extends_refl P s : extends P s s.
Proof. repeat split. exists []. by rewrite app_nil_r. Qed.

Lemma extends_trans P s1 s2 s3 :
  extends P s1 s2 -> extends P s2 s3 -> extends P s1 s3.
Proof.
  intros (Hp1 & Hr1 & n1 & Ht1 & Hf1) (Hp2 & Hr2 & n2 & Ht2 & Hf2).
  repeat split; [congruence..|].
  exists (n1 ++ n2)%list. split; [|by apply Forall_app].
  by rewrite Ht2, Ht1, <- app_assoc.
Qed.

Lemma extends_emit P s e : P e -> extends P s (fst (emit e s)).
Proof. intros He. repeat split. exists [e]. simpl. by split; [|constructor]. Qed.

Lemma for_each_extends {A} P (body : A -> M unit) l s :
  (forall x s0, extends P s0 (fst (body x s0))) ->
  extends P s (fst (for_each l body s)).
Proof.
  intros Hbody. revert s. induction l as [|x l IH]; intros s; simpl.
  - apply extends_refl.
  - unfold bind. specialize (Hbody x s).
    destruct (body x s) as [s1 [[]|e]]; simpl in *; [|done].
    eapply extends_trans; [done|]. apply IH.
Qed.

(** Unfold the plumbing of the state monad. *)
Ltac run_m :=
  repeat progress
    (unfold system, retrieve, emit, get_trace, get_pkgdir, set_pkgdir, get_repo,
       set_repo, ret, raise, bind; simpl).

Ltac solve_events :=
  repeat first
    [ apply Forall_nil_2
    | apply Forall_cons_2; [unfold dry_event, real_event; eauto 6|] ].

Lemma copy_artifact_dry w b scratchdir url s :
  truthy (_dry_run b) = true ->
  extends dry_event s (fst (copy_artifact w b scratchdir url s)).
Proof.
  intros Hdry. unfold copy_artifact. rewrite Hdry.
  run_m.
  case_decide; simpl; (split; [done|split; [done|]]).
  - eexists [_; _; _]. rewrite <- !app_assoc. split; [done|].
    solve_events.
  - eexists [_; _]. rewrite <- !app_assoc. split; [done|].
    solve_events.
Qed.

Lemma copy_artifact_real w b scratchdir url s :
  truthy (_dry_run b) = false ->
  extends real_event s (fst (copy_artifact w b scratchdir url s)).
Proof.
  intros Hdry. unfold copy_artifact. rewrite Hdry.
  run_m.
  destruct (retrieve_ok w _ _); simpl.
  - case_decide; simpl; (split; [done|split; [done|]]).
    + eexists [_; _; _]. rewrite <- !app_assoc. split; [done|].
      solve_events.
    + eexists [_; _]. rewrite <- !app_assoc. split; [done|].
      solve_events.
  - split; [done|split; [done|]]. eexists [_]. split; [done|].
    solve_events.
Qed.

Lemma dry_event_not_real e : dry_event e -> is_real_upload e = false.
Proof. by intros [[? ->]|[(? & ? & ->)|[? ->]]]. Qed.

Lemma dry_event_not_listing b e : dry_event e -> e <> Shell (ls_cmd b).
Proof. by intros [[? ->]|[(? & ? & ->)|[? ->]]]. Qed.

Example example_builder_constructed dry :
  new_builder Ref.lib (Example.env dry) "1.2.3" Example.url "" = Ok (Example.builder dry).
Proof. reflexivity. Qed.

Lemma listing_is_no_upload b :
  ~ Exists (fun e => is_upload e = true) [Shell (ls_cmd b)] /\
  (forall pre e post,
     [Shell (ls_cmd b)] = (pre ++ e :: post)%list -> is_real_upload e = true ->
     Shell (ls_cmd b) ∈ pre).
Proof.
  split.
  - intros [He|He]%Exists_cons; [done|]. by apply Exists_nil in He.
  - intros pre e post Heq He.
    destruct pre as [|e0 pre]; simplify_eq/=.
    destruct pre; simplify_eq/=.
Qed.

(** C1.  [_copy_artifacts_s3] lists the destination prefix before anything
    else.  With [ret] the status it gets for the listing and [new] the
    events it adds to the trace: when [ret] is 0 (the listing found objects)
    it raises the collision error and the listing is the only event, so no
    upload command was issued; when [ret] is above 256 it raises the
    preflight error, which is another error than the collision, again with no
    upload; an [aws s3 cp] command appears among the events only when [ret]
    is neither 0 nor above 256, which is how the code reads an empty prefix;
    and every command that uploads data has the listing command before it in
    the trace. *)
Theorem copy_artifacts_checks_destination_first
    (w : World) (b : UniverseReleaseBuilder) (scratchdir : string)
    (original_artifact_urls : list string) (s : state) :
  let ret_ := listing_status w b s in
  let out := _copy_artifacts_s3 w b scratchdir original_artifact_urls s in
  exists new,
    st_trace (fst out) = (st_trace s ++ new)%list /\
    (ret_ = 0%Z -> snd out = Raise DestinationCollision /\ new = [Shell (ls_cmd b)]) /\
    ((ret_ > 256)%Z ->
       snd out = Raise (PreflightFailure ret_) /\ new = [Shell (ls_cmd b)]) /\
    (forall code, PreflightFailure code <> DestinationCollision) /\
    (Exists (fun e => is_upload e = true) new -> ret_ <> 0%Z /\ (ret_ <= 256)%Z) /\
    (forall pre e post,
       new = (pre ++ e :: post)%list -> is_real_upload e = true ->
       Shell (ls_cmd b) ∈ pre).
Proof.
  intros ret_ out. subst ret_ out. unfold _copy_artifacts_s3, _run_cmd, listing_status.
  destruct (truthy (_dry_run b)) eqn:Hdry.
  - (* dry run: the status is 1 and the loop runs at once *)
    run_m.
    destruct (for_each_extends dry_event (copy_artifact w b scratchdir)
                original_artifact_urls s
                (fun x s0 => copy_artifact_dry w b scratchdir x s0 Hdry))
      as (_ & _ & new & Hnew & Hall).
    exists new. split; [done|].
    split; [done|]. split; [lia|]. split; [done|]. split; [lia|].
    intros pre e post -> He. exfalso.
    apply Forall_app in Hall as [_ Hall]. apply Forall_cons in Hall as [Hdrye _].
    apply dry_event_not_real in Hdrye. congruence.
  - run_m. set (s1 := {| st_pkgdir := _; st_repo := _; st_trace := _ |}).
    destruct (listing_is_no_upload b) as [Hno Hpre].
    case_decide as H0; [|case_decide as H256]; simpl.
    + exists [Shell (ls_cmd b)].
      split; [done|]. split; [done|]. split; [lia|]. split; [done|]. done.
    + exists [Shell (ls_cmd b)].
      split; [done|]. split; [done|]. split; [done|]. split; [done|]. done.
    + destruct (for_each_extends real_event (copy_artifact w b scratchdir)
                  original_artifact_urls s1
                  (fun x s0 => copy_artifact_real w b scratchdir x s0 Hdry))
        as (_ & _ & new & Hnew & Hall).
      exists (Shell (ls_cmd b) :: new). split.
      { rewrite Hnew. subst s1. simpl. by rewrite <- app_assoc. }
      split; [done|]. split; [lia|]. split; [done|]. split; [lia|].
      intros pre e post Heq He. destruct pre as [|e0 pre]; simplify_eq/=.
      apply list_elem_of_here.
Qed.

(** How one artifact can end: it went through, or its upload failed. *)
Definition artifact_outcome (r : result unit) : Prop :=
  r = Ok tt \/ exists local_path dest, r = Raise (PartialUploadFailure local_path dest).

Lemma for_each_outcome {A} (P : result unit -> Prop) (body : A -> M unit) l s :
  P (Ok tt) ->
  (forall x s0, P (snd (body x s0))) ->
  P (snd (for_each l body s)).
Proof.
  intros Hok Hbody. revert s. induction l as [|x l IH]; intros s; simpl; [done|].
  unfold bind. specialize (Hbody x s).
  destruct (body x s) as [s1 [[]|e]]; simpl in *; [apply IH|done].
Qed.

Lemma copy_artifact_dry_outcome w b scratchdir url s :
  truthy (_dry_run b) = true ->
  artifact_outcome (snd (copy_artifact w b scratchdir url s)).
Proof.
  intros Hdry. unfold copy_artifact, artifact_outcome. rewrite Hdry. run_m.
  case_decide; simpl; eauto.
Qed.

(** C3 (counterexample).  In a world where the listing of the destination
    would end with status 0, the real variant raises the collision error,
    while the dry run of the same call never runs the listing, goes through
    and writes a placeholder of four bytes. *)
Lemma dry_run_skips_the_listing :
  snd (_copy_artifacts_s3 (Example.world "" 0 201 [] []) (Example.builder "")
         Example.scratchdir ["https://host/path/foo.json"] initial_state)
  = Raise DestinationCollision /\
  _copy_artifacts_s3 (Example.world "1" 0 201 [] []) (Example.builder "1")
    Example.scratchdir ["https://host/path/foo.json"] initial_state
  = ({| st_pkgdir := []; st_repo := None;
        st_trace := [WriteFile Example.local_foo "stub";
                     Shell (cp_dryrun_cmd Example.local_foo Example.dest_foo);
                     Unlink Example.local_foo] |}, Ok tt) /\
  String.length "stub" = 4.
Proof. repeat split; reflexivity. Qed.

(** C3 (amended).  In a dry run [_copy_artifacts_s3] does not run the
    listing of the destination: it takes 1 as its status, so it raises
    neither the collision nor the preflight error.  It then goes through the
    artifacts as the real variant does, one after the other, stopping at the
    first [aws s3 cp] that fails: for each artifact it writes the four bytes
    [stub] to the local file instead of downloading, runs [aws s3 cp
    --dryrun] instead of the upload and removes the local file when that
    command ends with status 0.  No download and no command that moves data
    is issued, and the files of the run are left as they were. *)
Theorem dry_run_mirror
    (w : World) (b : UniverseReleaseBuilder) (scratchdir : string)
    (original_artifact_urls : list string) (s : state) :
  truthy (_dry_run b) = true ->
  let out := _copy_artifacts_s3 w b scratchdir original_artifact_urls s in
  artifact_outcome (snd out) /\
  st_pkgdir (fst out) = st_pkgdir s /\ st_repo (fst out) = st_repo s /\
  (exists new,
     st_trace (fst out) = (st_trace s ++ new)%list /\
     Forall dry_event new /\
     (Shell (ls_cmd b) ∉ new) /\
     Forall (fun e => is_real_upload e = false /\
                      forall url local_path, e <> Retrieve url local_path) new) /\
  (forall url s0,
     let local_path :=
       os_path_join scratchdir (Str.last_of (Str.split Str.slash url)) in
     let cmd :=
       cp_dryrun_cmd local_path
         (_release_artifact_s3_dir b +:+ "/" +:+ Str.last_of (Str.split Str.slash url)) in
     let status_ := os_system w (st_trace s0 ++ [WriteFile local_path "stub"])%list cmd in
     copy_artifact w b scratchdir url s0 =
       if decide (status_ = 0%Z)
       then ({| st_pkgdir := st_pkgdir s0; st_repo := st_repo s0;
                st_trace := (st_trace s0 ++
                   [WriteFile local_path "stub"; Shell cmd; Unlink local_path])%list |},
             Ok tt)
       else ({| st_pkgdir := st_pkgdir s0; st_repo := st_repo s0;
                st_trace := (st_trace s0 ++ [WriteFile local_path "stub"; Shell cmd])%list |},
             Raise (PartialUploadFailure local_path
                      (_release_artifact_s3_dir b +:+ "/" +:+
                       Str.last_of (Str.split Str.slash url))))).
Proof.
  intros Hdry out. subst out. unfold _copy_artifacts_s3, _run_cmd. rewrite Hdry.
  run_m.
  destruct (for_each_extends dry_event (copy_artifact w b scratchdir)
              original_artifact_urls s
              (fun x s0 => copy_artifact_dry w b scratchdir x s0 Hdry))
    as (Hp & Hr & new & Hnew & Hall).
  split; [|split; [done|split; [done|split]]].
  - apply (for_each_outcome artifact_outcome); [by left|].
    intros x s0. by apply copy_artifact_dry_outcome.
  - exists new. split; [done|]. split; [done|]. split.
    + intros Hin. eapply Forall_forall in Hall; [|done].
      by eapply dry_event_not_listing.
    + eapply Forall_impl; [done|]. intros e He. split.
      * by apply dry_event_not_real.
      * intros u l ->. by destruct He as [[? ?]|[(? & ? & ?)|[? ?]]].
  - intros url s0. unfold copy_artifact. rewrite Hdry. run_m.
    case_decide; simpl; by rewrite <- !app_assoc.
Qed.

Lemma dry_run_mirror_witness :
  artifact_outcome
    (snd (_copy_artifacts_s3 (Example.world "1" 0 201 [] []) (Example.builder "1")
            Example.scratchdir ["https://host/path/foo.json"] initial_state)).
Proof.
  exact (proj1 (dry_run_mirror (Example.world "1" 0 201 [] []) (Example.builder "1")
                  Example.scratchdir ["https://host/path/foo.json"] initial_state
                  eq_refl)).
Defined.

(** ** Revision numbering *)

Lemma find_lastnum_fold names base acc :
  let step := fun lastnum filename =>
    if negb (os_path_isdir filename base) then lastnum
    else match py_int filename with
         | None => lastnum
         | Some num => if decide (num > lastnum)%Z then num else lastnum
         end in
  let nums := omap (fun filename =>
      if os_path_isdir filename base then py_int filename else None) names in
  let r := fold_left step names acc in
  (acc <= r)%Z /\ (forall n, n ∈ nums -> (n <= r)%Z) /\ (r = acc \/ r ∈ nums).
Proof.
  simpl. revert acc. induction names as [|f names IH]; intros acc; simpl.
  - split; [lia|]. split; [|by left]. intros n Hn. by apply elem_of_nil in Hn.
  - destruct (os_path_isdir f base); simpl; [|apply IH].
    destruct (py_int f) as [num|]; simpl; [|apply IH].
    case_decide as Hgt.
    + destruct (IH num) as (Hle & Hub & Hmem).
      split; [lia|]. split.
      * intros n [->|Hn]%elem_of_cons; [done|by apply Hub].
      * right. destruct Hmem as [->|Hmem]; [apply list_elem_of_here|].
        by apply list_elem_of_further.
    + destruct (IH acc) as (Hle & Hub & Hmem).
      split; [done|]. split.
      * intros n [->|Hn]%elem_of_cons; [lia|by apply Hub].
      * destruct Hmem as [->|Hmem]; [by left|]. right.
        by apply list_elem_of_further.
Qed.

Lemma find_lastnum_spec base :
  (-1 <= find_lastnum base)%Z /\
  (forall n, n ∈ revision_numbers base -> (n <= find_lastnum base)%Z) /\
  (find_lastnum base = (-1)%Z \/ find_lastnum base ∈ revision_numbers base).
Proof. apply (find_lastnum_fold (os_listdir base) base (-1)%Z). Qed.

Lemma alist_get_Some_name {V} k (d : list (string * V)) v :
  alist_get k d = Some v -> k ∈ map fst d.
Proof.
  induction d as [|[n x] d IH]; simpl; [done|].
  case_decide as Hn; [intros _; subst; apply list_elem_of_here|].
  intros Hget. apply list_elem_of_further. by apply IH.
Qed.

Lemma alist_get_None_name {V} k (d : list (string * V)) :
  alist_get k d = None <-> k ∉ map fst d.
Proof.
  induction d as [|[n x] d IH]; simpl.
  - split; [intros _ H; by apply elem_of_nil in H|done].
  - case_decide as Hn.
    + split; [done|]. intros Hno. exfalso. apply Hno. subst. apply list_elem_of_here.
    + rewrite IH. split.
      * intros Hno [?|?]%elem_of_cons; [congruence|done].
      * intros Hno ?. apply Hno. by apply list_elem_of_further.
Qed.

Lemma alist_get_app {V} k (d1 d2 : list (string * V)) :
  alist_get k (d1 ++ d2) =
    match alist_get k d1 with Some v => Some v | None => alist_get k d2 end.
Proof.
  induction d1 as [|[n x] d1 IH]; simpl; [done|]. by case_decide.
Qed.

Lemma alist_get_set {V} k k' (v : V) d :
  alist_get k' (alist_set k v d) = if decide (k = k') then Some v else alist_get k' d.
Proof.
  induction d as [|[n x] d IH]; simpl.
  - done.
  - destruct (decide (n = k)) as [->|Hnk]; simpl.
    + by destruct (decide (k = k')).
    + rewrite IH. destruct (decide (n = k')) as [->|]; [|done].
      by destruct (decide (k = k')).
Qed.

Lemma alist_set_names {V} k (v : V) d :
  is_Some (alist_get k d) -> map fst (alist_set k v d) = map fst d.
Proof.
  induction d as [|[n x] d IH]; simpl; [by intros [? ?]|].
  case_decide; simpl; [done|]. intros Hsome. by rewrite IH.
Qed.

Lemma isdir_number_listed base filename n :
  os_path_isdir filename base = true -> py_int filename = Some n ->
  n ∈ revision_numbers base.
Proof.
  intros Hdir Hint. unfold revision_numbers. apply list_elem_of_omap.
  exists filename. rewrite Hdir. split; [|done].
  unfold os_path_isdir, dir_lookup in Hdir.
  destruct (alist_get filename base) eqn:Hget; [|done].
  by eapply alist_get_Some_name.
Qed.

(** C2 (counterexample).  The package's directory in the clone holds no
    subdirectory named by an integer: the code makes the new revision
    directory [0] and fails afterwards, on listing the missing revision
    [-1]. *)
Lemma no_prior_revision_leaves_a_directory :
  snd (_create_universe_branch Ref.lib
         (Example.world "" 1 201 [] [("README.md", File "notes")])
         (Example.builder "") Example.scratchdir "pkgdir" initial_state)
  = Raise (OSError ENOENT "/tmp/stub-universe-tmp1/universe/repo/packages/K/kafka/-1") /\
  st_repo (fst (_create_universe_branch Ref.lib
         (Example.world "" 1 201 [] [("README.md", File "notes")])
         (Example.builder "") Example.scratchdir "pkgdir" initial_state))
  = Some [("README.md", File "notes"); ("0", Dir [])].
Proof. split; reflexivity. Qed.

(** C2 (amended).  The revision committer reads the integers that name
    subdirectories of the package's directory; entries that are not
    directories and names that are not integers do not count.  The number it
    finds is the largest of these integers and -1, and the next revision is
    one more: with a subdirectory named by an integer that is not negative,
    it is the maximum found plus one (3 for 0, 1, 2 and 6 for 0, 5, 3).  When
    no subdirectory is named by an integer the code fails, but only after
    making the new revision directory [0], unless an entry named [0] is
    already there. *)
Theorem next_revision_number (base : dir) :
  (forall n, n ∈ revision_numbers base -> (n <= find_lastnum base)%Z) /\
  (find_lastnum base = (-1)%Z \/ find_lastnum base ∈ revision_numbers base) /\
  ((exists n, n ∈ revision_numbers base /\ (0 <= n)%Z) ->
     find_lastnum base ∈ revision_numbers base) /\
  (find_lastnum (revisions [0; 1; 2]) + 1 = 3)%Z /\
  (find_lastnum (revisions [0; 5; 3]) + 1 = 6)%Z /\
  (revision_numbers base = [] ->
     find_lastnum base = (-1)%Z /\
     forall L pkgdir base_path s, st_repo s = Some base ->
       (exists what path,
          snd (collect_changes L pkgdir base_path (find_lastnum base) s)
          = Raise (OSError what path)) /\
       (dir_lookup "0" base = None ->
          st_repo (fst (collect_changes L pkgdir base_path (find_lastnum base) s))
          = Some (base ++ [("0", Dir [])])%list) /\
       (is_Some (dir_lookup "0" base) ->
          st_repo (fst (collect_changes L pkgdir base_path (find_lastnum base) s))
          = Some base)).
Proof.
  destruct (find_lastnum_spec base) as (Hlow & Hub & Hmem).
  split; [done|]. split; [done|]. split; [|split; [done|split; [done|]]].
  { intros (n & Hn & H0). destruct Hmem as [Heq|]; [|done].
    apply Hub in Hn. lia. }
  intros Hnone.
  assert (find_lastnum base = (-1)%Z) as Hlast.
  { destruct Hmem as [|Hin]; [done|]. rewrite Hnone in Hin.
    by apply elem_of_nil in Hin. }
  split; [done|]. intros L pkgdir base_path s Hrepo. rewrite Hlast.
  unfold collect_changes, makedirs_revision, revision_entries, get_base.
  change (pretty (-1 + 1)%Z) with "0". change (pretty (-1)%Z) with "-1".
  run_m. rewrite Hrepo. simpl.
  destruct (dir_lookup "0" base) as [x|] eqn:H0; simpl.
  - split; [by eauto|]. split; [done|]. by rewrite Hrepo.
  - unfold dir_lookup. rewrite alist_get_app. fold (dir_lookup "-1" base).
    destruct (dir_lookup "-1" base) as [[c|es]|] eqn:Hm1; simpl.
    + split; [by eauto|]. split; [done|]. by intros [? ?].
    + exfalso. assert ((-1)%Z ∈ revision_numbers base) as Hin.
      { apply (isdir_number_listed base "-1"); [|done].
        unfold os_path_isdir. by rewrite Hm1. }
      rewrite Hnone in Hin. by apply elem_of_nil in Hin.
    + split; [by eauto|]. split; [done|]. by intros [? ?].
Qed.

(** ** The copy loop of the revision committer *)

Lemma list_in_spec x l : list_in x l = true <-> x ∈ l.
Proof. unfold list_in. by rewrite bool_decide_eq_true. Qed.

Lemma list_remove_subset x l y : y ∈ list_remove x l -> y ∈ l.
Proof.
  induction l as [|z l IH]; simpl; [done|].
  case_decide; [by apply list_elem_of_further|].
  intros [->|Hy]%elem_of_cons; [apply list_elem_of_here|].
  apply list_elem_of_further. by apply IH.
Qed.

Lemma list_remove_elem x l y :
  NoDup l -> y ∈ list_remove x l <-> y ∈ l /\ y <> x.
Proof.
  induction l as [|z l IH]; intros Hnd; simpl.
  - split; [intros Hy; by apply elem_of_nil in Hy|by intros [Hy _]].
  - apply NoDup_cons in Hnd as [Hz Hnd]. case_decide as Hzx.
    + subst z. split.
      * intros Hy. split; [by apply list_elem_of_further|]. by intros ->.
      * intros [[->|Hy]%elem_of_cons Hne]; done.
    + rewrite elem_of_cons, IH by done. rewrite elem_of_cons. split.
      * intros [->|[Hy Hne]]; [by split; [left|]|by split; [right|]].
      * intros [[->|Hy] Hne]; [by left|by right].
Qed.

Lemma list_remove_NoDup x l : NoDup l -> NoDup (list_remove x l).
Proof.
  induction l as [|z l IH]; intros Hnd; simpl; [done|].
  apply NoDup_cons in Hnd as [Hz Hnd]. case_decide; [done|].
  apply NoDup_cons. split; [|by apply IH].
  intros Hin. by apply list_remove_subset in Hin.
Qed.

Lemma pretty_succ_ne (n : Z) : pretty (n + 1)%Z <> pretty n.
Proof. intros Heq. apply (inj pretty) in Heq. lia. Qed.

(** Runs of the file operations that succeed. *)
Lemma bind_ok {A B} (m : M A) (k : A -> M B) s s' a :
  m s = (s', Ok a) -> bind m k s = k a s'.
Proof. unfold bind. by intros ->. Qed.

Lemma bind_raise {A B} (m : M A) (k : A -> M B) s s' e :
  m s = (s', Raise e) -> bind m k s = (s', Raise e).
Proof. unfold bind. by intros ->. Qed.

Lemma run_read_pkg_file pkgdir f s content :
  dir_lookup f (st_pkgdir s) = Some (File content) ->
  read_pkg_file pkgdir f s = (s, Ok content).
Proof. intros Hf. unfold read_pkg_file. run_m. by rewrite Hf. Qed.

Lemma run_get_base base_path s bk :
  st_repo s = Some bk -> get_base base_path s = (s, Ok bk).
Proof. intros Hr. unfold get_base. run_m. by rewrite Hr. Qed.

Lemma run_revision_entries base_path rev s bk es :
  st_repo s = Some bk -> dir_lookup rev bk = Some (Dir es) ->
  revision_entries base_path rev s = (s, Ok es).
Proof.
  intros Hr Hrev. unfold revision_entries.
  erewrite bind_ok by by apply run_get_base. by rewrite Hrev.
Qed.

Lemma run_read_revision_file base_path rev f s bk es content :
  st_repo s = Some bk -> dir_lookup rev bk = Some (Dir es) ->
  dir_lookup f es = Some (File content) ->
  read_revision_file base_path rev f s = (s, Ok content).
Proof.
  intros Hr Hrev Hf. unfold read_revision_file.
  erewrite bind_ok by by eapply run_revision_entries. by rewrite Hf.
Qed.

Lemma run_copyfile pkgdir base_path rev f s bk es content :
  dir_lookup f (st_pkgdir s) = Some (File content) ->
  st_repo s = Some bk -> dir_lookup rev bk = Some (Dir es) ->
  os_path_isdir f es = false ->
  copyfile pkgdir base_path rev f s =
    ({| st_pkgdir := st_pkgdir s;
        st_repo := Some (dir_set rev (Dir (dir_set f (File content) es)) bk);
        st_trace := (st_trace s ++
          [CopyFile (os_path_join pkgdir f)
             (os_path_join (os_path_join base_path rev) f)])%list |}, Ok tt).
Proof.
  intros Hf Hr Hrev Hes. unfold copyfile.
  erewrite bind_ok by by apply run_read_pkg_file.
  erewrite bind_ok by by apply run_get_base.
  erewrite bind_ok by by eapply run_revision_entries.
  unfold os_path_isdir in Hes.
  destruct (dir_lookup f es) as [[|]|]; [|done|]; by run_m.
Qed.

Section CollectLoop.
Context (L : Lib) (pkgdir base_path : string) (lastnum : Z) (pkg old : dir).

(** The names that the loop copies among [todo]. *)
Definition picked (todo : list string) (f : string) : Prop :=
  f ∈ todo /\ os_path_isfile f pkg = true.

(** What a run of the loop over [todo] from [(s, c)] leaves in [(s', c')]. *)
Definition loop_post (todo : list string) (s : state) (c : changes)
    (bk es : dir) (s' : state) (c' : changes) : Prop :=
  exists bk' es',
    st_pkgdir s' = pkg /\ st_repo s' = Some bk' /\
    dir_lookup (pretty lastnum) bk' = Some (Dir old) /\
    dir_lookup (pretty (lastnum + 1)%Z) bk' = Some (Dir es') /\
    (forall n, n <> pretty (lastnum + 1)%Z -> dir_lookup n bk' = dir_lookup n bk) /\
    os_listdir bk' = os_listdir bk /\
    (forall f, picked todo f -> dir_lookup f es' = dir_lookup f pkg) /\
    (forall f, ~ picked todo f -> dir_lookup f es' = dir_lookup f es) /\
    (forall f, f ∈ removedfiles c' <-> f ∈ removedfiles c /\ ~ picked todo f) /\
    NoDup (removedfiles c') /\
    (forall f, f ∈ addedfiles c' <->
               f ∈ addedfiles c \/ (picked todo f /\ f ∉ removedfiles c)) /\
    (forall f, picked todo f -> f ∈ removedfiles c ->
               alist_get f (filediffs c') = Some (diff_of L lastnum old pkg f)) /\
    (forall f, ~ (picked todo f /\ f ∈ removedfiles c) ->
               alist_get f (filediffs c') = alist_get f (filediffs c)).

(** One turn of the loop on a regular file. *)
Lemma collect_step_file c s bk es f content :
  st_pkgdir s = pkg -> st_repo s = Some bk ->
  dir_lookup (pretty lastnum) bk = Some (Dir old) ->
  dir_lookup (pretty (lastnum + 1)%Z) bk = Some (Dir es) ->
  os_path_isdir f es = false ->
  dir_lookup f pkg = Some (File content) ->
  (f ∈ removedfiles c -> exists oldfile, dir_lookup f old = Some (File oldfile)) ->
  collect_step L pkgdir base_path lastnum pkg f c s =
    ({| st_pkgdir := st_pkgdir s;
        st_repo := Some (dir_set (pretty (lastnum + 1)%Z)
                           (Dir (dir_set f (File content) es)) bk);
        st_trace := (st_trace s ++
          [CopyFile (os_path_join pkgdir f)
             (os_path_join (os_path_join base_path (pretty (lastnum + 1)%Z)) f)])%list |},
     Ok (if list_in f (removedfiles c)
         then {| removedfiles := list_remove f (removedfiles c);
                 addedfiles := addedfiles c;
                 filediffs := alist_set f (diff_of L lastnum old pkg f) (filediffs c) |}
         else {| removedfiles := removedfiles c;
                 addedfiles := (addedfiles c ++ [f])%list;
                 filediffs := filediffs c |})).
Proof.
  intros Hpkg Hrepo Hlast Hthis Hes Hf Hold.
  unfold collect_step, os_path_isfile. rewrite Hf. simpl.
  erewrite bind_ok; [|apply run_copyfile; by rewrite ?Hpkg].
  set (s1 := {| st_pkgdir := _; st_repo := _; st_trace := _ |}).
  assert (dir_lookup (pretty lastnum)
            (dir_set (pretty (lastnum + 1)%Z) (Dir (dir_set f (File content) es)) bk)
          = Some (Dir old)) as Hlast'.
  { unfold dir_lookup, dir_set. rewrite alist_get_set.
    case_decide as Heq; [by apply pretty_succ_ne in Heq|done]. }
  assert (dir_lookup (pretty (lastnum + 1)%Z)
            (dir_set (pretty (lastnum + 1)%Z) (Dir (dir_set f (File content) es)) bk)
          = Some (Dir (dir_set f (File content) es))) as Hthis'.
  { unfold dir_lookup, dir_set. rewrite alist_get_set. by case_decide. }
  assert (dir_lookup f (dir_set f (File content) es) = Some (File content)) as Hnew.
  { unfold dir_lookup, dir_set. rewrite alist_get_set. by case_decide. }
  destruct (list_in f (removedfiles c)) eqn:Hin; [|done].
  apply list_in_spec in Hin. destruct (Hold Hin) as [oldfile Holdf].
  erewrite bind_ok; [|by eapply (run_read_revision_file _ _ _ s1)].
  erewrite bind_ok; [|by eapply (run_read_revision_file _ _ _ s1)].
  unfold diff_of. by rewrite Holdf, Hf.
Qed.

Lemma picked_cons f todo f' :
  os_path_isfile f pkg = true ->
  picked (f :: todo) f' <-> f' = f \/ picked todo f'.
Proof.
  intros Hf. unfold picked. rewrite elem_of_cons. split.
  - intros [[->|Hin] Hfile]; [by left|by right].
  - intros [->|[Hin Hfile]]; [by split; [left|]|by split; [right|]].
Qed.

Lemma picked_skip f todo f' :
  os_path_isfile f pkg = false -> picked (f :: todo) f' <-> picked todo f'.
Proof.
  intros Hf. unfold picked. rewrite elem_of_cons. split.
  - intros [[->|Hin] Hfile]; [congruence|done].
  - intros [Hin Hfile]. by split; [right|].
Qed.

Lemma collect_loop todo :
  NoDup todo ->
  (forall f, f ∈ todo -> os_path_isfile f pkg = true -> os_path_isdir f old = false) ->
  forall c s bk es,
    st_pkgdir s = pkg -> st_repo s = Some bk ->
    dir_lookup (pretty lastnum) bk = Some (Dir old) ->
    dir_lookup (pretty (lastnum + 1)%Z) bk = Some (Dir es) ->
    (forall f, os_path_isdir f es = false) ->
    NoDup (removedfiles c) ->
    (forall f, f ∈ removedfiles c -> f ∈ os_listdir old) ->
    exists s' c',
      for_acc todo c (collect_step L pkgdir base_path lastnum pkg) s = (s', Ok c') /\
      loop_post todo s c bk es s' c'.
Proof.
  induction todo as [|f todo IH]; intros Hnd Hclash c s bk es Hpkg Hrepo Hlast Hthis
    Hes Hrem Hsub.
  - exists s, c. split; [done|]. exists bk, es.
    assert (forall f, ~ picked [] f) as Hno.
    { intros f0 [Hin _]. by apply elem_of_nil in Hin. }
    repeat split; try done; naive_solver.
  - apply NoDup_cons in Hnd as [Hfresh Hnd]. simpl.
    destruct (os_path_isfile f pkg) eqn:Hf.
    + (* a regular file: it is copied *)
      assert (exists content, dir_lookup f pkg = Some (File content)) as [content Hc].
      { unfold os_path_isfile in Hf. destruct (dir_lookup f pkg) as [[]|]; by eauto. }
      assert (f ∈ removedfiles c ->
              exists oldfile, dir_lookup f old = Some (File oldfile)) as Hold.
      { intros Hin. apply Hsub in Hin.
        specialize (Hclash f (list_elem_of_here _ _) Hf).
        unfold os_path_isdir in Hclash.
        destruct (dir_lookup f old) as [[oldfile|]|] eqn:Hl; [by eauto|done|].
        by apply alist_get_None_name in Hl. }
      unfold bind at 1.
      rewrite (collect_step_file c s bk es f content) by done.
      set (s1 := {| st_pkgdir := _; st_repo := _; st_trace := _ |}).
      set (c1 := if list_in f (removedfiles c) then _ else _).
      set (es1 := dir_set f (File content) es).
      set (bk1 := dir_set (pretty (lastnum + 1)%Z) (Dir es1) bk).
      assert (forall n, n <> pretty (lastnum + 1)%Z ->
                        dir_lookup n bk1 = dir_lookup n bk) as Hbk1.
      { intros n Hn. unfold bk1, dir_lookup, dir_set. rewrite alist_get_set.
        by destruct (decide (pretty (lastnum + 1)%Z = n)). }
      assert (dir_lookup (pretty (lastnum + 1)%Z) bk1 = Some (Dir es1)) as Hthis1.
      { unfold bk1, dir_lookup, dir_set. rewrite alist_get_set.
        by destruct (decide (pretty (lastnum + 1)%Z = pretty (lastnum + 1)%Z)). }
      assert (forall f', dir_lookup f' es1 =
                if decide (f = f') then Some (File content) else dir_lookup f' es)
        as Hes1.
      { intros f'. unfold es1, dir_lookup, dir_set. by rewrite alist_get_set. }
      assert (NoDup (removedfiles c1) /\
              (forall f', f' ∈ removedfiles c1 <-> f' ∈ removedfiles c /\ f' <> f) /\
              (forall f', f' ∈ addedfiles c1 <->
                  f' ∈ addedfiles c \/ (f' = f /\ f ∉ removedfiles c)) /\
              (forall f', alist_get f' (filediffs c1) =
                  if decide (f = f' /\ f ∈ removedfiles c)
                  then Some (diff_of L lastnum old pkg f)
                  else alist_get f' (filediffs c))) as (Hnd1 & Hrem1 & Hadd1 & Hdiff1).
      { subst c1. destruct (list_in f (removedfiles c)) eqn:Hin; simpl.
        - apply list_in_spec in Hin. split; [by apply list_remove_NoDup|].
          split; [intros f'; by apply list_remove_elem|]. split.
          + intros f'. naive_solver.
          + intros f'. rewrite alist_get_set.
            destruct (decide (f = f'));
              destruct (decide (f = f' /\ f ∈ removedfiles c)); naive_solver.
        - assert (f ∉ removedfiles c) as Hnin.
          { intros Hin'. apply list_in_spec in Hin'. congruence. }
          split; [done|]. split; [naive_solver|]. split.
          + intros f'. rewrite elem_of_app, list_elem_of_singleton. naive_solver.
          + intros f'. destruct (decide (f = f' /\ f ∈ removedfiles c)); naive_solver. }
      destruct (IH Hnd (fun f0 H0 => Hclash f0 (list_elem_of_further _ _ _ H0))
                  c1 s1 bk1 es1) as (s' & c' & Hrun & Hpost).
      { done. }
      { done. }
      { rewrite Hbk1; [done|]. intros Heq. symmetry in Heq.
        by apply pretty_succ_ne in Heq. }
      { done. }
      { intros f'. unfold os_path_isdir. rewrite Hes1.
        destruct (decide (f = f')); [done|]. apply Hes. }
      { done. }
      { intros f' Hin. apply Hrem1 in Hin as [Hin _]. by apply Hsub. }
      exists s', c'. split; [done|].
      destruct Hpost as (bk' & es' & P1 & P2 & P3 & P4 & P5 & P6 & P7 & P8 & P9 &
                         P10 & P11 & P12 & P13).
      assert (~ picked todo f) as Hnp by (by intros [? _]).
      exists bk', es'.
      split; [done|]. split; [done|]. split; [done|]. split; [done|].
      split. { intros n Hn. rewrite P5 by done. by apply Hbk1. }
      split. { rewrite P6. unfold bk1, os_listdir, dir_set.
               apply alist_set_names. unfold dir_lookup in Hthis. by rewrite Hthis. }
      split. { intros f' [->|Hp]%picked_cons; [|by apply P7|done].
               rewrite P8 by done. rewrite Hes1. by destruct (decide (f = f)). }
      split. { intros f' Hnp'. rewrite picked_cons in Hnp' by done.
               rewrite P8 by naive_solver. rewrite Hes1.
               destruct (decide (f = f')); naive_solver. }
      split. { intros f'. rewrite P9, Hrem1, picked_cons by done. naive_solver. }
      split; [done|].
      split. { intros f'. rewrite P11, Hadd1, picked_cons by done.
               split.
               - intros [[?|[-> ?]]|[Hp Hn]]; [by left|right; naive_solver|].
                 right. split; [by right|]. intros Hin. apply Hn, Hrem1.
                 split; [done|]. intros ->. done.
               - intros [?|[[->|Hp] Hn]]; [by left; left|by left; right|].
                 right. split; [done|]. intros Hin. apply Hn. by apply Hrem1. }
      split. { intros f' [->|Hp]%picked_cons Hin; [| |done].
               - rewrite P13 by naive_solver. rewrite Hdiff1.
                 destruct (decide (f = f /\ f ∈ removedfiles c)); naive_solver.
               - apply P12; [done|]. apply Hrem1. split; [done|].
                 intros ->. done. }
      intros f' Hn. rewrite picked_cons in Hn by done.
      rewrite P13.
      * rewrite Hdiff1.
        destruct (decide (f = f' /\ f ∈ removedfiles c)); naive_solver.
      * intros [Hp Hin]. apply Hn. split; [by right|]. by apply Hrem1 in Hin as [? _].
    + (* not a regular file: it is passed over *)
      unfold collect_step at 1. rewrite Hf. simpl. unfold bind at 1, ret at 1.
      destruct (IH Hnd (fun f0 H0 => Hclash f0 (list_elem_of_further _ _ _ H0))
                  c s bk es) as (s' & c' & Hrun & Hpost); try done.
      exists s', c'. split; [done|].
      destruct Hpost as (bk' & es' & P1 & P2 & P3 & P4 & P5 & P6 & P7 & P8 & P9 &
                         P10 & P11 & P12 & P13).
      exists bk', es'.
      split; [done|]. split; [done|]. split; [done|]. split; [done|].
      split; [done|]. split; [done|].
      split. { intros f' Hp%picked_skip; [|done]. by apply P7. }
      split. { intros f' Hp. apply P8. by rewrite <- (picked_skip f). }
      split. { intros f'. by rewrite P9, picked_skip. }
      split; [done|].
      split. { intros f'. by rewrite P11, picked_skip. }
      split. { intros f' Hp%picked_skip; [|done]. by apply P12. }
      intros f' Hp. apply P13. by rewrite <- (picked_skip f).
Qed.

End CollectLoop.

(** What [collect_changes] does when the new revision can be made, the
    previous one is a directory, and no regular file of the package meets a
    directory of the same name in the previous revision. *)
Lemma collect_changes_spec L pkgdir base_path lastnum s base old :
  st_repo s = Some base ->
  dir_lookup (pretty (lastnum + 1)%Z) base = None ->
  dir_lookup (pretty lastnum) base = Some (Dir old) ->
  well_formed (st_pkgdir s) -> well_formed old ->
  (forall f, os_path_isfile f (st_pkgdir s) = true -> os_path_isdir f old = false) ->
  exists s' c bk' es',
    collect_changes L pkgdir base_path lastnum s = (s', Ok c) /\
    st_pkgdir s' = st_pkgdir s /\ st_repo s' = Some bk' /\
    os_listdir bk' = (os_listdir base ++ [pretty (lastnum + 1)%Z])%list /\
    (forall n, n <> pretty (lastnum + 1)%Z -> dir_lookup n bk' = dir_lookup n base) /\
    dir_lookup (pretty (lastnum + 1)%Z) bk' = Some (Dir es') /\
    (forall f, os_path_isfile f (st_pkgdir s) = true ->
               dir_lookup f es' = dir_lookup f (st_pkgdir s)) /\
    (forall f, os_path_isfile f (st_pkgdir s) = false -> dir_lookup f es' = None) /\
    (forall f, f ∈ removedfiles c <->
               f ∈ os_listdir old /\ os_path_isfile f (st_pkgdir s) = false) /\
    (forall f, f ∈ addedfiles c <->
               os_path_isfile f (st_pkgdir s) = true /\ f ∉ os_listdir old) /\
    (forall f, os_path_isfile f (st_pkgdir s) = true -> f ∈ os_listdir old ->
               alist_get f (filediffs c) = Some (diff_of L lastnum old (st_pkgdir s) f)) /\
    (forall f, ~ (os_path_isfile f (st_pkgdir s) = true /\ f ∈ os_listdir old) ->
               alist_get f (filediffs c) = None).
Proof.
  intros Hrepo Hfree Hlast Hwf Hwfo Hclash.
  set (pkg := st_pkgdir s).
  set (bk0 := (base ++ [((pretty (lastnum + 1)%Z), Dir [])])%list).
  set (s0 := {| st_pkgdir := pkg; st_repo := Some bk0;
                st_trace := (st_trace s ++ [MakeDirs (os_path_join base_path (pretty (lastnum + 1)%Z))])%list |}).
  assert (makedirs_revision base_path (pretty (lastnum + 1)%Z) s = (s0, Ok tt)) as Hmk.
  { unfold makedirs_revision. erewrite bind_ok by by apply run_get_base.
    rewrite Hfree. by run_m. }
  assert (dir_lookup (pretty lastnum) bk0 = Some (Dir old)) as Hlast0.
  { unfold bk0, dir_lookup. rewrite alist_get_app. fold (dir_lookup (pretty lastnum) base).
    by rewrite Hlast. }
  assert (dir_lookup (pretty (lastnum + 1)%Z) bk0 = Some (Dir [])) as Hthis0.
  { unfold bk0, dir_lookup. rewrite alist_get_app. fold (dir_lookup (pretty (lastnum + 1)%Z) base).
    rewrite Hfree. simpl. by destruct (decide ((pretty (lastnum + 1)%Z) = (pretty (lastnum + 1)%Z))). }
  assert (forall f, picked pkg (os_listdir pkg) f <-> os_path_isfile f pkg = true) as Hpick.
  { intros f. unfold picked. split; [by intros [_ ?]|]. intros Hf. split; [|done].
    unfold os_path_isfile, dir_lookup in Hf.
    destruct (alist_get f pkg) eqn:Hget; [|done]. by eapply alist_get_Some_name. }
  destruct (collect_loop L pkgdir base_path lastnum pkg old (os_listdir pkg) Hwf
              (fun f _ Hf => Hclash f Hf)
              {| removedfiles := os_listdir old; addedfiles := []; filediffs := [] |}
              s0 bk0 [] eq_refl eq_refl Hlast0 Hthis0 (fun _ => eq_refl) Hwfo
              (fun _ H => H))
    as (s' & c & Hrun & bk' & es' & P1 & P2 & P3 & P4 & P5 & P6 & P7 & P8 & P9 &
        P10 & P11 & P12 & P13).
  exists s', c, bk', es'. simpl in *.
  split.
  { unfold collect_changes. erewrite bind_ok by exact Hmk.
    erewrite bind_ok by by eapply (run_revision_entries _ _ s0).
    unfold bind at 1, get_pkgdir at 1. exact Hrun. }
  split; [done|]. split; [done|].
  split. { rewrite P6. unfold bk0, os_listdir. by rewrite map_app. }
  split. { intros n Hn. rewrite P5 by done. unfold bk0, dir_lookup.
           rewrite alist_get_app. fold (dir_lookup n base).
           destruct (dir_lookup n base); [done|]. simpl.
           by destruct (decide ((pretty (lastnum + 1)%Z) = n)). }
  split; [done|].
  split. { intros f Hf. apply P7. by apply Hpick. }
  split. { intros f Hf. rewrite P8; [done|]. rewrite Hpick. congruence. }
  split. { intros f. rewrite P9, Hpick. destruct (os_path_isfile f pkg); naive_solver. }
  split. { intros f. rewrite P11, Hpick. split.
           - intros [Hin|?]; [by apply elem_of_nil in Hin|done].
           - by right. }
  split. { intros f Hf Hin. apply P12; [by apply Hpick|done]. }
  intros f Hn. rewrite P13; [done|]. by rewrite Hpick.
Qed.

Lemma rev_app_app (cur acc s : string) :
  String.rev_app cur acc +:+ s = String.rev_app cur (acc +:+ s).
Proof. revert acc. induction cur as [|c cur IH]; intros acc; simpl; [done|]. by rewrite IH. Qed.

Lemma readlines_go_concat cur s :
  Str.concat (Str.readlines_go cur s) = String.rev cur +:+ s.
Proof.
  revert cur. induction s as [|c s IH]; intros cur; simpl.
  - destruct cur; simpl; [done|]. by rewrite !StrFacts.app_nil_r.
  - destruct (Str.is_nl c); simpl; rewrite IH; unfold String.rev; simpl;
      by rewrite !rev_app_app.
Qed.

Lemma readlines_concat s : Str.concat (Str.readlines s) = s.
Proof. unfold Str.readlines. by rewrite readlines_go_concat. Qed.

Lemma readlines_inj s1 s2 : Str.readlines s1 = Str.readlines s2 -> s1 = s2.
Proof. intros H. by rewrite <- (readlines_concat s1), H, readlines_concat. Qed.

Lemma isfile_listed f d : os_path_isfile f d = true -> f ∈ os_listdir d.
Proof.
  unfold os_path_isfile, dir_lookup. destruct (alist_get f d) eqn:Hget; [|done].
  intros _. by eapply alist_get_Some_name.
Qed.

Lemma isdir_listed f d : os_path_isdir f d = true -> f ∈ os_listdir d.
Proof.
  unfold os_path_isdir, dir_lookup. destruct (alist_get f d) eqn:Hget; [|done].
  intros _. by eapply alist_get_Some_name.
Qed.

Lemma only_files_isfile d f :
  only_files d -> os_path_isfile f d = true <-> f ∈ os_listdir d.
Proof. intros Hd. split; [apply isfile_listed|apply Hd]. Qed.

Lemma isfile_not_isdir d f : os_path_isfile f d = true -> os_path_isdir f d = false.
Proof. unfold os_path_isfile, os_path_isdir. by destruct (dir_lookup f d) as [[]|]. Qed.

(** C8.  Given a [unified_diff] that tells different texts apart, a previous
    revision and a package directory that hold regular files only: the copy
    loop of the revision committer ends, and reports as removed exactly the
    names found only in the previous revision, as added exactly the names
    found only in the package directory, and as changed, keyed by name,
    exactly the names found in both, each with the unified diff of the lines
    of the old text against the lines of the new text, which is not empty
    when the texts differ.  For the old files a.txt and b.txt and the new
    files b.txt and c.txt with different texts of b.txt this gives c.txt
    added, a.txt removed and b.txt changed with a diff that is not empty. *)
Theorem diff_classification (L : Lib) :
  diff_tells_apart L ->
  (forall pkgdir base_path lastnum s base old,
     st_repo s = Some base ->
     dir_lookup (pretty (lastnum + 1)%Z) base = None ->
     dir_lookup (pretty lastnum) base = Some (Dir old) ->
     well_formed (st_pkgdir s) -> well_formed old ->
     only_files (st_pkgdir s) -> only_files old ->
     exists s' c,
       collect_changes L pkgdir base_path lastnum s = (s', Ok c) /\
       (forall f, f ∈ removedfiles c <->
                  f ∈ os_listdir old /\ f ∉ os_listdir (st_pkgdir s)) /\
       (forall f, f ∈ addedfiles c <->
                  f ∈ os_listdir (st_pkgdir s) /\ f ∉ os_listdir old) /\
       (forall f, is_Some (alist_get f (filediffs c)) <->
                  f ∈ os_listdir (st_pkgdir s) /\ f ∈ os_listdir old) /\
       (forall f oldfile newfile,
          dir_lookup f old = Some (File oldfile) ->
          dir_lookup f (st_pkgdir s) = Some (File newfile) ->
          alist_get f (filediffs c) =
            Some (Str.concat
                    (unified_diff L (Str.readlines oldfile) (Str.readlines newfile)
                       (pretty lastnum +:+ "/" +:+ f)
                       (pretty (lastnum + 1)%Z +:+ "/" +:+ f))) /\
          (oldfile <> newfile -> alist_get f (filediffs c) <> Some EmptyString))) /\
  (forall a b_old b_new c_new,
     b_old <> b_new ->
     exists s' diff,
       collect_changes L "pkgdir" "base" 0
         (committer_state [("b.txt", File b_new); ("c.txt", File c_new)]
            [("0", Dir [("a.txt", File a); ("b.txt", File b_old)])])
       = (s', Ok {| removedfiles := ["a.txt"]; addedfiles := ["c.txt"];
                    filediffs := [("b.txt", diff)] |}) /\
       diff <> EmptyString).
Proof.
  intros Hdiff. split.
  - intros pkgdir base_path lastnum s base old Hrepo Hfree Hlast Hwf Hwfo Hfiles Hfileso.
    destruct (collect_changes_spec L pkgdir base_path lastnum s base old)
      as (s' & c & bk' & es' & Hrun & _ & _ & _ & _ & _ & _ & _ & Hrem & Hadd & Hch & Hnch);
      [exact Hrepo|exact Hfree|exact Hlast|exact Hwf|exact Hwfo| |].
    { intros f _. destruct (os_path_isdir f old) eqn:Hd; [|done].
      apply isdir_listed in Hd as Hin. apply Hfileso, isfile_not_isdir in Hin.
      congruence. }
    exists s', c. split; [exact Hrun|]. split; [|split; [|split]].
    + intros f. rewrite Hrem.
      assert (os_path_isfile f (st_pkgdir s) = false <-> f ∉ os_listdir (st_pkgdir s))
        as ->; [|reflexivity].
      rewrite <- (only_files_isfile (st_pkgdir s) f Hfiles).
      destruct (os_path_isfile f (st_pkgdir s)); split; congruence.
    + intros f. rewrite Hadd. rewrite (only_files_isfile _ _ Hfiles). reflexivity.
    + intros f. rewrite <- (only_files_isfile (st_pkgdir s) f Hfiles). split.
      * intros Hsome.
        destruct (os_path_isfile f (st_pkgdir s)) eqn:Hf; cycle 1.
        { rewrite Hnch in Hsome; [by destruct Hsome|]. intros [? _]. congruence. }
        destruct (decide (f ∈ os_listdir old)) as [Hin|Hin]; [by split|].
        rewrite Hnch in Hsome; [by destruct Hsome|]. intros [_ ?]. contradiction.
      * intros [Hf Hin]. rewrite (Hch f Hf Hin). by eexists.
    + intros f oldfile newfile Hold Hnew.
      assert (os_path_isfile f (st_pkgdir s) = true) as Hf.
      { unfold os_path_isfile. by rewrite Hnew. }
      assert (f ∈ os_listdir old) as Hin by (by eapply alist_get_Some_name).
      rewrite (Hch f Hf Hin). unfold diff_of. rewrite Hold, Hnew. split; [reflexivity|].
      intros Hne [= Heq]. eapply Hdiff; [|exact Heq].
      intros Hl. by apply readlines_inj in Hl.
  - intros a b_old b_new c_new Hne. eexists _, _. split; [vm_compute; reflexivity|].
    apply Hdiff. intros Hl. by apply readlines_inj in Hl.
Qed.

Lemma ref_diff_tells_apart : diff_tells_apart Ref.lib.
Proof.
  intros a b fromfile tofile Hne. simpl. unfold Ref.whole_file_diff.
  destruct (decide (a = b)); [done|]. by simpl.
Qed.

Lemma concrete_NoDup (l : list string) : distinct l = true -> NoDup l.
Proof.
  induction l as [|x l IH]; simpl; [constructor|].
  intros [Hx Hl]%andb_prop. apply NoDup_cons. split; [|by apply IH].
  intros Hin. apply list_in_spec in Hin. by rewrite Hin in Hx.
Qed.

Lemma concrete_only_files (d : dir) :
  forallb (fun f => os_path_isfile f d) (os_listdir d) = true -> only_files d.
Proof.
  intros H f Hf. rewrite forallb_forall in H. apply H. by apply list_elem_of_In.
Qed.

Lemma diff_classification_witness :
  (exists s' c,
     collect_changes Ref.lib "pkgdir" "base" 0
       (committer_state ExampleDirs.new_pkg [("0", Dir ExampleDirs.old_rev)])
     = (s', Ok c) /\
     (forall f, f ∈ removedfiles c <->
                f ∈ os_listdir ExampleDirs.old_rev /\ f ∉ os_listdir ExampleDirs.new_pkg)) /\
  (exists s' diff,
     collect_changes Ref.lib "pkgdir" "base" 0
       (committer_state [("b.txt", File "B2"); ("c.txt", File "C")]
          [("0", Dir [("a.txt", File "A"); ("b.txt", File "B1")])])
     = (s', Ok {| removedfiles := ["a.txt"]; addedfiles := ["c.txt"];
                  filediffs := [("b.txt", diff)] |}) /\
     diff <> EmptyString).
Proof.
  split.
  - destruct (proj1 (diff_classification Ref.lib ref_diff_tells_apart)
                "pkgdir" "base" 0%Z
                (committer_state ExampleDirs.new_pkg [("0", Dir ExampleDirs.old_rev)])
                [("0", Dir ExampleDirs.old_rev)] ExampleDirs.old_rev
                eq_refl eq_refl eq_refl
                (concrete_NoDup (os_listdir ExampleDirs.new_pkg) eq_refl)
                (concrete_NoDup (os_listdir ExampleDirs.old_rev) eq_refl)
                (concrete_only_files ExampleDirs.new_pkg eq_refl)
                (concrete_only_files ExampleDirs.old_rev eq_refl))
      as (s' & c & Hrun & Hrem & _).
    by exists s', c.
  - apply (proj2 (diff_classification Ref.lib ref_diff_tells_apart)). done.
Defined.

Lemma concrete_no_clash (pkg old : dir) :
  forallb (fun f => negb (os_path_isfile f pkg && os_path_isdir f old))
    (os_listdir pkg) = true ->
  forall f, os_path_isfile f pkg = true -> os_path_isdir f old = false.
Proof.
  intros H f Hf. rewrite forallb_forall in H.
  specialize (H f (proj1 (list_elem_of_In _ _) (isfile_listed _ _ Hf))).
  rewrite Hf in H. simpl in H. by destruct (os_path_isdir f old).
Qed.

(** C10.  When the new revision directory can be made, the previous one is
    a directory and no regular file of the package directory has the name of
    a subdirectory of the previous revision, the copy loop ends and: the new
    revision holds exactly the regular files found at the top of the package
    directory, with their texts; only such files are reported as added or
    changed; a subdirectory of the package directory is passed over, it is
    not copied and appears in no list; and every subdirectory of the previous
    revision is reported as removed. *)
Theorem only_regular_files_are_copied
    (L : Lib) (pkgdir base_path : string) (lastnum : Z) (s : state) (base old : dir) :
  st_repo s = Some base ->
  dir_lookup (pretty (lastnum + 1)%Z) base = None ->
  dir_lookup (pretty lastnum) base = Some (Dir old) ->
  well_formed (st_pkgdir s) -> well_formed old ->
  (forall f, os_path_isfile f (st_pkgdir s) = true -> os_path_isdir f old = false) ->
  exists s' c bk' es',
    collect_changes L pkgdir base_path lastnum s = (s', Ok c) /\
    st_repo s' = Some bk' /\
    dir_lookup (pretty (lastnum + 1)%Z) bk' = Some (Dir es') /\
    (forall f, dir_lookup f es' =
               if os_path_isfile f (st_pkgdir s) then dir_lookup f (st_pkgdir s)
               else None) /\
    (forall f, f ∈ addedfiles c \/ is_Some (alist_get f (filediffs c)) ->
               os_path_isfile f (st_pkgdir s) = true) /\
    (forall f, os_path_isdir f (st_pkgdir s) = true ->
               dir_lookup f es' = None /\ (f ∉ addedfiles c) /\
               alist_get f (filediffs c) = None) /\
    (forall f, os_path_isdir f old = true -> f ∈ removedfiles c).
Proof.
  intros Hrepo Hfree Hlast Hwf Hwfo Hclash.
  destruct (collect_changes_spec L pkgdir base_path lastnum s base old)
    as (s' & c & bk' & es' & Hrun & _ & Hr & _ & _ & Hthis & Hcp & Hncp & Hrem & Hadd &
        Hch & Hnch);
    [exact Hrepo|exact Hfree|exact Hlast|exact Hwf|exact Hwfo|exact Hclash|].
  assert (forall f, os_path_isdir f (st_pkgdir s) = true ->
                    os_path_isfile f (st_pkgdir s) = false) as Hdf.
  { intros f. unfold os_path_isdir, os_path_isfile.
    by destruct (dir_lookup f (st_pkgdir s)) as [[]|]. }
  exists s', c, bk', es'.
  split; [exact Hrun|]. split; [exact Hr|]. split; [exact Hthis|].
  split. { intros f. destruct (os_path_isfile f (st_pkgdir s)) eqn:Hf;
             [by apply Hcp|by apply Hncp]. }
  split. { intros f [Hin|Hsome].
           - by apply Hadd in Hin as [? _].
           - destruct (os_path_isfile f (st_pkgdir s)) eqn:Hf; [done|].
             rewrite Hnch in Hsome; [by destruct Hsome|]. intros [? _]. congruence. }
  split. { intros f Hd. apply Hdf in Hd. split; [by apply Hncp|]. split.
           - intros Ha. apply Hadd in Ha as [? _]. congruence.
           - apply Hnch. intros [? _]. congruence. }
  intros f Hd. apply Hrem. split; [by apply isdir_listed|].
  destruct (os_path_isfile f (st_pkgdir s)) eqn:Hf; [|done].
  apply Hclash in Hf. congruence.
Qed.

Lemma only_regular_files_are_copied_witness :
  exists s' c bk' es',
    collect_changes Ref.lib "pkgdir" "base" 0
      (committer_state ExampleDirs.pkg_with_dir [("0", Dir ExampleDirs.old_with_dir)])
    = (s', Ok c) /\
    st_repo s' = Some bk' /\
    dir_lookup "1" bk' = Some (Dir es') /\
    dir_lookup "sub" es' = None /\
    "docs" ∈ removedfiles c.
Proof.
  destruct (only_regular_files_are_copied Ref.lib "pkgdir" "base" 0%Z
              (committer_state ExampleDirs.pkg_with_dir
                 [("0", Dir ExampleDirs.old_with_dir)])
              [("0", Dir ExampleDirs.old_with_dir)] ExampleDirs.old_with_dir
              eq_refl eq_refl eq_refl
              (concrete_NoDup (os_listdir ExampleDirs.pkg_with_dir) eq_refl)
              (concrete_NoDup (os_listdir ExampleDirs.old_with_dir) eq_refl)
              (concrete_no_clash ExampleDirs.pkg_with_dir ExampleDirs.old_with_dir
                 eq_refl))
    as (s' & c & bk' & es' & Hrun & Hr & Hthis & Hes & _ & _ & Hold).
  exists s', c, bk', es'.
  split; [exact Hrun|]. split; [exact Hr|]. split; [exact Hthis|].
  split; [exact (Hes "sub")|]. exact (Hold "docs" eq_refl).
Defined.

(** ** The metadata rewriter *)

Lemma dir_lookup_set name name' x d :
  dir_lookup name' (dir_set name x d) =
    if decide (name = name') then Some x else dir_lookup name' d.
Proof. apply alist_get_set. Qed.

(** What step 1 leaves when [package.json] is read and parsed. *)
Lemma update_package_json_ok L b pkgdir s orig j0 j1 :
  dir_lookup "package.json" (st_pkgdir s) = Some (File orig) ->
  json_loads L orig = Some j0 ->
  set_package_fields b j0 = Ok j1 ->
  update_package_json L b pkgdir s =
    (if decide (orig = strip_lines (json_dumps L j1)) then s
     else {| st_pkgdir :=
               dir_set "package.json" (File (strip_lines (json_dumps L j1))) (st_pkgdir s);
             st_repo := st_repo s;
             st_trace := (st_trace s ++
               [WriteFile (os_path_join pkgdir "package.json")
                  (strip_lines (json_dumps L j1))])%list |},
     Ok tt).
Proof.
  intros Hf Hj0 Hj1. unfold update_package_json.
  erewrite bind_ok by by apply run_read_pkg_file.
  rewrite Hj0, Hj1. unfold _update_file_content.
  destruct (decide (orig = strip_lines (json_dumps L j1))); [done|].
  unfold write_pkg_file. run_m. by rewrite Hf.
Qed.

Lemma set_package_fields_dict b d :
  exists d',
    set_package_fields b (JDict d) = Ok (JDict d') /\
    alist_get "version" d' = Some (JStr (_pkg_version b)) /\
    alist_get "packagingVersion" d' = Some (JStr packagingVersion) /\
    (forall k, k <> "version" -> k <> "packagingVersion" ->
               k <> "minDcosReleaseVersion" -> alist_get k d' = alist_get k d) /\
    alist_get "minDcosReleaseVersion" d' =
      match minDcosReleaseVersion b with
      | Some v => if truthy v then Some (JStr v) else alist_get "minDcosReleaseVersion" d
      | None => alist_get "minDcosReleaseVersion" d
      end.
Proof.
  unfold set_package_fields.
  set (d1 := alist_set "packagingVersion" _ (alist_set "version" _ d)).
  assert (forall k, alist_get k d1 =
            if decide ("packagingVersion" = k) then Some (JStr packagingVersion)
            else if decide ("version" = k) then Some (JStr (_pkg_version b))
            else alist_get k d) as Hd1.
  { intros k. unfold d1. by rewrite !alist_get_set. }
  destruct (minDcosReleaseVersion b) as [v|]; [destruct (truthy v)|].
  - eexists. split; [done|]. rewrite !alist_get_set, !Hd1. simpl.
    split; [done|]. split; [done|]. split; [|done].
    intros k H1 H2 H3. rewrite alist_get_set, Hd1.
    by repeat (case_decide; [congruence|]).
  - exists d1. split; [done|]. rewrite !Hd1. simpl.
    split; [done|]. split; [done|]. split; [|done].
    intros k H1 H2 H3. rewrite Hd1. by repeat (case_decide; [congruence|]).
  - exists d1. split; [done|]. rewrite !Hd1. simpl.
    split; [done|]. split; [done|]. split; [|done].
    intros k H1 H2 H3. rewrite Hd1. by repeat (case_decide; [congruence|]).
Qed.

(** C9.  With ['0'] as the minimum version and a [package.json] that parses
    to an object, the first step of the rewrite ends normally and leaves in
    [package.json] the dump of an object in which [version] and
    [packagingVersion] are set and every other key, [minDcosReleaseVersion]
    among them, has the value it had: the sentinel does not remove or change
    a field that was there. *)
Theorem sentinel_keeps_existing_field
    (L : Lib) (b : UniverseReleaseBuilder) (pkgdir : string) (s : state)
    (orig : string) (d : list (string * json)) :
  _min_dcos_release_version b = "0" ->
  dir_lookup "package.json" (st_pkgdir s) = Some (File orig) ->
  json_loads L orig = Some (JDict d) ->
  exists d',
    set_package_fields b (JDict d) = Ok (JDict d') /\
    snd (update_package_json L b pkgdir s) = Ok tt /\
    dir_lookup "package.json" (st_pkgdir (fst (update_package_json L b pkgdir s)))
      = Some (File (strip_lines (json_dumps L (JDict d')))) /\
    alist_get "minDcosReleaseVersion" d' = alist_get "minDcosReleaseVersion" d /\
    (forall k, k <> "version" -> k <> "packagingVersion" ->
               alist_get k d' = alist_get k d) /\
    alist_get "version" d' = Some (JStr (_pkg_version b)) /\
    alist_get "packagingVersion" d' = Some (JStr packagingVersion).
Proof.
  intros Hmin Hf Hj.
  destruct (set_package_fields_dict b d) as (d' & Hset & Hv & Hpv & Hother & Hm).
  assert (alist_get "minDcosReleaseVersion" d' = alist_get "minDcosReleaseVersion" d)
    as Hm'.
  { rewrite Hm. unfold minDcosReleaseVersion. by rewrite Hmin. }
  exists d'. split; [done|].
  rewrite (update_package_json_ok L b pkgdir s orig (JDict d) (JDict d')) by done.
  split; [done|]. split.
  { destruct (decide (orig = _)) as [<-|]; simpl; [done|].
    rewrite dir_lookup_set. by destruct (decide ("package.json" = "package.json")). }
  split; [done|]. split; [|done].
  intros k H1 H2. destruct (decide (k = "minDcosReleaseVersion")) as [->|H3]; [done|].
  by apply Hother.
Qed.

Lemma sentinel_keeps_existing_field_witness :
  exists d',
    set_package_fields (ExamplePkg.with_min_version (Example.builder "") "0")
      (JDict [("name", JStr "kafka"); ("version", JStr "stub");
              ("minDcosReleaseVersion", JStr "1.8")]) = Ok (JDict d') /\
    alist_get "minDcosReleaseVersion" d' = Some (JStr "1.8").
Proof.
  destruct (sentinel_keeps_existing_field Ref.lib
              (ExamplePkg.with_min_version (Example.builder "") "0") "pkgdir"
              (ExamplePkg.start (ExamplePkg.pkg "https://host/path/v1/foo.json"))
              ExamplePkg.package_json
              [("name", JStr "kafka"); ("version", JStr "stub");
               ("minDcosReleaseVersion", JStr "1.8")]
              eq_refl eq_refl eq_refl)
    as (d' & Hset & _ & _ & Hmin & _).
  exists d'. split; [exact Hset|]. exact Hmin.
Defined.

Lemma isfile_text f d :
  os_path_isfile f d = true -> dir_lookup f d = Some (File (file_text d f)).
Proof.
  unfold os_path_isfile, file_text. by destruct (dir_lookup f d) as [[]|].
Qed.

Lemma dir_set_names name x d :
  is_Some (dir_lookup name d) -> os_listdir (dir_set name x d) = os_listdir d.
Proof. apply alist_set_names. Qed.

Lemma flat_map_ext_elem {A B} (f g : A -> list B) (l : list A) :
  (forall x, x ∈ l -> f x = g x) -> flat_map f l = flat_map g l.
Proof.
  induction l as [|x l IH]; intros H; simpl; [done|].
  rewrite (H x) by apply list_elem_of_here. f_equal. apply IH.
  intros y Hy. apply H. by apply list_elem_of_further.
Qed.

Lemma omap_ext_elem {A B} (f g : A -> option B) (l : list A) :
  (forall x, x ∈ l -> f x = g x) -> omap f l = omap g l.
Proof.
  induction l as [|x l IH]; intros H; simpl; [done|].
  rewrite (H x) by apply list_elem_of_here.
  assert (omap f l = omap g l) as Hl.
  { apply IH. intros y Hy. apply H. by apply list_elem_of_further. }
  destruct (g x); [f_equal|]; exact Hl.
Qed.

(** One turn of the loop of step 2 on a regular file. *)
Lemma replace_step_file b pkgdir f acc s :
  os_path_isfile f (st_pkgdir s) = true ->
  replace_step b pkgdir f acc s =
    (match write_of b pkgdir (st_pkgdir s) f with
     | None => s
     | Some e =>
         {| st_pkgdir := dir_set f (File (rewritten b (st_pkgdir s) f)) (st_pkgdir s);
            st_repo := st_repo s;
            st_trace := (st_trace s ++ [e])%list |}
     end,
     Ok (acc ++ urls_of b (st_pkgdir s) f)%list).
Proof.
  intros Hf. apply isfile_text in Hf. unfold replace_step.
  erewrite bind_ok by by apply run_read_pkg_file.
  unfold write_of, rewritten, urls_of, _update_file_content.
  destruct (decide (file_text (st_pkgdir s) f = _)) as [Heq|Hne].
  - by run_m.
  - unfold write_pkg_file. run_m. by rewrite Hf.
Qed.

Lemma replace_loop b pkgdir todo :
  NoDup todo ->
  forall acc s,
    (forall f, f ∈ todo -> os_path_isfile f (st_pkgdir s) = true) ->
    exists s',
      for_acc todo acc (replace_step b pkgdir) s =
        (s', Ok (acc ++ flat_map (urls_of b (st_pkgdir s)) todo)%list) /\
      st_repo s' = st_repo s /\
      os_listdir (st_pkgdir s') = os_listdir (st_pkgdir s) /\
      (forall f, f ∈ todo ->
         dir_lookup f (st_pkgdir s') = Some (File (rewritten b (st_pkgdir s) f))) /\
      (forall f, f ∉ todo -> dir_lookup f (st_pkgdir s') = dir_lookup f (st_pkgdir s)) /\
      st_trace s' = (st_trace s ++ omap (write_of b pkgdir (st_pkgdir s)) todo)%list.
Proof.
  induction todo as [|f todo IH]; intros Hnd acc s Hfiles.
  - exists s. simpl. rewrite !app_nil_r. split; [done|].
    repeat split; try done. intros f Hf. by apply elem_of_nil in Hf.
  - apply NoDup_cons in Hnd as [Hfresh Hnd]. simpl.
    assert (os_path_isfile f (st_pkgdir s) = true) as Hf
      by apply Hfiles, list_elem_of_here.
    erewrite bind_ok by by apply replace_step_file.
    set (s1 := match write_of b pkgdir (st_pkgdir s) f with None => s | Some _ => _ end).
    assert (st_repo s1 = st_repo s /\
            os_listdir (st_pkgdir s1) = os_listdir (st_pkgdir s) /\
            dir_lookup f (st_pkgdir s1) = Some (File (rewritten b (st_pkgdir s) f)) /\
            (forall f', f' <> f -> dir_lookup f' (st_pkgdir s1) = dir_lookup f' (st_pkgdir s)) /\
            st_trace s1 = (st_trace s ++
              match write_of b pkgdir (st_pkgdir s) f with Some e => [e] | None => [] end)%list)
      as (Hr1 & Hn1 & Hf1 & Ho1 & Ht1).
    { subst s1. unfold write_of.
      destruct (decide (file_text (st_pkgdir s) f = rewritten b (st_pkgdir s) f))
        as [Heq|Hne]; simpl.
      - rewrite app_nil_r. repeat split; try done.
        rewrite <- Heq. by apply isfile_text.
      - split; [done|]. split.
        { apply dir_set_names. rewrite (isfile_text _ _ Hf). by eexists. }
        split. { rewrite dir_lookup_set. by destruct (decide (f = f)). }
        split; [|done]. intros f' Hne'. rewrite dir_lookup_set.
        by destruct (decide (f = f')). }
    assert (forall f', f' ∈ todo -> file_text (st_pkgdir s1) f' = file_text (st_pkgdir s) f')
      as Htext.
    { intros f' Hin. unfold file_text. rewrite Ho1; [done|]. by intros ->. }
    destruct (IH Hnd (acc ++ urls_of b (st_pkgdir s) f)%list s1)
      as (s' & Hrun & Hr & Hn & Hin & Hout & Ht).
    { intros f' Hin. unfold os_path_isfile. rewrite Ho1 by (by intros ->).
      apply (Hfiles f'). by apply list_elem_of_further. }
    exists s'. split.
    { rewrite Hrun. f_equal. f_equal. rewrite <- app_assoc. f_equal. f_equal.
      apply flat_map_ext_elem. intros f' Hf'. unfold urls_of.
      by rewrite Htext. }
    split; [congruence|]. split; [congruence|]. split.
    { intros f' [->|Hin']%elem_of_cons.
      - by rewrite Hout.
      - rewrite Hin by done. unfold rewritten. by rewrite Htext. }
    split.
    { intros f' Hnin. rewrite Hout; [apply Ho1|]; intros Heq; apply Hnin;
        [subst; apply list_elem_of_here|by apply list_elem_of_further]. }
    rewrite Ht, Ht1, <- app_assoc. f_equal.
    assert (omap (write_of b pkgdir (st_pkgdir s1)) todo
            = omap (write_of b pkgdir (st_pkgdir s)) todo) as ->.
    { apply omap_ext_elem. intros f' Hf'. unfold write_of, rewritten.
      by rewrite Htext. }
    by destruct (write_of b pkgdir (st_pkgdir s) f).
Qed.

Lemma replace_go_no_occurrence old new s :
  Str.occurs old s = false -> Str.replace_go old new s 0 = s.
Proof.
  induction s as [|c s IH]; simpl; [done|].
  intros [Hs Ho]%orb_false_iff. rewrite Hs. by rewrite IH.
Qed.

Lemma replace_no_occurrence old new s :
  Str.occurs old s = false -> Str.replace old new s = s.
Proof.
  intros Ho. destruct old as [|a old].
  - by destruct s.
  - by apply replace_go_no_occurrence.
Qed.

Lemma findall_go_elem r s skip g :
  g ∈ Re.findall_go r s skip ->
  exists before s1 caps rest,
    s = before +:+ s1 /\ Re.re_match r s1 = Some (g :: caps, rest).
Proof.
  revert skip. induction s as [|c s IH]; intros skip; simpl.
  - intros H. by apply elem_of_nil in H.
  - assert (forall k, g ∈ Re.findall_go r s k ->
              exists before s1 caps rest,
                String c s = before +:+ s1 /\ Re.re_match r s1 = Some (g :: caps, rest))
      as Hlater.
    { intros k Hk. destruct (IH _ Hk) as (before & s1 & caps & rest & -> & Hm).
      by exists (String c before), s1, caps, rest. }
    destruct skip as [|k]; [|by apply Hlater].
    destruct (Re.re_match r (String c s)) as [[[|g0 caps] rest]|] eqn:Hm;
      [by apply Hlater| |by apply Hlater].
    intros [->|Hin]%elem_of_cons; [|by eapply Hlater].
    by exists EmptyString, (String c s), caps, rest.
Qed.

Lemma of_text_sound t r0 s caps k res :
  Re.rmatch (Re.of_text t r0) s caps k = Some res ->
  exists p rest, s = p +:+ rest /\ text_matches t p /\
                 Re.rmatch r0 rest caps k = Some res.
Proof.
  revert s. induction t as [|c t IH]; intros s H; simpl in H.
  - by exists EmptyString, s.
  - destruct (Ascii.eqb c ".") eqn:Hdot; simpl in H.
    + destruct s as [|d s]; [done|]. destruct (Str.is_nl d) eqn:Hd; [done|].
      destruct (IH _ H) as (p & rest & -> & Hp & Hr).
      exists (String d p), rest. simpl. by rewrite Hdot.
    + destruct s as [|d s]; [done|].
      destruct (Ascii.eqb_spec c d) as [->|]; [|done].
      destruct (IH _ H) as (p & rest & -> & Hp & Hr).
      exists (String d p), rest. simpl. by rewrite Hdot.
Qed.

Lemma text_matches_no_dot t p :
  Str.occurs "." t = false -> text_matches t p -> p = t.
Proof.
  revert p. induction t as [|c t IH]; intros [|d p]; try done.
  change (Str.occurs "." (String c t))
    with ((Ascii.eqb "." c && true) || Str.occurs "." t).
  intros [Hc Ht]%orb_false_iff [Hcd Hm].
  rewrite andb_true_r, Ascii.eqb_sym in Hc. rewrite Hc in Hcd.
  subst d. f_equal. by apply IH.
Qed.

Lemma rmatch_char c s caps k res :
  Re.rmatch (Re.RChar c) s caps k = Some res ->
  exists s', s = String c s' /\ k s' caps = Some res.
Proof.
  destruct s as [|d s']; simpl; [done|].
  destruct (Ascii.eqb_spec c d) as [->|]; [|done]. intros H. by exists s'.
Qed.

(** Every match of the artifact pattern is a text matched by the prefix,
    then [/], then a text without line feed that is not empty, and a double
    quote follows it. *)
Lemma artifact_re_sound prefix s g caps rest :
  Re.re_match (artifact_re prefix) s = Some (g :: caps, rest) ->
  caps = [] /\ s = g +:+ String Str.dquote rest /\
  exists p m, g = p +:+ "/" +:+ m /\ text_matches prefix p /\
              m <> EmptyString /\ has_nl m = false.
Proof.
  unfold Re.re_match, artifact_re. intros Hm.
  rewrite ReFacts.rmatch_seq, ReFacts.rmatch_group in Hm.
  apply of_text_sound in Hm as (p & r1 & -> & Hp & Hm).
  rewrite ReFacts.rmatch_seq in Hm.
  apply rmatch_char in Hm as (r1' & -> & Hm).
  rewrite ReFacts.rmatch_plus in Hm.
  apply ReFacts.dotplus_sound in Hm as (m & r2 & -> & Hne & Hnl & Hm).
  apply rmatch_char in Hm as (r2' & -> & Hm).
  simplify_eq/=.
  assert (p +:+ String Str.slash (m +:+ String Str.dquote rest)
          = (p +:+ "/" +:+ m) +:+ String Str.dquote rest) as Hsplit.
  { by rewrite StrFacts.app_assoc. }
  assert (Str.take
            (String.length (p +:+ String Str.slash (m +:+ String Str.dquote rest))
             - S (String.length rest))
            (p +:+ String Str.slash (m +:+ String Str.dquote rest))
          = p +:+ "/" +:+ m) as Htake.
  { rewrite Hsplit.
    apply (StrFacts.take_app_minus (p +:+ "/" +:+ m) (String Str.dquote rest)). }
  rewrite Htake. split; [done|]. split; [exact Hsplit|]. by exists p, m.
Qed.

Example to_new_dest_constructed :
  __init__ Ref.lib (Example.env "") "dest" "https://host/path/stub-universe-kafka.zip" ""
    "1.7" "https:/" "bucket" "new"
  = Ok ExampleUrls.to_new_dest.
Proof. reflexivity. Qed.

Example nested_builder_constructed :
  new_builder Ref.lib (Example.env "") "1.2.3" ExampleUrls.nested_url ""
  = Ok ExampleUrls.nested_builder.
Proof. reflexivity. Qed.

(** C4 (counterexample).  A package whose resource file names the same
    artifact on two lines: the rewriter returns the URL twice.  And a line
    with another quoted text after the URL gives an entry that runs to the
    last double quote of the line, which is no URL of the package. *)
Lemma artifact_urls_are_not_distinct :
  snd (_update_package_get_artifact_source_urls Ref.lib (Example.builder "") "pkgdir"
         (ExamplePkg.start [("package.json", File ExamplePkg.package_json);
                            ("resource.json", File ExampleUrls.twice)]))
  = Ok [ExampleUrls.foo; ExampleUrls.foo] /\
  snd (_update_package_get_artifact_source_urls Ref.lib (Example.builder "") "pkgdir"
         (ExamplePkg.start [("package.json", File ExamplePkg.package_json);
                            ("resource.json", File ExampleUrls.with_checksum)]))
  = Ok [ExampleUrls.overlong].
Proof. split; vm_compute; reflexivity. Qed.

(** C4 (amended).  Once [package.json] is rewritten, and with a package
    directory of regular files with distinct names, the rewriter returns, file
    after file in listing order and match after match in each file, every
    match of the artifact pattern: an entry per match, so a URL that is
    named twice is returned twice.  Each entry is a text that the prefix
    matches, then [/] and more text on the same line, and a double quote
    follows it in the file; every file is left with the prefix replaced.  In
    particular a file that holds the quoted URL https://host/path/v1/foo.json,
    with the prefix https://host/path, gives exactly that URL once, and the
    file rewritten for https://new/dest holds the quoted URL
    https://new/dest/v1/foo.json.  The prefix is used as a pattern: the
    statement is for a prefix without special characters other than dots. *)
Theorem artifact_urls_collected
    (L : Lib) (b : UniverseReleaseBuilder) (pkgdir : string) (s s1 : state) :
  Re.plain (original_artifact_prefix b) = true ->
  update_package_json L b pkgdir s = (s1, Ok tt) ->
  well_formed (st_pkgdir s1) -> only_files (st_pkgdir s1) ->
  exists s2,
    _update_package_get_artifact_source_urls L b pkgdir s =
      (s2, Ok (flat_map (urls_of b (st_pkgdir s1)) (os_listdir (st_pkgdir s1)))) /\
    (forall f, f ∈ os_listdir (st_pkgdir s1) ->
       dir_lookup f (st_pkgdir s2) = Some (File (rewritten b (st_pkgdir s1) f))) /\
    (forall f g, g ∈ urls_of b (st_pkgdir s1) f ->
       exists before after p m,
         file_text (st_pkgdir s1) f = before +:+ g +:+ String Str.dquote after /\
         g = p +:+ "/" +:+ m /\ text_matches (original_artifact_prefix b) p /\
         m <> EmptyString /\ has_nl m = false) /\
    (original_artifact_prefix b = "https://host/path" ->
     _release_artifact_http_dir b = "https://new/dest" ->
     forall f, file_text (st_pkgdir s1) f = quoted "https://host/path/v1/foo.json" ->
       urls_of b (st_pkgdir s1) f = ["https://host/path/v1/foo.json"] /\
       rewritten b (st_pkgdir s1) f = quoted "https://new/dest/v1/foo.json").
Proof.
  intros _ Hstep1 Hwf Hfiles.
  destruct (replace_loop b pkgdir (os_listdir (st_pkgdir s1)) Hwf [] s1)
    as (s2 & Hrun & _ & _ & Hin & _ & _); [exact Hfiles|].
  exists s2. split.
  { unfold _update_package_get_artifact_source_urls.
    erewrite bind_ok by exact Hstep1. unfold replace_artifact_prefix.
    unfold bind at 1, get_pkgdir at 1. exact Hrun. }
  split; [exact Hin|]. split.
  - intros f g Hg. unfold urls_of, Re.findall in Hg.
    apply findall_go_elem in Hg as (before & s' & caps & rest & Htext & Hm).
    apply artifact_re_sound in Hm as (_ & -> & p & m & Hgm & Hp & Hne & Hnl).
    exists before, rest, p, m. by rewrite Htext.
  - intros Hprefix Hdest f Htext. unfold urls_of, rewritten.
    rewrite Hprefix, Hdest, Htext. split; vm_compute; reflexivity.
Qed.

Lemma artifact_urls_collected_witness :
  exists s2,
    _update_package_get_artifact_source_urls Ref.lib (Example.builder "") "pkgdir"
      (ExamplePkg.start (ExamplePkg.pkg ExampleUrls.foo))
    = (s2, Ok [ExampleUrls.foo]).
Proof.
  pose (s1 := fst (update_package_json Ref.lib (Example.builder "") "pkgdir"
                     (ExamplePkg.start (ExamplePkg.pkg ExampleUrls.foo)))).
  assert (update_package_json Ref.lib (Example.builder "") "pkgdir"
            (ExamplePkg.start (ExamplePkg.pkg ExampleUrls.foo)) = (s1, Ok tt))
    as Hstep1 by (vm_compute; reflexivity).
  destruct (artifact_urls_collected Ref.lib (Example.builder "") "pkgdir"
              (ExamplePkg.start (ExamplePkg.pkg ExampleUrls.foo)) s1
              eq_refl Hstep1
              (concrete_NoDup (os_listdir (st_pkgdir s1)) eq_refl)
              (concrete_only_files (st_pkgdir s1) eq_refl))
    as (s2 & Hrun & _).
  exists s2. exact Hrun.
Defined.

(** ** Running the rewrite twice *)

Lemma alist_set_same {V} k (v : V) d :
  alist_get k d = Some v -> alist_set k v d = d.
Proof.
  induction d as [|[n x] d IH]; simpl; [done|].
  case_decide as Hn; [by intros [= ->]|]. intros H. by rewrite IH.
Qed.

Lemma set_package_fields_twice b j0 j1 :
  set_package_fields b j0 = Ok j1 -> set_package_fields b j1 = Ok j1.
Proof.
  destruct j0 as [| | | | | |d]; try done. intros Hset.
  destruct (set_package_fields_dict b d) as (d' & Hset' & Hv & Hpv & _ & Hm).
  rewrite Hset in Hset'. injection Hset' as ->.
  unfold set_package_fields.
  rewrite (alist_set_same "version" _ d' Hv).
  rewrite (alist_set_same "packagingVersion" _ d' Hpv).
  destruct (minDcosReleaseVersion b) as [v|]; [|done].
  destruct (truthy v); [|done]. by rewrite (alist_set_same _ _ d' Hm).
Qed.

(** What step 1 changes: the text of [package.json], nothing else. *)
Lemma update_package_json_frame L b pkgdir s orig j0 j1 :
  dir_lookup "package.json" (st_pkgdir s) = Some (File orig) ->
  json_loads L orig = Some j0 ->
  set_package_fields b j0 = Ok j1 ->
  exists s1,
    update_package_json L b pkgdir s = (s1, Ok tt) /\
    st_repo s1 = st_repo s /\
    os_listdir (st_pkgdir s1) = os_listdir (st_pkgdir s) /\
    dir_lookup "package.json" (st_pkgdir s1)
      = Some (File (strip_lines (json_dumps L j1))) /\
    (forall f, f <> "package.json" ->
       dir_lookup f (st_pkgdir s1) = dir_lookup f (st_pkgdir s)) /\
    (orig = strip_lines (json_dumps L j1) -> s1 = s).
Proof.
  intros Hf Hj0 Hj1. eexists. split; [by eapply update_package_json_ok|].
  destruct (decide (orig = strip_lines (json_dumps L j1))) as [<-|Hne]; simpl.
  - done.
  - split; [done|]. split; [apply dir_set_names; by rewrite Hf|].
    split. { rewrite dir_lookup_set. by destruct (decide ("package.json" = "package.json")). }
    split; [|done]. intros f Hne'. rewrite dir_lookup_set.
    by destruct (decide ("package.json" = f)).
Qed.

(** Step 2 on files that hold no occurrence of the prefix: nothing is
    written. *)
Lemma replace_loop_fixed b pkgdir todo acc s :
  (forall f, f ∈ todo ->
     os_path_isfile f (st_pkgdir s) = true /\
     rewritten b (st_pkgdir s) f = file_text (st_pkgdir s) f) ->
  for_acc todo acc (replace_step b pkgdir) s =
    (s, Ok (acc ++ flat_map (urls_of b (st_pkgdir s)) todo)%list).
Proof.
  revert acc. induction todo as [|f todo IH]; intros acc Hfix; simpl.
  - by rewrite app_nil_r.
  - destruct (Hfix f (list_elem_of_here _ _)) as [Hf Heq].
    erewrite bind_ok by by apply replace_step_file.
    unfold write_of. rewrite Heq.
    destruct (decide (file_text (st_pkgdir s) f = file_text (st_pkgdir s) f)); [|done].
    rewrite IH; [by rewrite <- app_assoc|].
    intros f' Hf'. apply Hfix. by apply list_elem_of_further.
Qed.

(** C7 (counterexample).  The stub universe is stored below the release
    directory of the defaults, so that the new prefix starts with the old
    one: the second pass of the rewrite changes the resource file again. *)
Lemma second_rewrite_changes_files :
  dir_lookup "resource.json"
    (st_pkgdir (fst (_update_package_get_artifact_source_urls Ref.lib
       ExampleUrls.nested_builder "pkgdir"
       (ExamplePkg.start (ExamplePkg.pkg ExampleUrls.nested_artifact)))))
  = Some (File (ExamplePkg.resource_json
                  "https://downloads.mesosphere.com/kafka/assets/1.2.3/foo.jar")) /\
  dir_lookup "resource.json"
    (st_pkgdir (fst (_update_package_get_artifact_source_urls Ref.lib
       ExampleUrls.nested_builder "pkgdir"
       (fst (_update_package_get_artifact_source_urls Ref.lib
          ExampleUrls.nested_builder "pkgdir"
          (ExamplePkg.start (ExamplePkg.pkg ExampleUrls.nested_artifact)))))))
  = Some (File (ExamplePkg.resource_json
                  "https://downloads.mesosphere.com/kafka/assets/1.2.3/1.2.3/foo.jar")).
Proof. split; vm_compute; reflexivity. Qed.

(** C7 (amended).  For a package directory of regular files with distinct
    names whose [package.json] parses to an object, the rewrite ends, and a
    second pass with the same inputs ends too and writes nothing (it leaves
    the files and the trace of the first pass as they are), provided that
    the original prefix occurs neither in the dumped [package.json] nor in
    any other file once its prefix is replaced, and that the JSON library,
    reading the dumped [package.json] back and dumping it again with the same
    fields set, gives the same text. *)
Theorem second_rewrite_writes_nothing
    (L : Lib) (b : UniverseReleaseBuilder) (pkgdir : string) (s : state)
    (orig : string) (j0 j1 j2 j3 : json) :
  well_formed (st_pkgdir s) -> only_files (st_pkgdir s) ->
  dir_lookup "package.json" (st_pkgdir s) = Some (File orig) ->
  json_loads L orig = Some j0 -> set_package_fields b j0 = Ok j1 ->
  json_loads L (strip_lines (json_dumps L j1)) = Some j2 ->
  set_package_fields b j2 = Ok j3 ->
  strip_lines (json_dumps L j3) = strip_lines (json_dumps L j1) ->
  Str.occurs (original_artifact_prefix b) (strip_lines (json_dumps L j1)) = false ->
  (forall f, f ∈ os_listdir (st_pkgdir s) -> f <> "package.json" ->
     Str.occurs (original_artifact_prefix b) (rewritten b (st_pkgdir s) f) = false) ->
  exists s1 urls1 urls2,
    _update_package_get_artifact_source_urls L b pkgdir s = (s1, Ok urls1) /\
    _update_package_get_artifact_source_urls L b pkgdir s1 = (s1, Ok urls2).
Proof.
  intros Hwf Hfiles Hpj Hj0 Hj1 Hj2 Hj3 Hsame Hgone_pj Hgone.
  set (new1 := strip_lines (json_dumps L j1)) in *.
  destruct (update_package_json_frame L b pkgdir s orig j0 j1 Hpj Hj0 Hj1)
    as (sA & HrunA & _ & HnA & HpjA & HoA & _). fold new1 in HpjA.
  assert (forall f, f ∈ os_listdir (st_pkgdir sA) ->
                    os_path_isfile f (st_pkgdir sA) = true) as HfilesA.
  { intros f Hf. unfold os_path_isfile.
    destruct (decide (f = "package.json")) as [->|Hne]; [by rewrite HpjA|].
    rewrite HoA by done. apply Hfiles. by rewrite <- HnA. }
  destruct (replace_loop b pkgdir (os_listdir (st_pkgdir sA))
              ltac:(by rewrite HnA) [] sA HfilesA)
    as (s1 & HrunB & _ & Hn1 & Hin1 & _ & _).
  assert (forall f, f ∈ os_listdir (st_pkgdir sA) ->
            Str.occurs (original_artifact_prefix b) (rewritten b (st_pkgdir sA) f) = false)
    as HgoneA.
  { intros f Hf. destruct (decide (f = "package.json")) as [->|Hne].
    - unfold rewritten, file_text. rewrite HpjA.
      by rewrite replace_no_occurrence.
    - unfold rewritten, file_text. rewrite HoA by done.
      apply Hgone; [by rewrite <- HnA|done]. }
  assert ("package.json" ∈ os_listdir (st_pkgdir sA)) as HpjIn.
  { by eapply alist_get_Some_name. }
  exists s1. eexists. eexists. split.
  { unfold _update_package_get_artifact_source_urls.
    erewrite bind_ok by exact HrunA. unfold replace_artifact_prefix.
    unfold bind at 1, get_pkgdir at 1. exact HrunB. }
  (* the second pass *)
  assert (dir_lookup "package.json" (st_pkgdir s1) = Some (File new1)) as Hpj1.
  { rewrite Hin1 by done. unfold rewritten, file_text. rewrite HpjA.
    by rewrite replace_no_occurrence. }
  destruct (update_package_json_frame L b pkgdir s1 new1 j2 j3 Hpj1 Hj2 Hj3)
    as (s1' & HrunA' & _ & _ & _ & _ & Hfix).
  rewrite (Hfix (eq_sym Hsame)) in HrunA'.
  unfold _update_package_get_artifact_source_urls.
  erewrite bind_ok by exact HrunA'. unfold replace_artifact_prefix.
  unfold bind at 1, get_pkgdir at 1.
  apply replace_loop_fixed. intros f Hf. rewrite Hn1 in Hf.
  unfold os_path_isfile, rewritten, file_text. rewrite (Hin1 f Hf).
  split; [done|]. apply replace_no_occurrence. by apply HgoneA.
Qed.

Lemma concrete_prefix_gone (b : UniverseReleaseBuilder) (d : dir) :
  forallb (fun f => bool_decide (f = "package.json")
                    || negb (Str.occurs (original_artifact_prefix b) (rewritten b d f)))
    (os_listdir d) = true ->
  forall f, f ∈ os_listdir d -> f <> "package.json" ->
    Str.occurs (original_artifact_prefix b) (rewritten b d f) = false.
Proof.
  intros H f Hf Hne. rewrite forallb_forall in H.
  specialize (H f (proj1 (list_elem_of_In _ _) Hf)).
  rewrite bool_decide_eq_false_2 in H by done. simpl in H.
  by destruct (Str.occurs _ _).
Qed.

Lemma second_rewrite_writes_nothing_witness :
  exists s1 urls1 urls2,
    _update_package_get_artifact_source_urls Ref.lib (Example.builder "") "pkgdir"
      (ExamplePkg.start (ExamplePkg.pkg ExampleUrls.foo)) = (s1, Ok urls1) /\
    _update_package_get_artifact_source_urls Ref.lib (Example.builder "") "pkgdir" s1
      = (s1, Ok urls2).
Proof.
  apply (second_rewrite_writes_nothing Ref.lib (Example.builder "") "pkgdir"
           (ExamplePkg.start (ExamplePkg.pkg ExampleUrls.foo))
           ExamplePkg.package_json
           (JDict [("name", JStr "kafka"); ("version", JStr "stub");
                   ("minDcosReleaseVersion", JStr "1.8")])
           (JDict [("name", JStr "kafka"); ("version", JStr "1.2.3");
                   ("minDcosReleaseVersion", JStr "1.7");
                   ("packagingVersion", JStr "3.0")])
           (JDict [("minDcosReleaseVersion", JStr "1.7"); ("name", JStr "kafka");
                   ("packagingVersion", JStr "3.0"); ("version", JStr "1.2.3")])
           (JDict [("minDcosReleaseVersion", JStr "1.7"); ("name", JStr "kafka");
                   ("packagingVersion", JStr "3.0"); ("version", JStr "1.2.3")])).
  - exact (concrete_NoDup ["package.json"; "resource.json"] eq_refl).
  - exact (concrete_only_files (ExamplePkg.pkg ExampleUrls.foo) eq_refl).
  - reflexivity.
  - vm_compute; reflexivity.
  - reflexivity.
  - vm_compute; reflexivity.
  - reflexivity.
  - vm_compute; reflexivity.
  - vm_compute; reflexivity.
  - apply concrete_prefix_gone. vm_compute; reflexivity.
Defined.

(** ** The exit code *)

(** C5 (counterexample).  Everything before the proposal goes through and
    the pull request call is answered with status 422: [main] returns -1, and
    the process ends with status 255, not 0. *)
Lemma proposal_failure_is_not_exit_0 :
  run_main Ref.lib
    (Example.world "" 1 422 (ExamplePkg.pkg ExampleUrls.foo)
       [("0", Dir [("package.json", File "{}")])])
    ["release_builder.py"; "1.2.3"; Example.url]
  = Ok (-1)%Z /\
  exit_status (Ok (-1)%Z) = 255%Z.
Proof. split; vm_compute; reflexivity. Qed.

Lemma create_pr_none L w b branch commitmsg_path s s' :
  _create_universe_pr L w b branch commitmsg_path s = (s', Ok None) ->
  truthy (_dry_run b) = true.
Proof.
  unfold _create_universe_pr. destruct (truthy (_dry_run b)); [done|].
  run_m. destruct (written _ _); [|done]. run_m.
  by destruct (getresponse w _ _).
Qed.

Lemma release_zip_none L w b s s' :
  release_zip L w b s = (s', Ok None) -> truthy (_dry_run b) = true.
Proof.
  unfold release_zip, bind.
  destruct (_download_unpack_stub_universe w b (mkdtemp w) s) as [s1 [pkgdir|?]]; [|done].
  destruct (_update_package_get_artifact_source_urls L b pkgdir s1) as [s2 [urls|?]];
    [|done].
  destruct (_copy_artifacts_s3 w b (mkdtemp w) urls s2) as [s3 [[]|?]]; [|done].
  destruct (_create_universe_branch L w b (mkdtemp w) pkgdir s3) as [s4 [bc|?]]; [|done].
  apply create_pr_none.
Qed.

(** C5 (amended).  [main] returns 1 when an argument is missing.  Otherwise
    an exception of the constructor or of the pipeline leaves [main], and the
    process ends with status 1; a pipeline that ends without a response, which
    only a dry run does, gives 0; a response with a status outside 200..299
    gives -1, a process status of 255 and not 0; a response with a status in
    200..299 gives 0 once the URL of the pull request is read from its body,
    and an exception when the body does not hold one. *)
Theorem main_exit_codes (L : Lib) (w : World) (argv : list string) :
  ((length argv < 3)%nat -> run_main L w argv = Ok 1%Z) /\
  (forall prog package_version url rest,
     argv = prog :: package_version :: url :: rest ->
     (forall e,
        new_builder L (environ w) package_version (Str.rstrip_char Str.slash url)
          (Str.join " " rest) = Raise e ->
        run_main L w argv = Raise e /\ exit_status (run_main L w argv) = 1%Z) /\
     (forall b,
        new_builder L (environ w) package_version (Str.rstrip_char Str.slash url)
          (Str.join " " rest) = Ok b ->
        (forall s' e, release_zip L w b initial_state = (s', Raise e) ->
           run_main L w argv = Raise e /\ exit_status (run_main L w argv) = 1%Z) /\
        (forall s', release_zip L w b initial_state = (s', Ok None) ->
           truthy (_dry_run b) = true /\ run_main L w argv = Ok 0%Z) /\
        (forall s' r, release_zip L w b initial_state = (s', Ok (Some r)) ->
           ((status r < 200 \/ status r >= 300)%Z ->
              run_main L w argv = Ok (-1)%Z /\
              exit_status (run_main L w argv) = 255%Z) /\
           ((200 <= status r < 300)%Z ->
              (forall d v, json_loads L (read r) = Some (JDict d) ->
                           alist_get "html_url" d = Some v ->
                           run_main L w argv = Ok 0%Z) /\
              (run_main L w argv = Ok 0%Z \/ exists e, run_main L w argv = Raise e))))).
Proof.
  split.
  { intros Hlen. destruct argv as [|? [|? [|? ?]]]; simpl in Hlen; try done. lia. }
  intros prog package_version url rest ->. unfold run_main, main. split.
  { intros e ->. done. }
  intros b ->. unfold bind. split; [|split].
  - intros s' e ->. done.
  - intros s' Hrun. split; [by eapply release_zip_none|]. by rewrite Hrun.
  - intros s' r ->. split.
    + intros Hst. by rewrite decide_True.
    + intros Hst. rewrite decide_False by lia. split.
      * intros d v -> ->. done.
      * destruct (json_loads L (read r)) as [[| | | | | |d]|]; simpl; eauto.
        destruct (alist_get "html_url" d); simpl; eauto.
Qed.

(** * Further properties of the code *)

(** ** The constructor *)

(** X1.  The constructor checks the archive URL first, then the GitHub token,
    then the two AWS keys: it raises the name error when the URL does not
    match, else the GitHub error when [GITHUB_TOKEN] is not set, else the AWS
    error when one of the AWS keys is not set.  It returns a builder exactly
    when the URL matches and the three credentials are set, and that builder
    keeps the version, the URL and the description it was given and takes its
    dry-run flag from [DRY_RUN]. *)
Theorem constructor_outcomes
    (L : Lib) (environ : gmap string string)
    (package_version url commit_desc min_ver http_server bucket rel_dir : string) :
  let construct :=
    __init__ L environ package_version url commit_desc min_ver http_server
      bucket rel_dir in
  (name_match url = None -> construct = Raise (ConfigurationError msg_name)) /\
  (is_Some (name_match url) -> environ !! "GITHUB_TOKEN" = None ->
     construct = Raise (ConfigurationError msg_github)) /\
  (is_Some (name_match url) -> is_Some (environ !! "GITHUB_TOKEN") ->
     environ !! "AWS_ACCESS_KEY_ID" = None \/ environ !! "AWS_SECRET_ACCESS_KEY" = None ->
     construct = Raise (ConfigurationError msg_aws)) /\
  ((exists b, construct = Ok b) <-> is_Some (name_match url) /\ has_credentials environ) /\
  (forall b, construct = Ok b ->
     _dry_run b = environ_get environ "DRY_RUN" "" /\
     _pkg_version b = package_version /\ _stub_universe_url b = url /\
     _commit_desc b = commit_desc /\ _min_dcos_release_version b = min_ver /\
     _release_artifact_http_dir b =
       http_server +:+ "/" +:+
       (if truthy rel_dir then rel_dir else _pkg_name b +:+ "/assets")
       +:+ "/" +:+ package_version /\
     _release_artifact_s3_dir b =
       "s3://" +:+ bucket +:+ "/" +:+
       (if truthy rel_dir then rel_dir else _pkg_name b +:+ "/assets")
       +:+ "/" +:+ package_version).
Proof.
  intros construct. subst construct. unfold __init__, has_credentials.
  split; [by intros ->|]. split; [by intros [g ->] ->|]. split.
  { intros [g ->] [tok ->] [Hk|Hk]; rewrite Hk; [done|].
    by destruct (environ !! "AWS_ACCESS_KEY_ID"). }
  split.
  - split.
    + intros [b Hb]. destruct (name_match url); [|done].
      destruct (environ !! "GITHUB_TOKEN"); [|done].
      destruct (environ !! "AWS_ACCESS_KEY_ID"); [|done].
      by destruct (environ !! "AWS_SECRET_ACCESS_KEY").
    + intros ([g ->] & [tok ->] & [k1 ->] & [k2 ->]). by eexists.
  - intros b Hb. destruct (name_match url) as [g|]; [|done].
    destruct (environ !! "GITHUB_TOKEN"); [|done].
    destruct (environ !! "AWS_ACCESS_KEY_ID"); [|done].
    destruct (environ !! "AWS_SECRET_ACCESS_KEY"); [|done].
    injection Hb as <-. simpl. by destruct rel_dir.
Qed.

(** ** The archive fetcher *)


(** ** The JSON step of the rewriter *)

(** X3.  Setting the fields of the package document twice is the same as
    setting them once; anything but an object is refused with a type error;
    every key of the object is still there afterwards. *)
Theorem set_package_fields_idempotent (b : UniverseReleaseBuilder) (j0 : json) :
  (forall j1, set_package_fields b j0 = Ok j1 -> set_package_fields b j1 = Ok j1) /\
  ((forall d, j0 <> JDict d) -> set_package_fields b j0 = Raise TypeError) /\
  (forall d, j0 = JDict d ->
     exists d', set_package_fields b j0 = Ok (JDict d') /\
       forall k, is_Some (alist_get k d) -> is_Some (alist_get k d')).
Proof.
  split; [intros j1; apply set_package_fields_twice|]. split.
  - intros Hnd. destruct j0; try done. by destruct (Hnd d).
  - intros d ->. destruct (set_package_fields_dict b d) as (d' & Hset & Hv & Hpv & Ho & Hm).
    exists d'. split; [done|]. intros k Hk.
    destruct (decide (k = "version")) as [->|H1]; [by rewrite Hv|].
    destruct (decide (k = "packagingVersion")) as [->|H2]; [by rewrite Hpv|].
    destruct (decide (k = "minDcosReleaseVersion")) as [->|H3]; [|by rewrite Ho].
    rewrite Hm. destruct (minDcosReleaseVersion b) as [v|]; [|done].
    by destruct (truthy v).
Qed.

(** X4.  A minimum version other than ['0'] and the empty text is written
    to [minDcosReleaseVersion], over a value that was there; the empty text
    works like ['0'] and leaves the field as it is. *)
Theorem min_version_is_set_or_left
    (b : UniverseReleaseBuilder) (d : list (string * json)) :
  exists d',
    set_package_fields b (JDict d) = Ok (JDict d') /\
    (_min_dcos_release_version b <> "0" ->
     _min_dcos_release_version b <> EmptyString ->
     alist_get "minDcosReleaseVersion" d' = Some (JStr (_min_dcos_release_version b))) /\
    (_min_dcos_release_version b = EmptyString ->
     alist_get "minDcosReleaseVersion" d' = alist_get "minDcosReleaseVersion" d).
Proof.
  destruct (set_package_fields_dict b d) as (d' & Hset & _ & _ & _ & Hm).
  exists d'. split; [done|]. rewrite Hm. unfold minDcosReleaseVersion. split.
  - intros H0 He. rewrite decide_False by done.
    by destruct (_min_dcos_release_version b).
  - intros ->. done.
Qed.

(** X5.  The JSON step fails without touching the files or the trace when
    [package.json] is missing or is a directory, when its text is not JSON,
    and when the JSON is not an object.  When it goes through it changes no
    entry but [package.json], keeps the listing, and writes the file only when
    the new text differs from the text it read. *)
Theorem update_package_json_outcomes
    (L : Lib) (b : UniverseReleaseBuilder) (pkgdir : string) (s : state) :
  (dir_lookup "package.json" (st_pkgdir s) = None ->
     update_package_json L b pkgdir s
     = (s, Raise (OSError ENOENT (os_path_join pkgdir "package.json")))) /\
  (forall es, dir_lookup "package.json" (st_pkgdir s) = Some (Dir es) ->
     update_package_json L b pkgdir s
     = (s, Raise (OSError EISDIR (os_path_join pkgdir "package.json")))) /\
  (forall orig, dir_lookup "package.json" (st_pkgdir s) = Some (File orig) ->
     (json_loads L orig = None ->
        update_package_json L b pkgdir s = (s, Raise ValueError)) /\
     (forall j, json_loads L orig = Some j -> (forall d, j <> JDict d) ->
        update_package_json L b pkgdir s = (s, Raise TypeError)) /\
     (forall d, json_loads L orig = Some (JDict d) ->
        exists s1 d',
          update_package_json L b pkgdir s = (s1, Ok tt) /\
          set_package_fields b (JDict d) = Ok (JDict d') /\
          st_repo s1 = st_repo s /\
          os_listdir (st_pkgdir s1) = os_listdir (st_pkgdir s) /\
          (forall f, f <> "package.json" ->
             dir_lookup f (st_pkgdir s1) = dir_lookup f (st_pkgdir s)) /\
          dir_lookup "package.json" (st_pkgdir s1)
            = Some (File (strip_lines (json_dumps L (JDict d')))) /\
          (orig = strip_lines (json_dumps L (JDict d')) -> s1 = s) /\
          (orig <> strip_lines (json_dumps L (JDict d')) ->
             st_trace s1 = (st_trace s ++
               [WriteFile (os_path_join pkgdir "package.json")
                  (strip_lines (json_dumps L (JDict d')))])%list))).
Proof.
  split; [|split].
  - intros Hf. unfold update_package_json, read_pkg_file. run_m. by rewrite Hf.
  - intros es Hf. unfold update_package_json, read_pkg_file. run_m. by rewrite Hf.
  - intros orig Hf. split; [|split].
    + intros Hj. unfold update_package_json.
      erewrite bind_ok by by apply run_read_pkg_file. by rewrite Hj.
    + intros j Hj Hnd. unfold update_package_json.
      erewrite bind_ok by by apply run_read_pkg_file. rewrite Hj.
      destruct j; try done. by destruct (Hnd d).
    + intros d Hj.
      destruct (set_package_fields_dict b d) as (d' & Hset & _).
      destruct (update_package_json_frame L b pkgdir s orig _ _ Hf Hj Hset)
        as (s1 & Hrun & Hr & Hn & Hpj & Ho & Hfix).
      exists s1, d'. repeat (split; [done|]).
      intros Hne. rewrite (update_package_json_ok L b pkgdir s orig _ _ Hf Hj Hset) in Hrun.
      rewrite decide_False in Hrun by done. by injection Hrun as <-.
Qed.

(** ** The artifact mirror in a real run *)

Lemma copy_artifact_real_cases w b scratchdir url s :
  truthy (_dry_run b) = false ->
  let out := copy_artifact w b scratchdir url s in
  st_pkgdir (fst out) = st_pkgdir s /\ st_repo (fst out) = st_repo s /\
  ((snd out = Ok tt /\
    st_trace (fst out) = (st_trace s ++ artifact_events b scratchdir url)%list) \/
   (snd out = Raise (DownloadFailure url) /\
    st_trace (fst out)
    = (st_trace s ++ [Retrieve url (artifact_local scratchdir url)])%list) \/
   (snd out = Raise (PartialUploadFailure (artifact_local scratchdir url)
                       (artifact_dest b url)) /\
    st_trace (fst out)
    = (st_trace s ++
         [Retrieve url (artifact_local scratchdir url);
          Shell (cp_cmd (artifact_local scratchdir url) (artifact_dest b url))])%list)).
Proof.
  intros Hdry. unfold copy_artifact, artifact_events, artifact_local, artifact_dest.
  rewrite Hdry. run_m. destruct (retrieve_ok w _ _); simpl.
  - case_decide; simpl; rewrite <- !app_assoc; simpl;
      (split; [done|split; [done|]]); [by left|by right; right].
  - split; [done|split; [done|]]. by right; left.
Qed.

Lemma mirror_loop_real w b scratchdir urls s :
  truthy (_dry_run b) = false ->
  let out := for_each urls (copy_artifact w b scratchdir) s in
  st_pkgdir (fst out) = st_pkgdir s /\ st_repo (fst out) = st_repo s /\
  (snd out = Ok tt ->
   st_trace (fst out) = (st_trace s ++ flat_map (artifact_events b scratchdir) urls)%list) /\
  (forall local_path dest,
     snd out = Raise (PartialUploadFailure local_path dest) ->
     exists t, st_trace (fst out) = (t ++ [Shell (cp_cmd local_path dest)])%list) /\
  (forall e, snd out = Raise e ->
     (exists url, e = DownloadFailure url) \/
     (exists local_path dest, e = PartialUploadFailure local_path dest)).
Proof.
  intros Hdry. revert s. induction urls as [|url urls IH]; intros s; simpl.
  - rewrite app_nil_r. repeat split; try done.
  - destruct (copy_artifact_real_cases w b scratchdir url s Hdry)
      as (Hp & Hr & Hcases). unfold bind.
    destruct (copy_artifact w b scratchdir url s) as [s1 r1]. simpl in *.
    destruct Hcases as [[-> Ht]|[[-> Ht]|[-> Ht]]]; simpl.
    + destruct (IH s1) as (Hp' & Hr' & Hok & Hfail & Herr).
      split; [congruence|]. split; [congruence|]. split; [|split; [done|done]].
      intros Hsnd. rewrite (Hok Hsnd), Ht. by rewrite <- app_assoc.
    + split; [done|]. split; [done|]. split; [done|]. split; [done|].
      intros e [= <-]. left. by eexists.
    + split; [done|]. split; [done|]. split; [done|]. split.
      * intros local_path dest [= <- <-]. rewrite Ht. eexists (_ ++ [_])%list.
        by rewrite <- app_assoc.
      * intros e [= <-]. right. by eexists _, _.
Qed.

(** X6.  In a real run the artifact mirror leaves the files of the run
    alone.  When it ends normally, its trace is the listing followed, for
    each URL in order, by the download of the URL to the scratch directory,
    the upload of that file to [<destination>/<last segment of the URL>] and
    the removal of the local file.  When an upload fails it stops at once:
    the failed upload is the last thing it did, and the local file of that
    artifact is not removed. *)
Theorem mirror_real_run
    (w : World) (b : UniverseReleaseBuilder) (scratchdir : string)
    (urls : list string) (s : state) :
  truthy (_dry_run b) = false ->
  let out := _copy_artifacts_s3 w b scratchdir urls s in
  st_pkgdir (fst out) = st_pkgdir s /\ st_repo (fst out) = st_repo s /\
  (snd out = Ok tt ->
   st_trace (fst out)
   = (st_trace s ++ Shell (ls_cmd b) :: flat_map (artifact_events b scratchdir) urls)%list) /\
  (forall local_path dest,
     snd out = Raise (PartialUploadFailure local_path dest) ->
     exists t, st_trace (fst out) = (t ++ [Shell (cp_cmd local_path dest)])%list).
Proof.
  intros Hdry. unfold _copy_artifacts_s3, _run_cmd. rewrite Hdry. run_m.
  set (s1 := {| st_pkgdir := _; st_repo := _; st_trace := _ |}).
  case_decide; [done|]. case_decide; [done|].
  destruct (mirror_loop_real w b scratchdir urls s1 Hdry) as (Hp & Hr & Hok & Hfail & _).
  split; [done|]. split; [done|]. split; [|done].
  intros Hsnd. rewrite (Hok Hsnd). subst s1. simpl. by rewrite <- app_assoc.
Qed.

Lemma mirror_real_run_witness :
  st_trace (fst (_copy_artifacts_s3 (Example.world "" 1 201 [] []) (Example.builder "")
                   Example.scratchdir [ExampleUrls.foo] initial_state))
  = [Shell (ls_cmd (Example.builder ""));
     Retrieve ExampleUrls.foo Example.local_foo;
     Shell (cp_cmd Example.local_foo Example.dest_foo);
     Unlink Example.local_foo].
Proof.
  exact (proj1 (proj2 (proj2 (mirror_real_run (Example.world "" 1 201 [] [])
                                (Example.builder "") Example.scratchdir
                                [ExampleUrls.foo] initial_state eq_refl)))
           eq_refl).
Defined.

(** ** The pipeline in a dry run *)

Lemma quiet_ret {A} P (a : A) : quiet P (ret a).
Proof. intros s. exists []. simpl. by rewrite app_nil_r. Qed.

Lemma quiet_raise {A} P e : quiet P (@raise A e).
Proof. intros s. exists []. simpl. by rewrite app_nil_r. Qed.

Lemma quiet_emit P e : P e -> quiet P (emit e).
Proof. intros He s. exists [e]. simpl. split; [done|]. by constructor. Qed.

Lemma quiet_get_trace P : quiet P get_trace.
Proof. intros s. exists []. simpl. by rewrite app_nil_r. Qed.

Lemma quiet_get_pkgdir P : quiet P get_pkgdir.
Proof. intros s. exists []. simpl. by rewrite app_nil_r. Qed.

Lemma quiet_set_pkgdir P d : quiet P (set_pkgdir d).
Proof. intros s. exists []. simpl. by rewrite app_nil_r. Qed.

Lemma quiet_get_repo P : quiet P get_repo.
Proof. intros s. exists []. simpl. by rewrite app_nil_r. Qed.

Lemma quiet_set_repo P d : quiet P (set_repo d).
Proof. intros s. exists []. simpl. by rewrite app_nil_r. Qed.

Lemma quiet_bind {A B} P (m : M A) (k : A -> M B) :
  quiet P m -> (forall a, quiet P (k a)) -> quiet P (bind m k).
Proof.
  intros Hm Hk s. unfold bind. destruct (Hm s) as (n1 & Ht1 & Hf1).
  destruct (m s) as [s1 [a|e]]; simpl in *.
  - destruct (Hk a s1) as (n2 & Ht2 & Hf2). exists (n1 ++ n2)%list.
    split; [by rewrite Ht2, Ht1, <- app_assoc|by apply Forall_app].
  - by exists n1.
Qed.

Lemma quiet_for_acc {A B} P (body : A -> B -> M B) l acc :
  (forall x a, quiet P (body x a)) -> quiet P (for_acc l acc body).
Proof.
  intros Hbody. revert acc. induction l as [|x l IH]; intros acc; simpl.
  - apply quiet_ret.
  - apply quiet_bind; [apply Hbody|]. intros a. apply IH.
Qed.

Lemma quiet_for_each {A} P (body : A -> M unit) l :
  (forall x, quiet P (body x)) -> quiet P (for_each l body).
Proof.
  intros Hbody. induction l as [|x l IH]; simpl.
  - apply quiet_ret.
  - apply quiet_bind; [apply Hbody|]. intros a. apply IH.
Qed.

Lemma quiet_system P w cmd : P (Shell cmd) -> quiet P (system w cmd).
Proof.
  intros Hc. unfold system. apply quiet_bind; [apply quiet_get_trace|]. intros t.
  apply quiet_bind; [by apply quiet_emit|]. intros _. apply quiet_ret.
Qed.

(** Apply the rules above through a definition once it is unfolded. *)
Ltac quiet_step :=
  first
    [ apply quiet_ret | apply quiet_raise
    | apply quiet_get_trace | apply quiet_get_pkgdir | apply quiet_set_pkgdir
    | apply quiet_get_repo | apply quiet_set_repo
    | apply quiet_emit; try done
    | apply quiet_bind; [|intros ?]
    | match goal with
      | |- quiet _ (match ?x with _ => _ end) => destruct x
      end ].

Ltac quiet_auto := repeat quiet_step.

Lemma quiet_read_pkg_file P pkgdir f : quiet P (read_pkg_file pkgdir f).
Proof. unfold read_pkg_file. quiet_auto. Qed.

Lemma quiet_write_pkg_file P pkgdir f content :
  (forall path text, P (WriteFile path text)) ->
  quiet P (write_pkg_file pkgdir f content).
Proof. intros Hw. unfold write_pkg_file. quiet_auto; apply Hw. Qed.

Lemma quiet_update_file_content P pkgdir f orig new :
  (forall path text, P (WriteFile path text)) ->
  quiet P (_update_file_content pkgdir f orig new).
Proof. intros Hw. unfold _update_file_content. quiet_auto; apply Hw. Qed.

Lemma quiet_rewriter P L b pkgdir :
  (forall path text, P (WriteFile path text)) ->
  quiet P (_update_package_get_artifact_source_urls L b pkgdir).
Proof.
  intros Hw. unfold _update_package_get_artifact_source_urls.
  apply quiet_bind.
  - unfold update_package_json. apply quiet_bind; [apply quiet_read_pkg_file|].
    intros orig. destruct (json_loads L orig) as [j|]; [|apply quiet_raise].
    destruct (set_package_fields b j); [|apply quiet_raise].
    by apply quiet_update_file_content.
  - intros _. unfold replace_artifact_prefix.
    apply quiet_bind; [apply quiet_get_pkgdir|]. intros d.
    apply quiet_for_acc. intros f acc. unfold replace_step.
    apply quiet_bind; [apply quiet_read_pkg_file|]. intros orig.
    apply quiet_bind; [by apply quiet_update_file_content|]. intros _.
    apply quiet_ret.
Qed.

Lemma push_cmd_dry b scratchdir commitmsg_path branch :
  truthy (_dry_run b) = true ->
  push_cmd b scratchdir commitmsg_path branch = show_cmd scratchdir commitmsg_path.
Proof. intros Hdry. unfold push_cmd, show_cmd. by rewrite Hdry. Qed.

Lemma quiet_download w b scratchdir :
  quiet (dry_pipeline_event w b) (_download_unpack_stub_universe w b scratchdir).
Proof. unfold _download_unpack_stub_universe. quiet_auto. Qed.

Lemma quiet_mirror_dry w b scratchdir urls :
  truthy (_dry_run b) = true ->
  quiet (dry_pipeline_event w b) (_copy_artifacts_s3 w b scratchdir urls).
Proof.
  intros Hdry. unfold _copy_artifacts_s3, _run_cmd. rewrite Hdry.
  apply quiet_bind; [apply quiet_ret|]. intros r.
  destruct (decide (r = 0%Z)); [apply quiet_raise|].
  destruct (decide (r > 256)%Z); [apply quiet_raise|].
  apply quiet_for_each. intros url. unfold copy_artifact. rewrite Hdry.
  apply quiet_bind.
  - apply quiet_bind; [by apply quiet_emit|]. intros _.
    apply quiet_system. simpl. left. by eexists _, _.
  - intros r'. destruct (decide (r' = 0%Z)); [by apply quiet_emit|apply quiet_raise].
Qed.

Lemma quiet_get_base P base_path : quiet P (get_base base_path).
Proof. unfold get_base. quiet_auto. Qed.

Lemma quiet_revision_entries P base_path rev : quiet P (revision_entries base_path rev).
Proof.
  unfold revision_entries. apply quiet_bind; [apply quiet_get_base|]. intros base.
  quiet_auto.
Qed.

Lemma quiet_read_revision_file P base_path rev f :
  quiet P (read_revision_file base_path rev f).
Proof.
  unfold read_revision_file. apply quiet_bind; [apply quiet_revision_entries|].
  intros es. quiet_auto.
Qed.

Lemma quiet_collect_changes w b L pkgdir base_path lastnum :
  quiet (dry_pipeline_event w b) (collect_changes L pkgdir base_path lastnum).
Proof.
  unfold collect_changes. apply quiet_bind.
  { unfold makedirs_revision. apply quiet_bind; [apply quiet_get_base|]. intros base.
    quiet_auto. }
  intros _. apply quiet_bind; [apply quiet_revision_entries|]. intros old.
  apply quiet_bind; [apply quiet_get_pkgdir|]. intros d.
  apply quiet_for_acc. intros f c. unfold collect_step.
  destruct (negb (os_path_isfile f d)); [apply quiet_ret|].
  apply quiet_bind.
  { unfold copyfile. apply quiet_bind; [apply quiet_read_pkg_file|]. intros content.
    apply quiet_bind; [apply quiet_get_base|]. intros base.
    apply quiet_bind; [apply quiet_revision_entries|]. intros es.
    quiet_auto. }
  intros _. destruct (list_in f (removedfiles c)); [|apply quiet_ret].
  apply quiet_bind; [apply quiet_read_revision_file|]. intros oldfile.
  apply quiet_bind; [apply quiet_read_revision_file|]. intros newfile.
  apply quiet_ret.
Qed.

Lemma quiet_committer_dry L w b pkgdir :
  truthy (_dry_run b) = true ->
  quiet (dry_pipeline_event w b) (_create_universe_branch L w b (mkdtemp w) pkgdir).
Proof.
  intros Hdry. unfold _create_universe_branch.
  apply quiet_bind; [apply quiet_system; simpl; by right; left|]. intros r.
  destruct (decide (r <> 0%Z)); [apply quiet_raise|].
  apply quiet_bind; [apply quiet_set_repo|]. intros _.
  apply quiet_bind; [apply quiet_get_base|]. intros base.
  apply quiet_bind; [apply quiet_collect_changes|]. intros c.
  apply quiet_bind; [by apply quiet_emit|]. intros _.
  apply quiet_bind.
  { apply quiet_system. rewrite push_cmd_dry by done. simpl. by right; right. }
  intros r'. destruct (decide (r' <> 0%Z)); [apply quiet_raise|apply quiet_ret].
Qed.

Lemma quiet_proposer_dry L w b branch commitmsg_path :
  truthy (_dry_run b) = true ->
  quiet (dry_pipeline_event w b) (_create_universe_pr L w b branch commitmsg_path).
Proof. intros Hdry. unfold _create_universe_pr. rewrite Hdry. apply quiet_ret. Qed.

(** X7.  In a dry run the pipeline never calls the pull request API and
    runs no shell command but the simulated uploads ([aws s3 cp --dryrun]),
    the clone of Universe and the local commit, whose command ends with
    [git show] and pushes nothing; the listing of the destination is not run,
    and no artifact is downloaded or uploaded.  The stub universe archive is
    still downloaded, and the clone and the commit are still made.  The
    pipeline ends without a response, or with an exception. *)
Theorem dry_run_publishes_nothing
    (L : Lib) (w : World) (b : UniverseReleaseBuilder) (s : state) :
  truthy (_dry_run b) = true ->
  (exists new,
     st_trace (fst (release_zip L w b s)) = (st_trace s ++ new)%list /\
     Forall (dry_pipeline_event w b) new) /\
  (snd (release_zip L w b s) = Ok None \/
   exists e, snd (release_zip L w b s) = Raise e) /\
  (forall commitmsg_path branch,
     push_cmd b (mkdtemp w) commitmsg_path branch = show_cmd (mkdtemp w) commitmsg_path).
Proof.
  intros Hdry. split; [|split].
  - apply (quiet_bind (dry_pipeline_event w b)); [apply quiet_download|]. intros pkgdir.
    apply quiet_bind; [by apply quiet_rewriter|]. intros urls.
    apply quiet_bind; [by apply quiet_mirror_dry|]. intros _.
    apply quiet_bind; [by apply quiet_committer_dry|]. intros bc.
    by apply quiet_proposer_dry.
  - unfold release_zip, bind.
    destruct (_download_unpack_stub_universe w b (mkdtemp w) s) as [s1 [pkgdir|?]];
      [|by eauto].
    destruct (_update_package_get_artifact_source_urls L b pkgdir s1) as [s2 [urls|?]];
      [|by eauto].
    destruct (_copy_artifacts_s3 w b (mkdtemp w) urls s2) as [s3 [[]|?]]; [|by eauto].
    destruct (_create_universe_branch L w b (mkdtemp w) pkgdir s3) as [s4 [bc|?]];
      [|by eauto].
    unfold _create_universe_pr. rewrite Hdry. by left.
  - intros commitmsg_path branch. by apply push_cmd_dry.
Qed.

Lemma dry_run_publishes_nothing_witness :
  snd (release_zip Ref.lib
         (Example.world "1" 1 201 (ExamplePkg.pkg ExampleUrls.foo)
            [("0", Dir [("package.json", File "{}")])])
         (Example.builder "1") initial_state) = Ok None \/
  exists e,
    snd (release_zip Ref.lib
           (Example.world "1" 1 201 (ExamplePkg.pkg ExampleUrls.foo)
              [("0", Dir [("package.json", File "{}")])])
           (Example.builder "1") initial_state) = Raise e.
Proof.
  exact (proj1 (proj2 (dry_run_publishes_nothing Ref.lib
                         (Example.world "1" 1 201 (ExamplePkg.pkg ExampleUrls.foo)
                            [("0", Dir [("package.json", File "{}")])])
                         (Example.builder "1") initial_state eq_refl))).
Defined.

(** ** The revision committer and the proposer *)

Lemma written_after_write path text cmd t :
  written path (t ++ [WriteFile path text; Shell cmd]) = Some text.
Proof.
  unfold written. rewrite fold_left_app. simpl.
  by destruct (decide (path = path)).
Qed.

(** X8.  When the clone of Universe fails, the committer raises the git
    error having run nothing but the clone command, and leaves the files of
    the run alone.  When the committer ends normally, it returns the branch
    [automated/release_<name>_<version>_<suffix>] and the path of
    [commitmsg.txt] in the scratch directory, and the last two things it did
    were to write the commit message there and to run the commit and push
    command, which ended with status 0. *)
Theorem committer_git_outcomes
    (L : Lib) (w : World) (b : UniverseReleaseBuilder) (scratchdir pkgdir : string)
    (s : state) :
  (os_system w (st_trace s) (clone_cmd scratchdir (branch_name w b)) <> 0%Z ->
     _create_universe_branch L w b scratchdir pkgdir s
     = ({| st_pkgdir := st_pkgdir s; st_repo := st_repo s;
           st_trace := (st_trace s ++
             [Shell (clone_cmd scratchdir (branch_name w b))])%list |},
        Raise (GitOperationFailure (branch_name w b)))) /\
  (forall s' bc,
     _create_universe_branch L w b scratchdir pkgdir s = (s', Ok bc) ->
     bc = (branch_name w b, os_path_join scratchdir "commitmsg.txt") /\
     exists t text,
       st_trace s' =
         (t ++ [WriteFile (os_path_join scratchdir "commitmsg.txt") text;
                Shell (push_cmd b scratchdir (os_path_join scratchdir "commitmsg.txt")
                         (branch_name w b))])%list /\
       os_system w (t ++ [WriteFile (os_path_join scratchdir "commitmsg.txt") text])%list
         (push_cmd b scratchdir (os_path_join scratchdir "commitmsg.txt")
            (branch_name w b)) = 0%Z /\
       written (os_path_join scratchdir "commitmsg.txt") (st_trace s') = Some text).
Proof.
  split.
  - intros Hfail. unfold _create_universe_branch. run_m.
    by rewrite decide_True.
  - intros s' bc. unfold _create_universe_branch.
    unfold bind at 1. unfold system at 1. run_m.
    destruct (decide (os_system w (st_trace s) _ <> 0%Z)); [done|].
    run_m. unfold get_base at 1. run_m.
    destruct (cloned_pkg_base w) as [base|]; [|done]. simpl.
    destruct (collect_changes L pkgdir _ _ _) as [s1 [c|?]]; [|done]. simpl.
    destruct (decide (os_system w _ _ <> 0%Z)) as [|Hz]; [done|].
    intros [= <- <-]. split; [done|]. simpl.
    eexists (st_trace s1), _. rewrite <- app_assoc. simpl.
    split; [done|]. split; [|apply written_after_write]. lia.
Qed.

(** X9.  In a real run the proposer, given the branch and the path that the
    committer returned, reads the commit message back and sends one request
    to the pull request API, with the title of the release, the branch as
    head, [version-3.x] as base and the commit message as body; it returns
    the response, or raises when there is none.  When the message file was
    not written it raises before sending anything. *)
Theorem proposer_sends_commit_message
    (L : Lib) (w : World) (b : UniverseReleaseBuilder) (branch commitmsg_path : string)
    (s : state) :
  truthy (_dry_run b) = false ->
  (written commitmsg_path (st_trace s) = None ->
     _create_universe_pr L w b branch commitmsg_path s
     = (s, Raise (OSError ENOENT commitmsg_path))) /\
  (forall t text cmd,
     st_trace s = (t ++ [WriteFile commitmsg_path text; Shell cmd])%list ->
     _create_universe_pr L w b branch commitmsg_path s
     = ({| st_pkgdir := st_pkgdir s; st_repo := st_repo s;
           st_trace := (st_trace s ++
             [Post pulls_url (json_dumps_compact L (pr_payload b branch text))])%list |},
        match getresponse w (st_trace s)
                (json_dumps_compact L (pr_payload b branch text)) with
        | Some r => Ok (Some r)
        | None => Raise ConnectionError
        end)).
Proof.
  intros Hdry. unfold _create_universe_pr. rewrite Hdry. split.
  - intros Hw. run_m. by rewrite Hw.
  - intros t text cmd Ht. run_m. rewrite Ht, written_after_write. run_m.
    rewrite <- Ht. unfold pr_payload. by destruct (getresponse w _ _).
Qed.

Lemma proposer_sends_commit_message_witness :
  _create_universe_pr Ref.lib (Example.world "" 1 201 [] []) (Example.builder "")
    "branch" "msg"
    {| st_pkgdir := []; st_repo := None; st_trace := [Shell "git"] |}
  = ({| st_pkgdir := []; st_repo := None; st_trace := [Shell "git"] |},
     Raise (OSError ENOENT "msg")).
Proof.
  exact (proj1 (proposer_sends_commit_message Ref.lib (Example.world "" 1 201 [] [])
                  (Example.builder "") "branch" "msg"
                  {| st_pkgdir := []; st_repo := None; st_trace := [Shell "git"] |}
                  eq_refl) eq_refl).
Defined.

(** ** The command line *)

Lemma rstrip_by_idem f s : Str.rstrip_by f (Str.rstrip_by f s) = Str.rstrip_by f s.
Proof.
  induction s as [|c s IH]; simpl; [done|].
  destruct (Str.rstrip_by f s) as [|d t] eqn:Hr.
  - destruct (f c) eqn:Hc; simpl; [done|]. by rewrite Hc.
  - simpl in *. by rewrite IH.
Qed.

Lemma rstrip_by_app f s c :
  f c = true -> Str.rstrip_by f (s +:+ String c EmptyString) = Str.rstrip_by f s.
Proof.
  intros Hc. induction s as [|d s IH]; simpl.
  - by rewrite Hc.
  - by rewrite IH.
Qed.

(** X10.  [main] strips the slashes that end the archive URL before it does
    anything else with it: a run with one more slash at the end of the URL is
    the same run, with the same effects and the same result. *)
Theorem main_ignores_trailing_slash
    (L : Lib) (w : World) (prog package_version url : string) (rest : list string)
    (s : state) :
  main L w (prog :: package_version :: (url +:+ "/") :: rest) s
  = main L w (prog :: package_version :: url :: rest) s /\
  main L w (prog :: package_version :: Str.rstrip_char Str.slash url :: rest) s
  = main L w (prog :: package_version :: url :: rest) s.
Proof.
  unfold main, Str.rstrip_char. split.
  - by rewrite rstrip_by_app.
  - by rewrite rstrip_by_idem.
Qed.

(** ** The artifact prefix *)

Lemma split_nonempty sep s : Str.split sep s <> [].
Proof.
  destruct s as [|c s]; simpl; [done|].
  destruct (Ascii.eqb c sep); [done|]. by destruct (Str.split sep s).
Qed.

Lemma join_cons sep w l :
  l <> [] -> Str.join sep (w :: l) = w +:+ sep +:+ Str.join sep l.
Proof. by destruct l. Qed.

Lemma join_split s : Str.join "/" (Str.split Str.slash s) = s.
Proof.
  induction s as [|c s IH]; simpl; [done|].
  destruct (Ascii.eqb_spec c Str.slash) as [->|Hne].
  - rewrite join_cons by apply split_nonempty. by rewrite IH.
  - pose proof (split_nonempty Str.slash s) as Hs.
    destruct (Str.split Str.slash s) as [|w ws]; [done|].
    destruct ws as [|w' ws]; simpl in *; by rewrite <- IH.
Qed.

Lemma join_snoc sep l x :
  l <> [] -> Str.join sep (l ++ [x]) = Str.join sep l +:+ sep +:+ x.
Proof.
  induction l as [|w l IH]; [done|]. intros _.
  destruct l as [|w' l].
  - done.
  - change ((w :: w' :: l) ++ [x])%list with (w :: ((w' :: l) ++ [x]))%list.
    rewrite join_cons by (by destruct l).
    rewrite IH by done. rewrite (join_cons sep w (w' :: l)) by done.
    by rewrite !StrFacts.app_assoc.
Qed.

Lemma split_segments_no_slash s :
  Forall (fun w => has_char Str.slash w = false) (Str.split Str.slash s).
Proof.
  induction s as [|c s IH]; simpl; [by repeat constructor|].
  destruct (Ascii.eqb c Str.slash) eqn:Hc.
  - by constructor.
  - pose proof (split_nonempty Str.slash s) as Hs.
    destruct (Str.split Str.slash s) as [|w ws]; [done|].
    apply Forall_cons in IH as [Hw Hws]. constructor; [|done].
    simpl. by rewrite Hc.
Qed.

Lemma split_slash_two a b :
  (2 <= length (Str.split Str.slash (a +:+ String Str.slash b)))%nat.
Proof.
  induction a as [|c a IH]; simpl.
  - pose proof (split_nonempty Str.slash b) as Hs.
    destruct (Str.split Str.slash b); [done|]. simpl. lia.
  - destruct (Ascii.eqb c Str.slash).
    + pose proof (split_nonempty Str.slash (a +:+ String Str.slash b)) as Hs.
      destruct (Str.split Str.slash (a +:+ String Str.slash b)); [done|]. simpl. lia.
    + destruct (Str.split Str.slash (a +:+ String Str.slash b)); simpl in *; lia.
Qed.

Lemma has_char_app c a b : has_char c (a +:+ String c b) = true.
Proof.
  induction a as [|d a IH]; simpl.
  - by rewrite Ascii.eqb_refl.
  - rewrite IH. by destruct (Ascii.eqb d c).
Qed.

(** A text with a slash is its last segment after the join of the segments
    before it. *)
Lemma prefix_and_last a b :
  let s := a +:+ String Str.slash b in
  Str.but_last (Str.split Str.slash s) <> [] /\
  s = Str.join "/" (Str.but_last (Str.split Str.slash s)) +:+ "/" +:+
      Str.last_of (Str.split Str.slash s) /\
  has_char Str.slash (Str.last_of (Str.split Str.slash s)) = false.
Proof.
  simpl. set (s := a +:+ String Str.slash b).
  pose proof (split_slash_two a b) as Hlen. fold s in Hlen.
  pose proof (split_segments_no_slash s) as Hseg.
  pose proof (join_split s) as Hjoin.
  unfold Str.but_last, Str.last_of.
  induction (Str.split Str.slash s) as [|w l _] using rev_ind;
    [simpl in Hlen; lia|].
  rewrite List.length_app in Hlen. simpl in Hlen.
  assert (l <> []) as Hl by (destruct l; simpl in *; [lia|done]).
  rewrite removelast_last, last_last.
  split; [done|]. split.
  - rewrite <- Hjoin. by apply join_snoc.
  - by apply Forall_app in Hseg as [_ [Hw _]%Forall_cons].
Qed.

(** X11.  For every builder the constructor returns, the archive URL is the
    artifact prefix of step 2, a slash, and the name under which
    [_download_unpack_stub_universe] saves the archive; that name holds no
    slash and the prefix is not empty, so [str.replace] is never asked to
    replace the empty text. *)
Theorem constructed_url_is_prefix_and_file
    (L : Lib) (environ : gmap string string)
    (package_version url commit_desc min_ver http_server bucket rel_dir : string)
    (b : UniverseReleaseBuilder)
    (Hb : __init__ L environ package_version url commit_desc min_ver http_server
            bucket rel_dir = Ok b) :
  let zip_name := Str.last_of (Str.split Str.slash (_stub_universe_url b)) in
  _stub_universe_url b = original_artifact_prefix b +:+ "/" +:+ zip_name /\
  has_char Str.slash zip_name = false /\
  original_artifact_prefix b <> "".
Proof.
  unfold __init__ in Hb.
  destruct (name_match url) as [g|] eqn:Hg; [|done].
  destruct (environ !! "GITHUB_TOKEN"); [|done].
  destruct (environ !! "AWS_ACCESS_KEY_ID"); [|done].
  destruct (environ !! "AWS_SECRET_ACCESS_KEY"); [|done].
  injection Hb as <-. unfold original_artifact_prefix. simpl.
  apply name_match_sound in Hg as (X & c & HX & _ & _ & _ & _ & tail & _ & ->).
  set (rest := "stub-universe-" +:+ g +:+ String c "zip" +:+ tail).
  change (X +:+ "/stub-universe-" +:+ g +:+ String c "zip" +:+ tail)
    with (X +:+ String Str.slash rest).
  destruct (prefix_and_last X rest) as (Hne & Heq & Hlast).
  split; [exact Heq|]. split; [exact Hlast|].
  intros Hempty. rewrite Hempty in Heq. clear Hne Hempty.
  revert Heq Hlast.
  generalize (Str.last_of (Str.split Str.slash (X +:+ String Str.slash rest))).
  intros l Heq Hlast.
  destruct X as [|x X]; [done|].
  simpl in Heq. injection Heq as _ Heq.
  rewrite <- Heq in Hlast. by rewrite has_char_app in Hlast.
Qed.

Lemma constructed_url_is_prefix_and_file_witness :
  Example.url = "https://host/path" +:+ "/" +:+ "stub-universe-kafka.zip" /\
  original_artifact_prefix (Example.builder "") = "https://host/path".
Proof.
  pose proof (constructed_url_is_prefix_and_file Ref.lib (Example.env "")
                "1.2.3" Example.url "" "1.7" "https://downloads.mesosphere.com"
                "downloads.mesosphere.io" "" (Example.builder "") eq_refl)
    as (H & _ & _).
  split; [exact H | reflexivity].
Defined.

(** ** Revision numbers from one run to the next *)

Lemma pretty_N_char_digit x :
  (x < 10)%N ->
  is_digit (pretty_N_char x) = true /\ digit_val (pretty_N_char x) = Z.of_N x.
Proof.
  intros Hx.
  assert (x = 0 \/ x = 1 \/ x = 2 \/ x = 3 \/ x = 4 \/ x = 5 \/ x = 6 \/
          x = 7 \/ x = 8 \/ x = 9)%N as Hc by lia.
  repeat destruct Hc as [->|Hc]; try subst x; by vm_compute.
Qed.

Lemma pretty_N_go_digits x s :
  digits_only s = true -> digits_only (pretty_N_go x s) = true.
Proof.
  revert s. induction (N.lt_wf_0 x) as [x _ IH]; intros s Hs.
  assert (x = 0 \/ 0 < x)%N as [->|Hpos] by lia; [by rewrite pretty_N_go_0|].
  rewrite pretty_N_go_step by done. apply IH; [by apply N.div_lt|].
  simpl. rewrite Hs.
  by destruct (pretty_N_char_digit (x `mod` 10)%N) as [-> _];
    [apply N.mod_lt|].
Qed.

Lemma digits_go_pretty x s :
  digits_go 0 false (pretty_N_go x s)
  = if decide (x = 0%N) then digits_go 0 false s
    else digits_go (Z.of_N x) true s.
Proof.
  revert s. induction (N.lt_wf_0 x) as [x _ IH]; intros s.
  destruct (decide (x = 0%N)) as [->|Hx]; [by rewrite pretty_N_go_0|].
  rewrite pretty_N_go_step by lia.
  rewrite IH by (apply N.div_lt; lia).
  destruct (pretty_N_char_digit (x `mod` 10)%N) as [Hd Hv]; [by apply N.mod_lt|].
  pose proof (N.div_mod x 10) as Hdm.
  destruct (decide ((x `div` 10)%N = 0%N)) as [H0|H0]; simpl; rewrite Hd, Hv;
    f_equal; lia.
Qed.

Lemma is_digit_not_space c : is_digit c = true -> Str.is_space c = false.
Proof.
  unfold is_digit, Str.is_space. generalize (nat_of_ascii c). intros n H.
  apply andb_prop in H as [H1%Nat.leb_le H2%Nat.leb_le].
  apply orb_false_intro; apply andb_false_intro2; apply Nat.leb_gt; lia.
Qed.

Lemma rstrip_digits s : digits_only s = true -> Str.rstrip s = s.
Proof.
  unfold Str.rstrip. induction s as [|c s IH]; simpl; [done|].
  intros [Hc Hs]%andb_prop. rewrite IH by done.
  rewrite (is_digit_not_space c Hc). by destruct s.
Qed.

Lemma py_int_digits s : digits_only s = true -> py_int s = digits_go 0 false s.
Proof.
  intros Hs. unfold py_int.
  assert (lstrip s = s) as ->.
  { destruct s as [|c s]; [done|]. simpl in *.
    apply andb_prop in Hs as [Hc _]. by rewrite (is_digit_not_space c Hc). }
  rewrite rstrip_digits by done.
  destruct s as [|c s]; [done|]. simpl in Hs. apply andb_prop in Hs as [Hc _].
  destruct c as [[] [] [] [] [] [] [] []]; try done; vm_compute in Hc; done.
Qed.

(** [int(str(n)) == n] *)
Lemma py_int_pretty (n : Z) : py_int (pretty n) = Some n.
Proof.
  assert (forall p, digits_only (pretty_N_go (N.pos p) "") = true /\
            digits_go 0 false (pretty_N_go (N.pos p) "") = Some (Z.pos p)) as Hp.
  { intros p. split; [by apply pretty_N_go_digits|].
    rewrite digits_go_pretty. by destruct (decide (N.pos p = 0%N)). }
  destruct n as [|p|p]; [done| |].
  - destruct (Hp p) as [Hd Hg].
    change (pretty (Z.pos p)) with (pretty_N_go (N.pos p) "").
    by rewrite py_int_digits.
  - destruct (Hp p) as [Hd Hg].
    change (pretty (Z.neg p)) with (String "-" (pretty_N_go (N.pos p) "")).
    unfold py_int.
    change (lstrip (String "-" ?s)) with (String "-" s).
    assert (Str.rstrip (String "-" (pretty_N_go (N.pos p) ""))
            = String "-" (pretty_N_go (N.pos p) "")) as ->.
    { unfold Str.rstrip. simpl. fold Str.rstrip.
      rewrite rstrip_digits by done.
      destruct (pretty_N_go (N.pos p) ""); [done|done]. }
    by rewrite Hg.
Qed.

Lemma revision_numbers_after base bk' n es :
  os_listdir bk' = (os_listdir base ++ [pretty n])%list ->
  (forall f, f <> pretty n -> dir_lookup f bk' = dir_lookup f base) ->
  dir_lookup (pretty n) base = None ->
  dir_lookup (pretty n) bk' = Some (Dir es) ->
  revision_numbers bk' = (revision_numbers base ++ [n])%list.
Proof.
  intros Hls Hother Hfree Hthis. unfold revision_numbers.
  rewrite Hls, omap_app. f_equal.
  - apply omap_ext_elem. intros f Hf.
    assert (f <> pretty n) as Hne.
    { intros ->. by apply alist_get_None_name in Hfree. }
    unfold os_path_isdir. by rewrite Hother.
  - simpl. unfold os_path_isdir. by rewrite Hthis, py_int_pretty.
Qed.

(** X12.  When the copy loop of the revision committer succeeds from the
    number [find_lastnum] found, the package's directory in the clone holds
    one more revision, named by that number plus one, every earlier entry is
    as it was, and a scan of the directory as the next run does it finds that
    new number: the revision numbers of successive releases go up by one. *)
Theorem new_revision_is_found_next
    (L : Lib) (pkgdir base_path : string) (s : state) (base old : dir)
    (Hrepo : st_repo s = Some base)
    (Hfree : dir_lookup (pretty (find_lastnum base + 1)%Z) base = None)
    (Hlast : dir_lookup (pretty (find_lastnum base)) base = Some (Dir old))
    (Hwf : well_formed (st_pkgdir s)) (Hwfo : well_formed old)
    (Hclash : forall f, os_path_isfile f (st_pkgdir s) = true ->
                        os_path_isdir f old = false) :
  exists s' c bk',
    collect_changes L pkgdir base_path (find_lastnum base) s = (s', Ok c) /\
    st_repo s' = Some bk' /\
    revision_numbers bk' = (revision_numbers base ++ [(find_lastnum base + 1)%Z])%list /\
    (forall f, f <> pretty (find_lastnum base + 1)%Z ->
               dir_lookup f bk' = dir_lookup f base) /\
    find_lastnum bk' = (find_lastnum base + 1)%Z.
Proof.
  destruct (collect_changes_spec L pkgdir base_path (find_lastnum base) s base old
              Hrepo Hfree Hlast Hwf Hwfo Hclash)
    as (s' & c & bk' & es' & Hrun & _ & Hrepo' & Hls & Hother & Hthis & _).
  exists s', c, bk'. split; [exact Hrun|]. split; [exact Hrepo'|].
  pose proof (revision_numbers_after base bk' _ es' Hls Hother Hfree Hthis) as Hnums.
  split; [exact Hnums|]. split; [exact Hother|].
  destruct (find_lastnum_spec base) as (Hlow & Hub & _).
  destruct (find_lastnum_spec bk') as (_ & Hub' & Hmem').
  rewrite Hnums in Hub', Hmem'.
  assert (find_lastnum base + 1 <= find_lastnum bk')%Z as Hle.
  { apply Hub'. apply elem_of_app. right. apply list_elem_of_here. }
  destruct Hmem' as [Hm|Hm]; [lia|].
  apply elem_of_app in Hm as [Hm|Hm].
  - apply Hub in Hm. lia.
  - by apply list_elem_of_singleton in Hm.
Qed.

Lemma new_revision_is_found_next_witness :
  exists s' c bk',
    collect_changes Ref.lib "pkgdir" "base" 0
      (committer_state ExampleDirs.new_pkg [("0", Dir ExampleDirs.old_rev)])
    = (s', Ok c) /\
    st_repo s' = Some bk' /\ find_lastnum bk' = 1%Z.
Proof.
  destruct (new_revision_is_found_next Ref.lib "pkgdir" "base"
              (committer_state ExampleDirs.new_pkg [("0", Dir ExampleDirs.old_rev)])
              [("0", Dir ExampleDirs.old_rev)] ExampleDirs.old_rev
              eq_refl eq_refl eq_refl
              (concrete_NoDup (os_listdir ExampleDirs.new_pkg) eq_refl)
              (concrete_NoDup (os_listdir ExampleDirs.old_rev) eq_refl)
              (concrete_no_clash ExampleDirs.new_pkg ExampleDirs.old_rev eq_refl))
    as (s' & c & bk' & Hrun & Hrepo & _ & _ & Hnext).
  exists s', c, bk'. split; [exact Hrun|]. split; [exact Hrepo|exact Hnext].
Defined.

(** ** A name that is a file in the package and a directory before *)

Lemma for_acc_app {A B} (l1 l2 : list A) (acc : B) (body : A -> B -> M B) s :
  for_acc (l1 ++ l2) acc body s =
    match for_acc l1 acc body s with
    | (s1, Ok acc1) => for_acc l2 acc1 body s1
    | (s1, Raise e) => (s1, Raise e)
    end.
Proof.
  revert acc s. induction l1 as [|x l1 IH]; intros acc s; simpl; [done|].
  unfold bind. destruct (body x acc s) as [s1 [acc1|e]]; [apply IH|done].
Qed.

Lemma concrete_no_clash_in (names : list string) (pkg old : dir) :
  forallb (fun f => negb (os_path_isfile f pkg && os_path_isdir f old)) names = true ->
  forall f, f ∈ names -> os_path_isfile f pkg = true -> os_path_isdir f old = false.
Proof.
  intros H f Hin Hf. rewrite forallb_forall in H.
  specialize (H f (proj1 (list_elem_of_In _ _) Hin)).
  rewrite Hf in H. simpl in H. by destruct (os_path_isdir f old).
Qed.

(** X13.  The copy loop fails on the first regular file of the package whose
    name is a directory in the previous revision: the file has been copied to
    the new revision, it is found among the names of the previous revision,
    and opening the old path raises the error of a directory opened as a
    file.  Nothing after that file is looked at. *)
Theorem name_clash_stops_the_copy_loop
    (L : Lib) (pkgdir base_path : string) (lastnum : Z) (s : state)
    (base old sub : dir) (before after : list string) (f content : string)
    (Hrepo : st_repo s = Some base)
    (Hfree : dir_lookup (pretty (lastnum + 1)%Z) base = None)
    (Hlast : dir_lookup (pretty lastnum) base = Some (Dir old))
    (Hwf : well_formed (st_pkgdir s)) (Hwfo : well_formed old)
    (Hls : os_listdir (st_pkgdir s) = (before ++ f :: after)%list)
    (Hbefore : forall g, g ∈ before -> os_path_isfile g (st_pkgdir s) = true ->
                         os_path_isdir g old = false)
    (Hfile : dir_lookup f (st_pkgdir s) = Some (File content))
    (Hdir : dir_lookup f old = Some (Dir sub)) :
  exists s' bk' es',
    collect_changes L pkgdir base_path lastnum s
    = (s', Raise (OSError EISDIR
                    (os_path_join (os_path_join base_path (pretty lastnum)) f))) /\
    st_repo s' = Some bk' /\
    dir_lookup (pretty (lastnum + 1)%Z) bk' = Some (Dir es') /\
    dir_lookup f es' = Some (File content) /\
    (forall g, g ∈ after -> g ∉ before -> dir_lookup g es' = None).
Proof.
  set (pkg := st_pkgdir s) in *.
  set (bk0 := (base ++ [((pretty (lastnum + 1)%Z), Dir [])])%list).
  set (s0 := {| st_pkgdir := pkg; st_repo := Some bk0;
                st_trace := (st_trace s ++ [MakeDirs (os_path_join base_path (pretty (lastnum + 1)%Z))])%list |}).
  assert (makedirs_revision base_path (pretty (lastnum + 1)%Z) s = (s0, Ok tt)) as Hmk.
  { unfold makedirs_revision. erewrite bind_ok by by apply run_get_base.
    rewrite Hfree. by run_m. }
  assert (dir_lookup (pretty lastnum) bk0 = Some (Dir old)) as Hlast0.
  { unfold bk0, dir_lookup. rewrite alist_get_app. fold (dir_lookup (pretty lastnum) base).
    by rewrite Hlast. }
  assert (dir_lookup (pretty (lastnum + 1)%Z) bk0 = Some (Dir [])) as Hthis0.
  { unfold bk0, dir_lookup. rewrite alist_get_app. fold (dir_lookup (pretty (lastnum + 1)%Z) base).
    rewrite Hfree. simpl. by destruct (decide ((pretty (lastnum + 1)%Z) = (pretty (lastnum + 1)%Z))). }
  unfold well_formed in Hwf. rewrite Hls in Hwf.
  apply NoDup_app in Hwf as (Hndb & Hdisj & Hndf).
  apply NoDup_cons in Hndf as [Hfa _].
  assert (f ∉ before) as Hfb.
  { intros Hin. apply (Hdisj f Hin). apply list_elem_of_here. }
  destruct (collect_loop L pkgdir base_path lastnum pkg old before Hndb Hbefore
              {| removedfiles := os_listdir old; addedfiles := []; filediffs := [] |}
              s0 bk0 [] eq_refl eq_refl Hlast0 Hthis0 (fun _ => eq_refl) Hwfo
              (fun _ H => H))
    as (s1 & c1 & Hrun & bk1 & es1 & P1 & P2 & P3 & P4 & P5 & P6 & P7 & P8 & P9 & _).
  simpl in P9.
  assert (~ picked pkg before f) as Hnp by (by intros [? _]).
  assert (dir_lookup f es1 = None) as Hes1 by (by rewrite P8).
  set (es2 := dir_set f (File content) es1).
  set (bk2 := dir_set (pretty (lastnum + 1)%Z) (Dir es2) bk1).
  set (s2 := {| st_pkgdir := st_pkgdir s1; st_repo := Some bk2;
                st_trace := (st_trace s1 ++
                  [CopyFile (os_path_join pkgdir f)
                     (os_path_join (os_path_join base_path (pretty (lastnum + 1)%Z)) f)])%list |}).
  assert (copyfile pkgdir base_path (pretty (lastnum + 1)%Z) f s1 = (s2, Ok tt)) as Hcp.
  { apply (run_copyfile pkgdir base_path _ f s1 bk1 es1 content); [by rewrite P1|done..|].
    unfold os_path_isdir. by rewrite Hes1. }
  assert (list_in f (removedfiles c1) = true) as Hin.
  { apply list_in_spec. apply P9. split; [|done].
    unfold dir_lookup in Hdir. by eapply alist_get_Some_name. }
  assert (dir_lookup (pretty lastnum) bk2 = Some (Dir old)) as Hlast2.
  { unfold bk2, dir_lookup, dir_set. rewrite alist_get_set.
    destruct (decide (pretty (lastnum + 1)%Z = pretty lastnum)) as [Heq|_];
      [by apply pretty_succ_ne in Heq|done]. }
  exists s2, bk2, es2. split.
  { unfold collect_changes. erewrite bind_ok by exact Hmk.
    erewrite bind_ok by by eapply (run_revision_entries _ _ s0).
    unfold bind at 1, get_pkgdir at 1. simpl st_pkgdir. fold pkg.
    rewrite Hls, for_acc_app, Hrun. simpl.
    unfold bind at 1. unfold collect_step at 1, os_path_isfile. rewrite Hfile. simpl.
    erewrite bind_ok by exact Hcp. rewrite Hin.
    unfold bind at 1, read_revision_file at 1.
    erewrite bind_ok by by eapply (run_revision_entries _ _ s2).
    by rewrite Hdir. }
  split; [done|]. split.
  { unfold bk2, dir_lookup, dir_set. rewrite alist_get_set.
    by destruct (decide (pretty (lastnum + 1)%Z = pretty (lastnum + 1)%Z)). }
  split.
  { unfold es2, dir_lookup, dir_set. rewrite alist_get_set.
    by destruct (decide (f = f)). }
  intros g Hga Hgb. unfold es2, dir_lookup, dir_set. rewrite alist_get_set.
  destruct (decide (f = g)) as [->|_]; [done|].
  fold (dir_lookup g es1). rewrite P8; [done|]. by intros [? _].
Qed.

Lemma name_clash_stops_the_copy_loop_witness :
  exists s',
    collect_changes Ref.lib "pkgdir" "base" 0
      (committer_state
         [("b.txt", File "B2"); ("docs", File "D"); ("c.txt", File "C")]
         [("0", Dir ExampleDirs.old_with_dir)])
    = (s', Raise (OSError EISDIR "base/0/docs")).
Proof.
  destruct (name_clash_stops_the_copy_loop Ref.lib "pkgdir" "base" 0
              (committer_state
                 [("b.txt", File "B2"); ("docs", File "D"); ("c.txt", File "C")]
                 [("0", Dir ExampleDirs.old_with_dir)])
              [("0", Dir ExampleDirs.old_with_dir)] ExampleDirs.old_with_dir
              [("x", File "X")] ["b.txt"] ["c.txt"] "docs" "D"
              eq_refl eq_refl eq_refl
              (concrete_NoDup ["b.txt"; "docs"; "c.txt"] eq_refl)
              (concrete_NoDup (os_listdir ExampleDirs.old_with_dir) eq_refl)
              eq_refl
              (concrete_no_clash_in ["b.txt"]
                 [("b.txt", File "B2"); ("docs", File "D"); ("c.txt", File "C")]
                 ExampleDirs.old_with_dir eq_refl)
              eq_refl eq_refl)
    as (s' & _ & _ & Hrun & _).
  exists s'. exact Hrun.
Defined.

(** ** The pull request comes last *)

Lemma no_post_download w b scratchdir :
  quiet no_post (_download_unpack_stub_universe w b scratchdir).
Proof. unfold _download_unpack_stub_universe. quiet_auto. Qed.

Lemma no_post_mirror w b scratchdir urls :
  quiet no_post (_copy_artifacts_s3 w b scratchdir urls).
Proof.
  unfold _copy_artifacts_s3, _run_cmd.
  apply quiet_bind.
  { destruct (truthy (_dry_run b)); [apply quiet_ret|by apply quiet_system]. }
  intros r.
  destruct (decide (r = 0%Z)); [apply quiet_raise|].
  destruct (decide (r > 256)%Z); [apply quiet_raise|].
  apply quiet_for_each. intros url. unfold copy_artifact, retrieve.
  apply quiet_bind.
  - destruct (truthy (_dry_run b)).
    + apply quiet_bind; [by apply quiet_emit|]. intros _. by apply quiet_system.
    + apply quiet_bind; [|intros _; by apply quiet_system].
      apply quiet_bind; [apply quiet_get_trace|]. intros t.
      apply quiet_bind; [by apply quiet_emit|]. intros _.
      destruct (retrieve_ok w t url); [apply quiet_ret|apply quiet_raise].
  - intros r'. destruct (decide (r' = 0%Z)); [by apply quiet_emit|apply quiet_raise].
Qed.

Lemma no_post_collect_changes L pkgdir base_path lastnum :
  quiet no_post (collect_changes L pkgdir base_path lastnum).
Proof.
  unfold collect_changes. apply quiet_bind.
  { unfold makedirs_revision. apply quiet_bind; [apply quiet_get_base|]. intros base.
    quiet_auto. }
  intros _. apply quiet_bind; [apply quiet_revision_entries|]. intros old.
  apply quiet_bind; [apply quiet_get_pkgdir|]. intros d.
  apply quiet_for_acc. intros f c. unfold collect_step.
  destruct (negb (os_path_isfile f d)); [apply quiet_ret|].
  apply quiet_bind.
  { unfold copyfile. apply quiet_bind; [apply quiet_read_pkg_file|]. intros content.
    apply quiet_bind; [apply quiet_get_base|]. intros base.
    apply quiet_bind; [apply quiet_revision_entries|]. intros es.
    quiet_auto. }
  intros _. destruct (list_in f (removedfiles c)); [|apply quiet_ret].
  apply quiet_bind; [apply quiet_read_revision_file|]. intros oldfile.
  apply quiet_bind; [apply quiet_read_revision_file|]. intros newfile.
  apply quiet_ret.
Qed.

Lemma no_post_committer L w b scratchdir pkgdir :
  quiet no_post (_create_universe_branch L w b scratchdir pkgdir).
Proof.
  unfold _create_universe_branch.
  apply quiet_bind; [by apply quiet_system|]. intros r.
  destruct (decide (r <> 0%Z)); [apply quiet_raise|].
  apply quiet_bind; [apply quiet_set_repo|]. intros _.
  apply quiet_bind; [apply quiet_get_base|]. intros base.
  apply quiet_bind; [apply no_post_collect_changes|]. intros c.
  apply quiet_bind; [by apply quiet_emit|]. intros _.
  apply quiet_bind; [by apply quiet_system|].
  intros r'. destruct (decide (r' <> 0%Z)); [apply quiet_raise|apply quiet_ret].
Qed.

(** A run of the committer that ends normally: what it returns and how its
    events end. *)
Lemma committer_ok L w b scratchdir pkgdir s s' bc :
  _create_universe_branch L w b scratchdir pkgdir s = (s', Ok bc) ->
  let msg := os_path_join scratchdir "commitmsg.txt" in
  let push := push_cmd b scratchdir msg (branch_name w b) in
  bc = (branch_name w b, msg) /\
  exists n text,
    st_trace s' = (st_trace s ++ n ++ [WriteFile msg text; Shell push])%list /\
    Forall no_post n /\
    os_system w (st_trace s ++ n ++ [WriteFile msg text])%list push = 0%Z.
Proof.
  unfold _create_universe_branch.
  unfold bind at 1. unfold system at 1. run_m.
  destruct (decide (os_system w (st_trace s) _ <> 0%Z)); [done|].
  run_m. unfold get_base at 1. run_m.
  destruct (cloned_pkg_base w) as [base|]; [|done]. simpl.
  match goal with
  | |- context [collect_changes ?L ?p ?bp ?ln ?s0] =>
      destruct (no_post_collect_changes L p bp ln s0) as (nev & Hn & Hall);
      destruct (collect_changes L p bp ln s0) as [s1 [c|?]]; [|done]
  end.
  simpl in *.
  destruct (decide (os_system w _ _ <> 0%Z)) as [|Hz]; [done|].
  intros [= <- <-]. split; [done|]. simpl.
  exists (Shell (clone_cmd scratchdir (branch_name w b)) :: nev),
    (_pr_title b +:+ Str.concat (resultlines b (find_lastnum base) c)).
  rewrite Hn in *. rewrite <- !app_assoc in *. simpl in *.
  split; [done|]. split; [by constructor|]. lia.
Qed.

Lemma post_is_last (n pre post : list event) (a u : string) (x r : string) :
  Forall no_post n ->
  (n ++ [Post a x])%list = (pre ++ Post u r :: post)%list ->
  pre = n /\ post = [] /\ u = a /\ r = x.
Proof.
  revert pre. induction n as [|e n IH]; intros pre Hall Heq.
  - destruct pre as [|e' pre]; simpl in Heq.
    + by injection Heq as <- <- <-.
    + injection Heq as _ Heq. by destruct pre.
  - apply Forall_cons in Hall as [He Hall].
    destruct pre as [|e' pre]; simpl in Heq.
    + injection Heq as -> _. done.
    + injection Heq as <- Heq. destruct (IH pre Hall Heq) as (-> & -> & -> & ->).
      done.
Qed.

Lemma no_post_inside (n pre post : list event) (u r : string) :
  Forall no_post n -> n <> (pre ++ Post u r :: post)%list.
Proof.
  intros Hall ->. apply Forall_app in Hall as [_ Hall].
  by apply Forall_cons in Hall as [? _].
Qed.

(** X14.  The pipeline asks for a pull request at most once and as the last
    thing it does: only in a real run, and only right after the commit
    message was written and the commit and push command ended with status 0.
    The request goes to the pulls API of Universe and carries the branch
    that was pushed and the commit message as its body.  No earlier stage
    calls the API, so a stage that fails leaves no pull request behind. *)
Theorem pull_request_follows_push
    (L : Lib) (w : World) (b : UniverseReleaseBuilder) (s : state) :
  let msg := os_path_join (mkdtemp w) "commitmsg.txt" in
  let push := push_cmd b (mkdtemp w) msg (branch_name w b) in
  exists new,
    st_trace (fst (release_zip L w b s)) = (st_trace s ++ new)%list /\
    forall pre url request post,
      new = (pre ++ Post url request :: post)%list ->
      truthy (_dry_run b) = false /\ post = [] /\ Forall no_post pre /\
      url = pulls_url /\
      exists n text,
        pre = (n ++ [WriteFile msg text; Shell push])%list /\
        request = json_dumps_compact L (pr_payload b (branch_name w b) text) /\
        os_system w (st_trace s ++ n ++ [WriteFile msg text])%list push = 0%Z.
Proof.
  intros msg push. unfold release_zip.
  assert (forall n, Forall no_post n ->
            forall pre url request post,
              n = (pre ++ Post url request :: post)%list ->
              truthy (_dry_run b) = false /\ post = [] /\ Forall no_post pre /\
              url = pulls_url /\
              exists n0 text,
                pre = (n0 ++ [WriteFile msg text; Shell push])%list /\
                request = json_dumps_compact L (pr_payload b (branch_name w b) text) /\
                os_system w (st_trace s ++ n0 ++ [WriteFile msg text])%list push = 0%Z)
    as Hnone.
  { intros n Hn pre url request post Heq. by destruct (no_post_inside n pre post url request). }
  (* the archive fetcher *)
  destruct (no_post_download w b (mkdtemp w) s) as (n1 & H1 & A1).
  unfold bind at 1.
  destruct (_download_unpack_stub_universe w b (mkdtemp w) s) as [s1 [pkgdir|e]];
    simpl in H1; [|exists n1; split; [done|by apply Hnone]].
  (* the metadata rewriter *)
  destruct (quiet_rewriter no_post L b pkgdir (fun _ _ => I) s1) as (n2 & H2 & A2).
  unfold bind at 1.
  destruct (_update_package_get_artifact_source_urls L b pkgdir s1) as [s2 [urls|e]];
    simpl in H2;
    [|exists (n1 ++ n2)%list; split;
      [simpl; by rewrite H2, H1, <- app_assoc|by apply Hnone, Forall_app]].
  (* the artifact mirror *)
  destruct (no_post_mirror w b (mkdtemp w) urls s2) as (n3 & H3 & A3).
  unfold bind at 1.
  destruct (_copy_artifacts_s3 w b (mkdtemp w) urls s2) as [s3 [[]|e]];
    simpl in H3;
    [|exists (n1 ++ n2 ++ n3)%list; split;
      [simpl; by rewrite H3, H2, H1, <- !app_assoc
      |by apply Hnone; repeat apply Forall_app_2]].
  assert (st_trace s3 = (st_trace s ++ n1 ++ n2 ++ n3)%list) as H123.
  { by rewrite H3, H2, H1, <- !app_assoc. }
  assert (Forall no_post (n1 ++ n2 ++ n3)%list) as A123.
  { by repeat apply Forall_app_2. }
  clear H1 H2 H3 A1 A2 A3.
  (* the revision committer *)
  destruct (no_post_committer L w b (mkdtemp w) pkgdir s3) as (n4 & H4 & A4).
  unfold bind at 1.
  destruct (_create_universe_branch L w b (mkdtemp w) pkgdir s3) as [s4 [bc|e]] eqn:Hc;
    simpl in H4;
    [|exists ((n1 ++ n2 ++ n3) ++ n4)%list; split;
      [simpl; by rewrite H4, H123, <- !app_assoc|by apply Hnone, Forall_app]].
  apply committer_ok in Hc as (-> & n & text & Ht & An & Hz). simpl fst. simpl snd.
  fold msg in Ht, Hz. fold push in Ht, Hz.
  (* the pull request proposer *)
  unfold _create_universe_pr.
  destruct (truthy (_dry_run b)) eqn:Hdry.
  { exists ((n1 ++ n2 ++ n3) ++ n4)%list. split;
      [simpl; by rewrite H4, H123, <- !app_assoc|by apply Hnone, Forall_app]. }
  run_m.
  assert (st_trace s4 = ((st_trace s3 ++ n) ++ [WriteFile msg text; Shell push])%list)
    as Ht' by (by rewrite Ht, <- app_assoc).
  rewrite Ht', written_after_write. run_m.
  set (request := json_dumps_compact L _).
  set (all := ((n1 ++ n2 ++ n3) ++ n ++ [WriteFile msg text; Shell push])%list).
  assert (Forall no_post all) as Aall.
  { apply Forall_app. split; [done|]. apply Forall_app. split; [done|].
    by repeat constructor. }
  exists (all ++ [Post pulls_url request])%list. split.
  { destruct (getresponse w _ request); simpl; rewrite Ht, H123; unfold all;
      by rewrite <- !app_assoc. }
  intros pre url req post Heq.
  apply (post_is_last all) in Heq as (-> & -> & -> & ->); [|done].
  split; [done|]. split; [done|]. split; [done|]. split; [done|].
  exists ((n1 ++ n2 ++ n3) ++ n)%list, text. split.
  { unfold all. by rewrite <- !app_assoc. }
  split; [done|].
  rewrite H123 in Hz. rewrite <- Hz. f_equal. by rewrite <- !app_assoc.
Qed.

(** ** The token of the pull request API *)

Lemma b64_char_no_nl n : Str.is_nl (b64_char n) = false.
Proof.
  unfold b64_char.
  assert (N.to_nat (n mod 64) < 64)%nat as Hk.
  { pose proof (N.mod_lt n 64). lia. }
  revert Hk. generalize (N.to_nat (n mod 64)). intros k Hk.
  do 64 (destruct k as [|k]; [reflexivity|]). lia.
Qed.

Lemma b64_no_nl_steps s :
  has_nl (base64_b64encode s) = false /\
  (forall a, has_nl (base64_b64encode (String a s)) = false) /\
  (forall a b, has_nl (base64_b64encode (String a (String b s))) = false).
Proof.
  induction s as [|c s (IH1 & IH2 & IH3)].
  - split; [done|]. split; intros; cbn [base64_b64encode has_nl];
      by rewrite !b64_char_no_nl.
  - split; [apply IH2|]. split; [intros a; apply IH3|]. intros a b.
    cbn [base64_b64encode has_nl]. by rewrite !b64_char_no_nl, IH1.
Qed.

Lemma b64_no_nl s : has_nl (base64_b64encode s) = false.
Proof. apply b64_no_nl_steps. Qed.

Lemma b64_cons c x :
  exists n y, base64_b64encode (String c x) = String (b64_char n) y.
Proof. destruct x as [|b [|d r]]; eexists _, _; reflexivity. Qed.

Lemma rstrip_nl_none x : has_nl x = false -> Str.rstrip_char Str.nl x = x.
Proof.
  unfold Str.rstrip_char. induction x as [|c x IH]; cbn [Str.rstrip_by has_nl]; [done|].
  intros [Hc Hx]%orb_false_elim. rewrite IH by done.
  unfold Str.is_nl in Hc. rewrite Ascii.eqb_sym in Hc. destruct x; [by rewrite Hc|done].
Qed.

Lemma rstrip_nl_app a b :
  Str.rstrip_char Str.nl b <> "" ->
  Str.rstrip_char Str.nl (a +:+ b) = a +:+ Str.rstrip_char Str.nl b.
Proof.
  unfold Str.rstrip_char. intros Hb. induction a as [|c a IH]; simpl; [done|].
  rewrite IH. destruct (Str.rstrip_by (Ascii.eqb Str.nl) b); [done|].
  by destruct a.
Qed.

Lemma rstrip_cons_nonempty f c x :
  Str.rstrip_by f x <> "" -> Str.rstrip_by f (String c x) = String c (Str.rstrip_by f x).
Proof. simpl. by destruct (Str.rstrip_by f x). Qed.

Lemma rstrip_keeps_b64 n y :
  Str.rstrip_char Str.nl (String (b64_char n) y) <> "".
Proof.
  unfold Str.rstrip_char. cbn [Str.rstrip_by].
  destruct (Str.rstrip_by (Ascii.eqb Str.nl) y); [|done].
  pose proof (b64_char_no_nl n) as Hc. unfold Str.is_nl in Hc.
  rewrite Ascii.eqb_sym in Hc. by rewrite Hc.
Qed.

Lemma has_nl_app_nl a b : has_nl (a +:+ String Str.nl b) = true.
Proof.
  induction a as [|c a IH]; simpl; [done|]. rewrite IH. by destruct (Str.is_nl c).
Qed.

Lemma take_all n s : (String.length s <= n)%nat -> Str.take n s = s.
Proof.
  revert s. induction n as [|n IH]; intros [|c s] Hlen; simpl in *; try done; [lia|].
  rewrite IH; [done|lia].
Qed.

Lemma drop_all n s : (String.length s <= n)%nat -> Str.drop n s = "".
Proof.
  revert s. induction n as [|n IH]; intros [|c s] Hlen; simpl in *; try done; [lia|].
  apply IH. lia.
Qed.

Lemma drop_length n s : String.length (Str.drop n s) = (String.length s - n)%nat.
Proof.
  revert s. induction n as [|n IH]; intros [|c s]; simpl; try done; lia.
Qed.

Lemma encode_pieces_cons fuel c t :
  encode_pieces (S fuel) (String c t)
  = base64_b64encode (Str.take 57 (String c t)) +:+
    String Str.nl (encode_pieces fuel (Str.drop 57 (String c t))).
Proof. reflexivity. Qed.

Lemma encode_pieces_nil fuel : encode_pieces fuel "" = "".
Proof. by destruct fuel. Qed.

Lemma encodestring_short tok :
  (String.length tok <= 57)%nat ->
  Str.rstrip_char Str.nl (base64_encodestring tok) = base64_b64encode tok.
Proof.
  intros Hlen. unfold base64_encodestring.
  destruct tok as [|c t]; [done|].
  change (String.length (String c t)) with (S (String.length t)).
  rewrite encode_pieces_cons, take_all, drop_all, encode_pieces_nil by done.
  unfold Str.rstrip_char. rewrite rstrip_by_app by done.
  apply rstrip_nl_none, b64_no_nl.
Qed.

Lemma encodestring_long tok :
  (57 < String.length tok)%nat ->
  has_nl (Str.rstrip_char Str.nl (base64_encodestring tok)) = true.
Proof.
  intros Hlen. unfold base64_encodestring.
  destruct tok as [|c t]; [simpl in Hlen; lia|].
  change (String.length (String c t)) with (S (String.length t)) in *.
  rewrite encode_pieces_cons.
  pose proof (drop_length 57 (String c t)) as Hd.
  change (String.length (String c t)) with (S (String.length t)) in Hd.
  destruct (Str.drop 57 (String c t)) as [|c' t'] eqn:Hdrop;
    [simpl in Hd; lia|].
  destruct (String.length t) as [|fuel]; [lia|].
  rewrite encode_pieces_cons.
  assert (exists n y, Str.take 57 (String c' t') = String n y) as (x & y & ->).
  { by eexists _, _. }
  destruct (b64_cons x y) as (n & z & ->).
  match goal with
  | |- has_nl (Str.rstrip_char Str.nl (?a +:+ String Str.nl ?rest)) = true =>
      assert (Str.rstrip_char Str.nl rest <> "") as Hrest;
      [|rewrite (rstrip_nl_app a (String Str.nl rest));
        [unfold Str.rstrip_char in *; rewrite rstrip_cons_nonempty by done;
         apply has_nl_app_nl
        |unfold Str.rstrip_char in *; by rewrite rstrip_cons_nonempty]]
  end.
  change (String (b64_char n) z +:+ ?r) with (String (b64_char n) (z +:+ r)).
  apply rstrip_keeps_b64.
Qed.

(** X15.  The token that the constructor keeps for the [Authorization]
    header is the base64 text of [GITHUB_TOKEN] on one line when the token has
    at most 57 bytes.  A longer token is encoded in lines of 76 characters and
    only the line feed at the very end is stripped, so the kept text holds a
    line feed. *)
Theorem github_token_header
    (L : Lib) (environ : gmap string string)
    (package_version url commit_desc min_ver http_server bucket rel_dir : string)
    (b : UniverseReleaseBuilder) (tok : string)
    (Hb : __init__ L environ package_version url commit_desc min_ver http_server
            bucket rel_dir = Ok b)
    (Htok : environ !! "GITHUB_TOKEN" = Some tok) :
  ((String.length tok <= 57)%nat ->
     _github_token b = base64_b64encode tok /\ has_nl (_github_token b) = false) /\
  ((57 < String.length tok)%nat -> has_nl (_github_token b) = true).
Proof.
  unfold __init__ in Hb. rewrite Htok in Hb.
  destruct (name_match url) as [g|]; [|done].
  destruct (environ !! "AWS_ACCESS_KEY_ID"); [|done].
  destruct (environ !! "AWS_SECRET_ACCESS_KEY"); [|done].
  injection Hb as <-. cbn [_github_token]. split.
  - intros Hlen. rewrite encodestring_short by done. split; [done|apply b64_no_nl].
  - apply encodestring_long.
Qed.

Lemma github_token_header_witness :
  _github_token (Example.builder "") = base64_b64encode "token" /\
  has_nl (_github_token (Example.builder "")) = false.
Proof.
  apply (proj1 (github_token_header Ref.lib (Example.env "")
                  "1.2.3" Example.url "" "1.7" "https://downloads.mesosphere.com"
                  "downloads.mesosphere.io" "" (Example.builder "") "token"
                  eq_refl eq_refl)).
  vm_compute. lia.
Defined.
